(** * Outlook connector: tool dispatcher, Graph client and start-up

    A shallow embedding of [outlook_mcp.py] (the MCP server: [GraphClient],
    [initialize_graph_client], [handle_call_tool], [main]) and of
    [GraphEmailClient.bulk_mark_read] from [outlook_email_client.py],
    followed by the properties of the dispatcher.

    Conventions of the embedding.
    - Python values that cross the boundary (tool arguments, JSON bodies)
      are [pyval]; dictionaries are association lists in insertion order.
    - Strings are [string]; one [ascii] stands for one character.
    - A computation that may raise is an [outcome]; one that also talks to
      the remote service or reads the clock is an [M], a state and error
      monad over [World] (the log of requests sent and the number of clock
      readings taken).
    - The remote service, the wall clock and [datetime.fromisoformat] are
      the fields of [Env]. *)

From Stdlib Require Import ZArith List String Ascii Bool Lia DecimalString.
Import ListNotations.
Open Scope string_scope.
Open Scope Z_scope.

Set Warnings "-register-all".

(** ** Characters and text *)

Definition ord (c : ascii) : Z := Z.of_N (N_of_ascii c).
Definition chr (n : Z) : ascii := ascii_of_N (Z.to_N n).

Definition dquote : string := String (chr 34) EmptyString.
Definition nl : string := String (chr 10) EmptyString.

Definition is_digit (c : ascii) : bool := (48 <=? ord c) && (ord c <=? 57).
Definition digit_val (c : ascii) : Z := ord c - 48.
Definition digit_char (k : Z) : ascii := chr (48 + k).

(** [str(n)] for a Python int. *)
Definition Z_str (n : Z) : string := NilZero.string_of_int (Z.to_int n).

(** ["%02d" % n] for [0 <= n < 100] and ["%04d" % n] for [0 <= n < 10000]:
    the ranges of the fields of a [datetime]. *)
Definition pad2 (n : Z) : string :=
  String (digit_char (n / 10)) (String (digit_char (n mod 10)) EmptyString).
Definition pad4 (n : Z) : string :=
  String (digit_char (n / 1000))
    (String (digit_char (n / 100 mod 10))
       (String (digit_char (n / 10 mod 10))
          (String (digit_char (n mod 10)) EmptyString))).

Definition hex_char (k : Z) : ascii :=
  if k <? 10 then chr (48 + k) else chr (87 + k).

Fixpoint str_mem (c : ascii) (s : string) : bool :=
  match s with
  | EmptyString => false
  | String a r => Ascii.eqb a c || str_mem c r
  end.

(** [s.replace(c, by)] for a one-character pattern. *)
Fixpoint str_replace (c : ascii) (by_ : string) (s : string) : string :=
  match s with
  | EmptyString => EmptyString
  | String a r =>
      if Ascii.eqb a c then by_ ++ str_replace c by_ r
      else String a (str_replace c by_ r)
  end.

(** [s.split(c)[0]]. *)
Fixpoint str_before (c : ascii) (s : string) : string :=
  match s with
  | EmptyString => EmptyString
  | String a r => if Ascii.eqb a c then EmptyString else String a (str_before c r)
  end.

(** [s[:n]]. *)
Fixpoint str_take (n : nat) (s : string) : string :=
  match n, s with
  | S n', String a r => String a (str_take n' r)
  | _, _ => EmptyString
  end.

Definition str_chars (s : string) : list string :=
  map (fun c => String c EmptyString) (list_ascii_of_string s).

Definition str_lower_char (c : ascii) : ascii :=
  if (65 <=? ord c) && (ord c <=? 90) then chr (ord c + 32) else c.

Definition str_lower (s : string) : string :=
  string_of_list_ascii (map str_lower_char (list_ascii_of_string s)).

(** [needle in hay]. *)
Definition contains (needle hay : string) : Prop :=
  exists pre post, hay = pre ++ needle ++ post.

(** [repr(s)] for a [str]: quote choice and escapes of CPython. *)
Definition repr_char (q : ascii) (c : ascii) : string :=
  let bs := String (chr 92) EmptyString in
  if Ascii.eqb c (chr 92) then bs ++ bs
  else if Ascii.eqb c q then bs ++ String q EmptyString
  else if Ascii.eqb c (chr 10) then bs ++ "n"
  else if Ascii.eqb c (chr 13) then bs ++ "r"
  else if Ascii.eqb c (chr 9) then bs ++ "t"
  else if (ord c <? 32) || (ord c =? 127) then
    bs ++ "x" ++ String (hex_char (ord c / 16)) (String (hex_char (ord c mod 16)) EmptyString)
  else String c EmptyString.

Definition repr_str (s : string) : string :=
  let q := if str_mem (chr 39) s && negb (str_mem (chr 34) s) then chr 34 else chr 39 in
  String q EmptyString
    ++ String.concat EmptyString (map (repr_char q) (list_ascii_of_string s))
    ++ String q EmptyString.

(** ** Python values *)

Inductive pyval : Type :=
| PNone
| PBool (b : bool)
| PInt (n : Z)
| PStr (s : string)
| PList (l : list pyval)
| PDict (d : list (string * pyval)).

Definition dict : Type := list (string * pyval).

Fixpoint dict_get (d : dict) (k : string) : option pyval :=
  match d with
  | [] => None
  | (k', v) :: r => if String.eqb k' k then Some v else dict_get r k
  end.

(** [d[k] = v]: overwrite in place, or append a new key. *)
Fixpoint dict_set (d : dict) (k : string) (v : pyval) : dict :=
  match d with
  | [] => [(k, v)]
  | (k', v') :: r =>
      if String.eqb k' k then (k', v) :: r else (k', v') :: dict_set r k v
  end.

(** [d.get(k, default)]. *)
Definition dict_get_default (d : dict) (k : string) (default : pyval) : pyval :=
  match dict_get d k with Some v => v | None => default end.

(** [bool(v)]. *)
Definition truthy (v : pyval) : bool :=
  match v with
  | PNone => false
  | PBool b => b
  | PInt n => negb (n =? 0)
  | PStr s => negb (String.eqb s EmptyString)
  | PList l => match l with [] => false | _ => true end
  | PDict d => match d with [] => false | _ => true end
  end.

Definition type_name (v : pyval) : string :=
  match v with
  | PNone => "NoneType"
  | PBool _ => "bool"
  | PInt _ => "int"
  | PStr _ => "str"
  | PList _ => "list"
  | PDict _ => "dict"
  end.

Fixpoint py_repr (v : pyval) : string :=
  match v with
  | PNone => "None"
  | PBool b => if b then "True" else "False"
  | PInt n => Z_str n
  | PStr s => repr_str s
  | PList l => "[" ++ String.concat ", " (map py_repr l) ++ "]"
  | PDict d =>
      "{" ++ String.concat ", "
               (map (fun kv => match kv with
                               | (k, x) => repr_str k ++ ": " ++ py_repr x
                               end) d) ++ "}"
  end.

(** [str(v)], which is what an f-string field renders. *)
Definition py_str (v : pyval) : string :=
  match v with
  | PStr s => s
  | _ => py_repr v
  end.

(** ** Exceptions and outcomes *)

Inductive exn_class : Type :=
| Exception
| ValueError
| KeyError
| TypeError
| AttributeError
| OverflowError
| IndexError
| JSONDecodeError
| RequestException.

(** [exn_str] is [str(e)]. *)
Record exn : Type := mkExn { exn_cls : exn_class; exn_str : string }.

(** [isinstance(e, ValueError)]: the JSON decoding error derives from it. *)
Definition is_ValueError (e : exn) : bool :=
  match exn_cls e with
  | ValueError | JSONDecodeError => true
  | _ => false
  end.

Inductive outcome (A : Type) : Type :=
| Ok (a : A)
| Raise (e : exn).
Arguments Ok {A} a.
Arguments Raise {A} e.

Definition obind {A B} (o : outcome A) (k : A -> outcome B) : outcome B :=
  match o with
  | Ok a => k a
  | Raise e => Raise e
  end.

Fixpoint omap {A B} (f : A -> outcome B) (l : list A) : outcome (list B) :=
  match l with
  | [] => Ok []
  | a :: r => obind (f a) (fun b => obind (omap f r) (fun bs => Ok (b :: bs)))
  end.

Definition no_attribute (v : pyval) (attr : string) : exn :=
  mkExn AttributeError
    ("'" ++ type_name v ++ "' object has no attribute '" ++ attr ++ "'").

(** [v.get(k, default)] on an arbitrary value: only a dict has [get]. *)
Definition py_get (v : pyval) (k : string) (default : pyval) : outcome pyval :=
  match v with
  | PDict d => Ok (dict_get_default d k default)
  | _ => Raise (no_attribute v "get")
  end.

(** [d[k]] on the argument dict. *)
Definition py_getitem (d : dict) (k : string) : outcome pyval :=
  match dict_get d k with
  | Some v => Ok v
  | None => Raise (mkExn KeyError (repr_str k))
  end.

(** The integer a bool or int stands for in arithmetic and comparison. *)
Definition as_int (v : pyval) : option Z :=
  match v with
  | PInt n => Some n
  | PBool b => Some (if b then 1 else 0)
  | _ => None
  end.

(** [min(a, b)] for [b] an int literal: [b if b < a else a]. *)
Definition py_min (a : pyval) (b : Z) : outcome pyval :=
  match as_int a with
  | Some n => Ok (if b <? n then PInt b else a)
  | None =>
      Raise (mkExn TypeError
               ("'<' not supported between instances of 'int' and '"
                  ++ type_name a ++ "'"))
  end.

(** [iter(v)] run to the end. *)
Definition py_iter (v : pyval) : outcome (list pyval) :=
  match v with
  | PList l => Ok l
  | PStr s => Ok (map PStr (str_chars s))
  | PDict d => Ok (map (fun kv => PStr (fst kv)) d)
  | _ => Raise (mkExn TypeError ("'" ++ type_name v ++ "' object is not iterable"))
  end.

(** [sep.join(items)]: every item must be a [str]. *)
Fixpoint join_items (i : nat) (items : list pyval) : outcome (list string) :=
  match items with
  | [] => Ok []
  | PStr s :: r => obind (join_items (S i) r) (fun ss => Ok (s :: ss))
  | v :: _ =>
      Raise (mkExn TypeError
               ("sequence item " ++ Z_str (Z.of_nat i) ++ ": expected str instance, "
                  ++ type_name v ++ " found"))
  end.

Definition py_join (sep : string) (v : pyval) : outcome string :=
  match v with
  | PInt _ | PBool _ | PNone => Raise (mkExn TypeError "can only join an iterable")
  | _ => obind (py_iter v) (fun items =>
         obind (join_items 0 items) (fun ss => Ok (String.concat sep ss)))
  end.

(** [v[:n]] and [len(v)]. *)
Definition py_slice_to (n : nat) (v : pyval) : outcome pyval :=
  match v with
  | PStr s => Ok (PStr (str_take n s))
  | PList l => Ok (PList (firstn n l))
  | PDict _ => Raise (mkExn TypeError "unhashable type: 'slice'")
  | _ => Raise (mkExn TypeError ("'" ++ type_name v ++ "' object is not subscriptable"))
  end.

Definition py_len (v : pyval) : outcome Z :=
  match v with
  | PStr s => Ok (Z.of_nat (String.length s))
  | PList l => Ok (Z.of_nat (List.length l))
  | PDict d => Ok (Z.of_nat (List.length d))
  | _ => Raise (mkExn TypeError ("object of type '" ++ type_name v ++ "' has no len()"))
  end.

(** [v[0]]. *)
Definition py_first (v : pyval) : outcome pyval :=
  match v with
  | PList (x :: _) => Ok x
  | PList [] => Raise (mkExn IndexError "list index out of range")
  | PStr (String c _) => Ok (PStr (String c EmptyString))
  | PStr EmptyString => Raise (mkExn IndexError "string index out of range")
  | PDict _ => Raise (mkExn KeyError "0")
  | _ => Raise (mkExn TypeError ("'" ++ type_name v ++ "' object is not subscriptable"))
  end.

(** ** [datetime]

    The part of the standard [datetime] module the server uses: naive
    datetimes, [isoformat], [strftime] with the two layouts of the
    renderer, [timedelta(days=n)] addition and [strptime] for the
    directives of the three accepted formats. *)

Record datetime : Type := mkDatetime {
  year : Z; month : Z; day : Z;
  hour : Z; minute : Z; second : Z; microsecond : Z
}.

Definition is_leap (y : Z) : bool :=
  (y mod 4 =? 0) && (negb (y mod 100 =? 0) || (y mod 400 =? 0)).

Definition days_in_month (y m : Z) : Z :=
  if m =? 2 then (if is_leap y then 29 else 28)
  else if (m =? 4) || (m =? 6) || (m =? 9) || (m =? 11) then 30
  else 31.

(** Days before the first of month [m] in a common year. *)
Definition days_before_month_common (m : Z) : Z :=
  nth (Z.to_nat m) [0; 0; 31; 59; 90; 120; 151; 181; 212; 243; 273; 304; 334] 0.

Definition days_before_month (y m : Z) : Z :=
  days_before_month_common m + (if (2 <? m) && is_leap y then 1 else 0).

Definition days_before_year (y : Z) : Z :=
  let p := y - 1 in p * 365 + p / 4 - p / 100 + p / 400.

(** [date.toordinal]: 1 is 0001-01-01. *)
Definition ymd2ord (y m d : Z) : Z :=
  days_before_year y + days_before_month y m + d.

Definition MINYEAR : Z := 1.
Definition MAXYEAR : Z := 9999.
Definition MAXORDINAL : Z := 3652059.

(** [date.fromordinal], by 400-, 100-, 4- and 1-year cycles. *)
Definition ord2ymd (n0 : Z) : Z * Z * Z :=
  let n := n0 - 1 in
  let n400 := n / 146097 in
  let n := n mod 146097 in
  let n100 := n / 36524 in
  let n := n mod 36524 in
  let n4 := n / 1461 in
  let n := n mod 1461 in
  let n1 := n / 365 in
  let n := n mod 365 in
  let y := n400 * 400 + 1 + n100 * 100 + n4 * 4 + n1 in
  if (n1 =? 4) || (n100 =? 4) then (y - 1, 12, 31)
  else
    let leapyear := (n1 =? 3) && (negb (n4 =? 24) || (n100 =? 3)) in
    let m := Z.shiftr (n + 50) 5 in
    let preceding := days_before_month_common m + (if (2 <? m) && leapyear then 1 else 0) in
    if n <? preceding then
      let m' := m - 1 in
      let preceding' :=
        preceding - (days_in_month 1 m' + (if (m' =? 2) && leapyear then 1 else 0)) in
      (y, m', n - preceding' + 1)
    else (y, m, n - preceding + 1).

(** The checks of the [datetime] constructor. *)
Definition valid_datetime (t : datetime) : bool :=
  (MINYEAR <=? year t) && (year t <=? MAXYEAR)
  && (1 <=? month t) && (month t <=? 12)
  && (1 <=? day t) && (day t <=? days_in_month (year t) (month t))
  && (0 <=? hour t) && (hour t <=? 23)
  && (0 <=? minute t) && (minute t <=? 59)
  && (0 <=? second t) && (second t <=? 59)
  && (0 <=? microsecond t) && (microsecond t <=? 999999).

Definition pad6 (n : Z) : string :=
  pad2 (n / 10000) ++ pad2 (n / 100 mod 100) ++ pad2 (n mod 100).

(** [t.isoformat()]. *)
Definition isoformat (t : datetime) : string :=
  pad4 (year t) ++ "-" ++ pad2 (month t) ++ "-" ++ pad2 (day t) ++ "T"
    ++ pad2 (hour t) ++ ":" ++ pad2 (minute t) ++ ":" ++ pad2 (second t)
    ++ (if microsecond t =? 0 then EmptyString else "." ++ pad6 (microsecond t)).

(** [t.strftime("%Y-%m-%d %H:%M")] and [t.strftime("%H:%M")], the year
    written with four digits. *)
Definition strftime_date_hm (t : datetime) : string :=
  pad4 (year t) ++ "-" ++ pad2 (month t) ++ "-" ++ pad2 (day t) ++ " "
    ++ pad2 (hour t) ++ ":" ++ pad2 (minute t).

Definition strftime_hm (t : datetime) : string :=
  pad2 (hour t) ++ ":" ++ pad2 (minute t).

(** [a.date() == b.date()]. *)
Definition same_date (a b : datetime) : bool :=
  (year a =? year b) && (month a =? month b) && (day a =? day b).

(** [t + timedelta(days=n)]: the constructor of the delta bounds [n], the
    sum must stay within the ordinals of years 1 to 9999. *)
Definition add_days (t : datetime) (n : Z) : outcome datetime :=
  if 999999999 <? Z.abs n then
    Raise (mkExn OverflowError
             ("days=" ++ Z_str n ++ "; must have magnitude <= 999999999"))
  else
    let o := ymd2ord (year t) (month t) (day t) + n in
    if (0 <? o) && (o <=? MAXORDINAL) then
      match ord2ymd o with
      | (y, m, d) =>
          Ok (mkDatetime y m d (hour t) (minute t) (second t) (microsecond t))
      end
    else Raise (mkExn OverflowError "date value out of range").

(** *** [strptime]

    CPython turns the format into a regular expression, one alternation per
    directive, matched case-insensitively from the start of the text with
    backtracking; the text must then be used up.  Digits and white space are
    the ASCII ones.  [match_dir] lists the
    matches of one directive in the order the alternation tries them, each
    with the rest of the text. *)

Inductive directive : Type :=
| DY | Dm | Dd | DH | DM | DS
| Lit (c : ascii)
| WS.

Definition in_range (lo hi : Z) (c : ascii) : bool :=
  (lo <=? ord c) && (ord c <=? hi).
Definition is_char (k : Z) (c : ascii) : bool := ord c =? k.

(** [\s] on one character. *)
Definition is_space (c : ascii) : bool :=
  (ord c =? 32) || in_range 9 13 c || in_range 28 31 c.

Definition two (p1 p2 : ascii -> bool) (s : string) : list (list Z * string) :=
  match s with
  | String a (String b r) =>
      if p1 a && p2 b then [([10 * digit_val a + digit_val b], r)] else []
  | _ => []
  end.

Definition one (p : ascii -> bool) (s : string) : list (list Z * string) :=
  match s with
  | String a r => if p a then [([digit_val a], r)] else []
  | _ => []
  end.

Definition spaced (p : ascii -> bool) (s : string) : list (list Z * string) :=
  match s with
  | String a (String b r) =>
      if is_char 32 a && p b then [([digit_val b], r)] else []
  | _ => []
  end.

Definition four (s : string) : list (list Z * string) :=
  match s with
  | String a (String b (String c (String d r))) =>
      if is_digit a && is_digit b && is_digit c && is_digit d
      then [([1000 * digit_val a + 100 * digit_val b + 10 * digit_val c + digit_val d], r)]
      else []
  | _ => []
  end.

(** All the ways [\s+] matches a prefix, longest first. *)
Fixpoint spaces (s : string) : list (list Z * string) :=
  match s with
  | String a r => if is_space a then (spaces r ++ [([], r)])%list else []
  | EmptyString => []
  end.

Definition match_dir (d : directive) (s : string) : list (list Z * string) :=
  match d with
  | DY => four s
  | Dm => (two (is_char 49) (in_range 48 50) s ++ two (is_char 48) (in_range 49 57) s
             ++ one (in_range 49 57) s)%list
  | Dd => (two (is_char 51) (in_range 48 49) s ++ two (in_range 49 50) is_digit s
             ++ two (is_char 48) (in_range 49 57) s ++ one (in_range 49 57) s
             ++ spaced (in_range 49 57) s)%list
  | DH => (two (is_char 50) (in_range 48 51) s ++ two (in_range 48 49) is_digit s
             ++ one is_digit s)%list
  | DM => (two (in_range 48 53) is_digit s ++ one is_digit s)%list
  | DS => (two (is_char 54) (in_range 48 49) s ++ two (in_range 48 53) is_digit s
             ++ one is_digit s)%list
  | Lit c =>
      match s with
      | String a r =>
          if Ascii.eqb (str_lower_char a) (str_lower_char c) then [([], r)] else []
      | EmptyString => []
      end
  | WS => spaces s
  end.

Fixpoint match_seq (ds : list directive) (s : string) : list (list Z * string) :=
  match ds with
  | [] => [([], s)]
  | d :: ds' =>
      flat_map (fun vr => map (fun vr' => ((fst vr ++ fst vr')%list, snd vr'))
                              (match_seq ds' (snd vr)))
               (match_dir d s)
  end.

(** The format compiled to directives: a run of white space becomes one
    [\s+], any other character stands for itself.  [None] for a directive
    outside [%Y %m %d %H %M %S], which this model does not cover. *)
Fixpoint compile_format (f : string) : option (list directive) :=
  match f with
  | EmptyString => Some []
  | String a r =>
      if is_char 37 a then
        match r with
        | String k r' =>
            let d := if is_char 89 k then Some DY
                     else if is_char 109 k then Some Dm
                     else if is_char 100 k then Some Dd
                     else if is_char 72 k then Some DH
                     else if is_char 77 k then Some DM
                     else if is_char 83 k then Some DS
                     else None in
            match d, compile_format r' with
            | Some d', Some ds => Some (d' :: ds)
            | _, _ => None
            end
        | EmptyString => None
        end
      else
        match compile_format r with
        | Some ds =>
            if is_space a then
              Some (match ds with WS :: _ => ds | _ => WS :: ds end)
            else Some (Lit a :: ds)
        | None => None
        end
  end.

Definition no_match (s f : string) : exn :=
  mkExn ValueError
    ("time data " ++ repr_str s ++ " does not match format " ++ repr_str f).

(** [datetime.strptime(s, f)]. *)
Definition strptime (s f : string) : outcome datetime :=
  match compile_format f with
  | None => Raise (mkExn ValueError "bad directive in format")
  | Some ds =>
      match match_seq ds s with
      | [] => Raise (no_match s f)
      | (vs, rest) :: _ =>
          match rest with
          | String _ _ => Raise (mkExn ValueError ("unconverted data remains: " ++ rest))
          | EmptyString =>
              let t := mkDatetime (nth 0 vs 1900) (nth 1 vs 1) (nth 2 vs 1)
                                  (nth 3 vs 0) (nth 4 vs 0) (nth 5 vs 0) 0 in
              if year t <? MINYEAR then
                Raise (mkExn ValueError ("year " ++ Z_str (year t) ++ " is out of range"))
              else if days_in_month (year t) (month t) <? day t then
                Raise (mkExn ValueError "day is out of range for month")
              else if 59 <? second t then
                Raise (mkExn ValueError "second must be in 0..59")
              else Ok t
          end
      end
  end.

(** ** The world outside the process *)

(** One call of [requests.<method>(url, headers=..., json=..., params=...)]:
    [req_json] and [req_params] are [None] when the keyword is not passed. *)
Record request : Type := mkRequest {
  req_method : string;
  req_url : string;
  req_headers : list (string * string);
  req_json : option pyval;
  req_params : option pyval
}.

(** What the client reads of a response: [json_body] is the value of
    [response.json()], [None] when decoding raises. *)
Record response : Type := mkResponse {
  status_code : Z;
  content : string;
  json_body : option pyval
}.

Inductive http_result : Type :=
| Responded (r : response)
| Failed (e : exn).

(** [http] answers a request given the requests sent before it; [clock n]
    is the [n]-th reading of [datetime.now()]; [fromisoformat] is the
    library parser used by the renderer, [None] when it raises. *)
Record Env : Type := mkEnv {
  http : list request -> request -> http_result;
  clock : nat -> datetime;
  fromisoformat : string -> option datetime
}.

Record World : Type := mkWorld {
  trace : list request;
  ticks : nat
}.

Definition M (A : Type) : Type := World -> outcome A * World.

Definition ret {A} (a : A) : M A := fun w => (Ok a, w).
Definition raise {A} (e : exn) : M A := fun w => (Raise e, w).
Definition lift {A} (o : outcome A) : M A := fun w => (o, w).

Definition bind {A B} (m : M A) (k : A -> M B) : M B :=
  fun w =>
    match m w with
    | (Ok a, w') => k a w'
    | (Raise e, w') => (Raise e, w')
    end.

(** [try: m  except <class>: h e]. *)
Definition try_except {A} (m : M A) (catches : exn -> bool) (h : exn -> M A) : M A :=
  fun w =>
    match m w with
    | (Ok a, w') => (Ok a, w')
    | (Raise e, w') => if catches e then h e w' else (Raise e, w')
    end.

Notation "x <- m ;; k" := (bind m (fun x => k))
  (at level 61, m at next level, right associativity).

(** ** [GraphClient] *)

Record GraphClient : Type := mkGraphClient {
  client_id : string;
  client_secret : string;
  tenant_id : string;
  access_token : pyval;
  base_url : string
}.

(** [GraphClient(client_id, client_secret)]. *)
Definition GraphClient_init (cid csecret : string) : GraphClient :=
  mkGraphClient cid csecret "common" PNone "https://graph.microsoft.com/v1.0".

Definition success_status (code : Z) : bool :=
  (code =? 200) || (code =? 201) || (code =? 202) || (code =? 204).

Definition api_request_failed (r : response) : exn :=
  mkExn Exception
    ("API request failed: " ++ Z_str (status_code r) ++ " - " ++ content r).

Definition no_access_token : exn :=
  mkExn Exception "No access token available. Please authenticate first.".

(** The request [_make_request] builds. *)
Definition build_request (token : pyval) (base : string)
    (method endpoint : string) (data params : pyval) : request :=
  mkRequest (str_lower method) (base ++ endpoint)
    [("Authorization", "Bearer " ++ py_str token);
     ("Content-Type", "application/json")]
    (if truthy data then Some data else None)
    (if truthy params then Some params else None).

(** ** The tool catalog: [handle_list_tools]

    Each tool with the properties of its [inputSchema]; [prop_default] and
    [prop_maximum] are the schema's ["default"] and ["maximum"]. *)

Record Property : Type := mkProperty {
  prop_name : string;
  prop_type : string;
  prop_description : string;
  prop_default : option Z;
  prop_maximum : option Z
}.

Record Tool : Type := mkTool {
  tool_name : string;
  tool_description : string;
  tool_properties : list Property;
  tool_required : list string
}.

Definition handle_list_tools : list Tool :=
  [ mkTool "get_emails" "Get recent emails from inbox or search emails"
      [ mkProperty "count" "integer"
          "Number of emails to retrieve (default: 10, max: 50)" (Some 10) (Some 50);
        mkProperty "search" "string"
          "Search query to filter emails (optional)" None None ]
      [];
    mkTool "get_calendar_events" "Get upcoming calendar events"
      [ mkProperty "days" "integer"
          "Number of days to look ahead (default: 7)" (Some 7) (Some 30);
        mkProperty "count" "integer"
          "Maximum number of events (default: 20)" (Some 20) (Some 50) ]
      [];
    mkTool "create_calendar_event" "Create a new calendar event"
      [ mkProperty "subject" "string" "Event title" None None;
        mkProperty "start_time" "string"
          "Start time in ISO format (e.g., 2025-08-14T14:00:00) or natural language"
          None None;
        mkProperty "end_time" "string"
          "End time in ISO format or natural language" None None;
        mkProperty "location" "string" "Event location (optional)" None None;
        mkProperty "description" "string" "Event description (optional)" None None;
        mkProperty "attendees" "array" "Attendee email addresses (optional)" None None ]
      ["subject"; "start_time"; "end_time"];
    mkTool "get_user_info" "Get current user's profile information" [] [] ].

(** What [_make_request] does with the response: the status test, then
    [response.json() if response.content else None]. *)
Definition decode_response (r : response) : outcome pyval :=
  if success_status (status_code r) then
    match content r with
    | EmptyString => Ok PNone
    | String _ _ =>
        match json_body r with
        | Some v => Ok v
        | None => Raise (mkExn JSONDecodeError "Expecting value: line 1 column 1 (char 0)")
        end
    end
  else Raise (api_request_failed r).

Section Program.

Variable E : Env.

(** [datetime.now()]. *)
Definition now : M datetime :=
  fun w => (Ok (clock E (ticks w)), mkWorld (trace w) (S (ticks w))).

(** The call into [requests]: the request is logged, the service answers. *)
Definition send (rq : request) : M response :=
  fun w =>
    let w' := mkWorld (trace w ++ [rq])%list (ticks w) in
    match http E (trace w) rq with
    | Responded r => (Ok r, w')
    | Failed e => (Raise e, w')
    end.

(** [GraphClient._make_request]; [GraphEmailClient._make_request] is the
    same text. *)
Definition _make_request (token : pyval) (base : string)
    (method endpoint : string) (data params : pyval) : M pyval :=
  if negb (truthy token) then raise no_access_token
  else
    r <- send (build_request token base method endpoint data params) ;;
    lift (decode_response r).

Definition gc_request (gc : GraphClient) : string -> string -> pyval -> pyval -> M pyval :=
  _make_request (access_token gc) (base_url gc).

(** The [params] dict [get_messages] builds. *)
Definition messages_params (top search filter_str : pyval) : dict :=
  let params := [("$top", top); ("$orderby", PStr "receivedDateTime desc")] in
  let params :=
    if truthy search
    then dict_set params "$search" (PStr (dquote ++ py_str search ++ dquote))
    else params in
  if truthy filter_str then dict_set params "$filter" filter_str else params.

(** [GraphClient.get_messages(folder_id, top, search, filter_str)]. *)
Definition get_messages (gc : GraphClient) (folder_id : string)
    (top search filter_str : pyval) : M pyval :=
  let endpoint := "/me/mailFolders/" ++ folder_id ++ "/messages" in
  gc_request gc "GET" endpoint PNone (PDict (messages_params top search filter_str)).

Definition search_messages (gc : GraphClient) (query top : pyval) : M pyval :=
  get_messages gc "inbox" top query PNone.

(** The [params] dict [get_events] builds. *)
Definition events_params (start_date end_date top : pyval) : dict :=
  let params := [("$top", top); ("$orderby", PStr "start/dateTime")] in
  if truthy start_date && truthy end_date
  then dict_set params "$filter"
         (PStr ("start/dateTime ge '" ++ py_str start_date
                  ++ "' and end/dateTime le '" ++ py_str end_date ++ "'"))
  else params.

(** [GraphClient.get_events(start_date, end_date, top)]. *)
Definition get_events (gc : GraphClient) (start_date end_date top : pyval) : M pyval :=
  gc_request gc "GET" "/me/events" PNone (PDict (events_params start_date end_date top)).

(** One entry of the attendee comprehension of [create_event]. *)
Definition attendee_entry (email : pyval) : outcome pyval :=
  match email with
  | PStr s =>
      Ok (PDict [("emailAddress",
                  PDict [("address", PStr s); ("name", PStr (str_before (chr 64) s))]);
                 ("type", PStr "required")])
  | _ => Raise (no_attribute email "split")
  end.

(** The [event_data] dict [create_event] builds, with the default time
    zone. *)
Definition event_body (subject : pyval) (start_time end_time : datetime)
    (body location attendees : pyval) : outcome dict :=
  let timezone_name := PStr "UTC" in
  let event_data :=
    [("subject", subject);
     ("start", PDict [("dateTime", PStr (isoformat start_time)); ("timeZone", timezone_name)]);
     ("end", PDict [("dateTime", PStr (isoformat end_time)); ("timeZone", timezone_name)])] in
  let event_data :=
    if truthy body
    then dict_set event_data "body"
           (PDict [("contentType", PStr "text"); ("content", body)])
    else event_data in
  let event_data :=
    if truthy location
    then dict_set event_data "location" (PDict [("displayName", location)])
    else event_data in
  if truthy attendees then
    obind (obind (py_iter attendees) (omap attendee_entry)) (fun entries =>
    Ok (dict_set event_data "attendees" (PList entries)))
  else Ok event_data.

(** [GraphClient.create_event]. *)
Definition create_event (gc : GraphClient) (subject : pyval)
    (start_time end_time : datetime) (body location attendees : pyval) : M pyval :=
  event_data <- lift (event_body subject start_time end_time body location attendees) ;;
  gc_request gc "POST" "/me/events" (PDict event_data) PNone.

Definition get_user_info (gc : GraphClient) : M pyval :=
  gc_request gc "GET" "/me" PNone PNone.

(** ** The dispatcher: [handle_call_tool] *)

Record TextContent : Type := mkTextContent { type_ : string; text : string }.

(** [[types.TextContent(type="text", text=s)]]. *)
Definition text_result (s : string) : list TextContent := [mkTextContent "text" s].

Definition not_authenticated_text : string :=
  "❌ Not authenticated with Microsoft Graph. Please run the authentication script first and ensure your access token is saved.".

(** [v.replace('Z', '+00:00')] passed to [datetime.fromisoformat], any
    failure giving [None]. *)
Definition parse_iso (v : pyval) : option datetime :=
  match v with
  | PStr s => fromisoformat E (str_replace (chr 90) "+00:00" s)
  | _ => None
  end.

(** The conditional text [search_text]: [ matching '<search>'] when
    [search] is truthy, the empty text otherwise. *)
Definition search_text (search : pyval) : string :=
  if truthy search then " matching '" ++ py_str search ++ "'" else EmptyString.

(** The body of the loop over [emails]. *)
Definition email_summary (email : pyval) : outcome string :=
  obind (py_get email "from" (PDict [])) (fun from_ =>
  obind (py_get from_ "emailAddress" (PDict [])) (fun addr =>
  obind (py_get addr "address" (PStr "Unknown")) (fun from_addr =>
  obind (py_get email "subject" (PStr "No subject")) (fun subject =>
  obind (py_get email "receivedDateTime" (PStr "Unknown")) (fun received =>
  obind (py_get email "isRead" (PBool false)) (fun is_read =>
  obind (py_get email "bodyPreview" (PStr EmptyString)) (fun preview =>
  let formatted_date :=
    match parse_iso received with
    | Some dt => strftime_date_hm dt
    | None => py_str received
    end in
  obind (py_slice_to 150 preview) (fun head =>
  obind (py_len preview) (fun n =>
  Ok ("📧 **" ++ py_str subject ++ "**" ++ nl
      ++ "   From: " ++ py_str from_addr ++ nl
      ++ "   Date: " ++ formatted_date ++ nl
      ++ "   Status: " ++ (if truthy is_read then "✅ Read" else "🔴 Unread") ++ nl
      ++ "   Preview: " ++ py_str head ++ (if 150 <? n then "..." else EmptyString)
      ++ nl)))))))))).

(** The branch [name == "get_emails"] from [emails = result.get(...)] on. *)
Definition render_emails (search result : pyval) : outcome (list TextContent) :=
  obind (py_get result "value" (PList [])) (fun emails =>
  if negb (truthy emails) then
    Ok (text_result ("📧 No emails found" ++ search_text search ++ "."))
  else
    obind (py_iter emails) (fun items =>
    obind (omap email_summary items) (fun email_summaries =>
    obind (py_len emails) (fun n =>
    Ok (text_result
          ("📧 Found " ++ Z_str n ++ " emails" ++ search_text search ++ ":" ++ nl ++ nl
             ++ String.concat nl email_summaries)))))).

(** The branch [name == "get_emails"]. *)
Definition tool_get_emails (gc : GraphClient) (arguments : dict) : M (list TextContent) :=
  count <- lift (py_min (dict_get_default arguments "count" (PInt 10)) 50) ;;
  let search := dict_get_default arguments "search" PNone in
  result <- (if truthy search
             then search_messages gc search count
             else get_messages gc "inbox" count PNone PNone) ;;
  lift (render_emails search result).

(** The body of the loop over [events]. *)
Definition event_summary (event : pyval) : outcome string :=
  obind (py_get event "subject" (PStr "No title")) (fun subject =>
  obind (py_get event "start" (PDict [])) (fun start_ =>
  obind (py_get start_ "dateTime" (PStr EmptyString)) (fun start_dt =>
  obind (py_get event "end" (PDict [])) (fun end_ =>
  obind (py_get end_ "dateTime" (PStr EmptyString)) (fun end_dt =>
  obind (py_get event "location" (PDict [])) (fun loc =>
  obind (py_get loc "displayName" (PStr "No location")) (fun location =>
  obind (py_get event "attendees" (PList [])) (fun attendees =>
  let time_str :=
    match parse_iso start_dt, parse_iso end_dt with
    | Some s, Some e =>
        if same_date s e
        then strftime_date_hm s ++ " - " ++ strftime_hm e
        else strftime_date_hm s ++ " - " ++ strftime_date_hm e
    | _, _ => py_str start_dt ++ " - " ++ py_str end_dt
    end in
  obind (py_iter attendees) (fun atts =>
  obind (omap (fun att =>
                 obind (py_get att "emailAddress" (PDict [])) (fun a =>
                 py_get a "address" (PStr EmptyString))) atts) (fun attendee_list =>
  obind (match attendee_list with
         | [] => Ok EmptyString
         | _ => obind (py_join ", " (PList attendee_list)) (fun j =>
                Ok (nl ++ "   Attendees: " ++ j))
         end) (fun attendee_text =>
  Ok ("📅 **" ++ py_str subject ++ "**" ++ nl
      ++ "   When: " ++ time_str ++ nl
      ++ "   Where: " ++ py_str location ++ attendee_text ++ nl)))))))))))).

(** [datetime.now() + timedelta(days=days)]. *)
Definition shift_days (t : datetime) (days : pyval) : outcome datetime :=
  match as_int days with
  | Some n => add_days t n
  | None =>
      Raise (mkExn TypeError
               ("unsupported type for timedelta days component: " ++ type_name days))
  end.

(** The branch [name == "get_calendar_events"] from
    [events = result.get(...)] on. *)
Definition render_events (days result : pyval) : outcome (list TextContent) :=
  obind (py_get result "value" (PList [])) (fun events =>
  if negb (truthy events) then
    Ok (text_result ("📅 No events found in the next " ++ py_str days ++ " days."))
  else
    obind (py_iter events) (fun items =>
    obind (omap event_summary items) (fun event_summaries =>
    obind (py_len events) (fun n =>
    Ok (text_result
          ("📅 Found " ++ Z_str n ++ " events in the next " ++ py_str days ++ " days:"
             ++ nl ++ nl ++ String.concat nl event_summaries)))))).

(** The branch [name == "get_calendar_events"]. *)
Definition tool_get_calendar_events (gc : GraphClient) (arguments : dict)
  : M (list TextContent) :=
  days <- lift (py_min (dict_get_default arguments "days" (PInt 7)) 30) ;;
  count <- lift (py_min (dict_get_default arguments "count" (PInt 20)) 50) ;;
  t1 <- now ;;
  let start_date := isoformat t1 ++ "Z" in
  t2 <- now ;;
  t3 <- lift (shift_days t2 days) ;;
  let end_date := isoformat t3 ++ "Z" in
  result <- get_events gc (PStr start_date) (PStr end_date) count ;;
  lift (render_events days result).

Definition accepted_formats : list string :=
  ["%Y-%m-%dT%H:%M:%S"; "%Y-%m-%d %H:%M:%S"; "%Y-%m-%dT%H:%M"].

(** The [for fmt in ...: try ... break / except ValueError: continue] loop:
    the first format that parses, [None] when the loop runs to its [else]. *)
Fixpoint first_format (s : string) (fmts : list string) : outcome (option datetime) :=
  match fmts with
  | [] => Ok None
  | f :: r =>
      match strptime s f with
      | Ok t => Ok (Some t)
      | Raise e => if is_ValueError e then first_format s r else Raise e
      end
  end.

(** Parsing of one of the two time arguments; [label] is [start] or [end]. *)
Definition parse_time (label : string) (v : pyval) : outcome datetime :=
  match v with
  | PStr s =>
      obind (first_format (str_replace (chr 90) EmptyString s) accepted_formats)
        (fun r =>
           match r with
           | Some t => Ok t
           | None =>
               Raise (mkExn ValueError ("Could not parse " ++ label ++ " time: " ++ s))
           end)
  | _ => Raise (no_attribute v "replace")
  end.

Definition parse_error_text (e : exn) : string :=
  "❌ Error parsing datetime: " ++ exn_str e ++ nl
    ++ "Please use format like: 2025-08-14T14:00:00".

(** The branch [name == "create_calendar_event"] after the call. *)
Definition render_created (subject : pyval) (start_time end_time : datetime)
    (location attendees : pyval) : outcome (list TextContent) :=
  obind (if truthy attendees
         then obind (py_join ", " attendees) (fun j => Ok (nl ++ "   Attendees: " ++ j))
         else Ok EmptyString) (fun attendee_text =>
  let location_text :=
    if truthy location then nl ++ "   Location: " ++ py_str location
    else EmptyString in
  Ok (text_result
        ("✅ Calendar event created successfully!" ++ nl
           ++ "   Title: " ++ py_str subject ++ nl
           ++ "   When: " ++ strftime_date_hm start_time ++ " - "
           ++ strftime_hm end_time ++ location_text ++ attendee_text))).

(** The branch [name == "create_calendar_event"]. *)
Definition tool_create_calendar_event (gc : GraphClient) (arguments : dict)
  : M (list TextContent) :=
  subject <- lift (py_getitem arguments "subject") ;;
  start_time_str <- lift (py_getitem arguments "start_time") ;;
  end_time_str <- lift (py_getitem arguments "end_time") ;;
  let location := dict_get_default arguments "location" PNone in
  let description := dict_get_default arguments "description" PNone in
  let attendees := dict_get_default arguments "attendees" PNone in
  parsed <-
    try_except
      (start_time <- lift (parse_time "start" start_time_str) ;;
       end_time <- lift (parse_time "end" end_time_str) ;;
       ret (inl (start_time, end_time)))
      is_ValueError
      (fun e => ret (inr (text_result (parse_error_text e)))) ;;
  match parsed with
  | inr early => ret early
  | inl (start_time, end_time) =>
      _ <- create_event gc subject start_time end_time description location attendees ;;
      lift (render_created subject start_time end_time location attendees)
  end.

(** The text of the branch [name == "get_user_info"]. *)
Definition render_user_info (user : pyval) : outcome (list TextContent) :=
  obind (py_get user "displayName" (PStr "N/A")) (fun display_name =>
  obind (py_get user "userPrincipalName" (PStr "N/A")) (fun upn =>
  obind (py_get user "mail" upn) (fun mail =>
  obind (py_get user "jobTitle" (PStr "N/A")) (fun job_title =>
  obind (py_get user "officeLocation" (PStr "N/A")) (fun office =>
  obind (py_get user "businessPhones" PNone) (fun has_phones =>
  obind (if truthy has_phones
         then obind (py_get user "businessPhones" (PList [PStr "N/A"])) py_first
         else Ok (PStr "N/A")) (fun phone =>
  Ok (text_result
        ("👤 **User Information**" ++ nl
           ++ "   Name: " ++ py_str display_name ++ nl
           ++ "   Email: " ++ py_str mail ++ nl
           ++ "   Job Title: " ++ py_str job_title ++ nl
           ++ "   Office: " ++ py_str office ++ nl
           ++ "   Phone: " ++ py_str phone))))))))).

(** The branch [name == "get_user_info"]. *)
Definition tool_get_user_info (gc : GraphClient) : M (list TextContent) :=
  user <- get_user_info gc ;;
  lift (render_user_info user).

Definition unknown_tool_text (name : string) : string := "❌ Unknown tool: " ++ name.

Definition error_executing_text (name : string) (e : exn) : string :=
  "❌ Error executing " ++ name ++ ": " ++ exn_str e.

(** [handle_call_tool(name, arguments)], [graph_client] being the module
    global it reads. *)
Definition handle_call_tool (graph_client : option GraphClient)
    (name : string) (arguments : dict) : M (list TextContent) :=
  match graph_client with
  | None => ret (text_result not_authenticated_text)
  | Some gc =>
      if negb (truthy (access_token gc)) then
        ret (text_result not_authenticated_text)
      else
        try_except
          (if String.eqb name "get_emails" then tool_get_emails gc arguments
           else if String.eqb name "get_calendar_events"
                then tool_get_calendar_events gc arguments
           else if String.eqb name "create_calendar_event"
                then tool_create_calendar_event gc arguments
           else if String.eqb name "get_user_info" then tool_get_user_info gc
           else ret (text_result (unknown_tool_text name)))
          (fun _ => true)
          (fun e => ret (text_result (error_executing_text name e)))
  end.

(** ** [GraphEmailClient.bulk_mark_read] *)

Record GraphEmailClient : Type := mkGraphEmailClient {
  ec_access_token : pyval;
  ec_base_url : string
}.

(** [GraphEmailClient.mark_as_read(message_id)]. *)
Definition mark_as_read (c : GraphEmailClient) (message_id : string) : M pyval :=
  _make_request (ec_access_token c) (ec_base_url c)
    "PATCH" ("/me/messages/" ++ message_id) (PDict [("isRead", PBool true)]) PNone.

(** One turn of the loop: the record appended to [results]. *)
Definition mark_one (c : GraphEmailClient) (msg_id : string) : M pyval :=
  try_except
    (result <- mark_as_read c msg_id ;;
     ret (PDict [("id", PStr msg_id); ("success", PBool true); ("result", result)]))
    (fun _ => true)
    (fun e => ret (PDict [("id", PStr msg_id); ("success", PBool false);
                          ("error", PStr (exn_str e))])).

(** The [for msg_id in message_ids] loop, [results] being the list built
    so far. *)
Fixpoint bulk_loop (c : GraphEmailClient) (message_ids : list string)
    (results : list pyval) : M (list pyval) :=
  match message_ids with
  | [] => ret results
  | msg_id :: rest =>
      r <- mark_one c msg_id ;;
      bulk_loop c rest (results ++ [r])%list
  end.

Definition bulk_mark_read (c : GraphEmailClient) (message_ids : list string)
  : M (list pyval) :=
  bulk_loop c message_ids [].


(** [GraphEmailClient.get_unread_count(folder_id)]. *)
Definition get_unread_count (c : GraphEmailClient) (folder_id : string) : M pyval :=
  folder <- _make_request (ec_access_token c) (ec_base_url c)
              "GET" ("/me/mailFolders/" ++ folder_id) PNone PNone ;;
  lift (py_get folder "unreadItemCount" (PInt 0)).

End Program.

(** ** Start-up: [initialize_graph_client] and [main] *)

(** What [~/.outlook_token.json] is at start-up: absent, present but
    [open] or [json.load] raises, or present with the decoded value. *)
Inductive token_file_state : Type :=
| FileAbsent
| FileUnreadable (e : exn)
| FileJson (v : pyval).

Record Startup : Type := mkStartup {
  AZURE_CLIENT_ID : option string;
  AZURE_CLIENT_SECRET : option string;
  token_file : token_file_state
}.

Definition env_missing (v : option string) : bool :=
  match v with
  | None => true
  | Some s => String.eqb s EmptyString
  end.

Definition msg_missing_env : string :=
  "❌ Missing AZURE_CLIENT_ID or AZURE_CLIENT_SECRET environment variables".
Definition msg_loaded : string := "✅ Loaded saved access token".
Definition msg_could_not_load (e : exn) : string :=
  "⚠️  Could not load saved token: " ++ exn_str e.
Definition msg_no_token : string :=
  "⚠️  No valid access token found. Please run authentication first.".

(** The result of [initialize_graph_client]: the value returned, the
    global [graph_client] afterwards and the lines written to stderr. *)
Record init_result : Type := mkInit {
  init_ok : bool;
  init_client : option GraphClient;
  init_stderr : list string
}.

Definition with_token (gc : GraphClient) (tok : pyval) : GraphClient :=
  mkGraphClient (client_id gc) (client_secret gc) (tenant_id gc) tok (base_url gc).

Definition initialize_graph_client (s : Startup) : init_result :=
  if env_missing (AZURE_CLIENT_ID s) || env_missing (AZURE_CLIENT_SECRET s) then
    mkInit false None [msg_missing_env]
  else
    let gc :=
      GraphClient_init
        (match AZURE_CLIENT_ID s with Some x => x | None => EmptyString end)
        (match AZURE_CLIENT_SECRET s with Some x => x | None => EmptyString end) in
    match token_file s with
    | FileAbsent => mkInit false (Some gc) [msg_no_token]
    | FileUnreadable e => mkInit false (Some gc) [msg_could_not_load e; msg_no_token]
    | FileJson token_data =>
        match py_get token_data "access_token" PNone with
        | Ok tok => mkInit true (Some (with_token gc tok)) [msg_loaded]
        | Raise e => mkInit false (Some gc) [msg_could_not_load e; msg_no_token]
        end
    end.

(** How [main] leaves start-up: [sys.exit(code)], or the server loop
    running with the global client it will consult on every call. *)
Inductive process : Type :=
| Exited (code : Z) (stderr : list string)
| Serving (graph_client : option GraphClient) (stderr : list string).

Definition main (s : Startup) : process :=
  let r := initialize_graph_client s in
  if negb (init_ok r) then
    Exited 1 (init_stderr r ++ ["❌ Failed to initialize Graph client"])%list
  else Serving (init_client r) (init_stderr r).

(** * Vocabulary of the properties *)

(** The names the catalog advertises. *)
Definition catalog_names : list string := map tool_name handle_list_tools.

Definition find_property (tool param : string) : option Property :=
  match find (fun t => String.eqb (tool_name t) tool) handle_list_tools with
  | Some t => find (fun q => String.eqb (prop_name q) param) (tool_properties t)
  | None => None
  end.


Definition declared_default (tool param : string) : option Z :=
  match find_property tool param with
  | Some q => prop_default q
  | None => None
  end.

(** A credential is loaded: the negation of the guard that opens
    [handle_call_tool]. *)
Definition authenticated (g : option GraphClient) : bool :=
  match g with
  | Some gc => truthy (access_token gc)
  | None => false
  end.

(** Two argument dicts that differ at most at the keys in [ks]. *)
Definition agree_except (ks : list string) (a b : dict) : Prop :=
  forall k, ~ In k ks -> dict_get a k = dict_get b k.

(** The requests a run added to the log. *)
Definition sent_exactly (w w' : World) (rqs : list request) : Prop :=
  trace w' = (trace w ++ rqs)%list.

(** The requests the four tools send. *)
Definition emails_request (gc : GraphClient) (count search : pyval) : request :=
  build_request (access_token gc) (base_url gc) "GET"
    "/me/mailFolders/inbox/messages" PNone (PDict (messages_params count search PNone)).

Definition events_request (gc : GraphClient) (t1 t3 : datetime) (count : pyval) : request :=
  build_request (access_token gc) (base_url gc) "GET" "/me/events" PNone
    (PDict (events_params (PStr (isoformat t1 ++ "Z")) (PStr (isoformat t3 ++ "Z")) count)).

Definition create_request (gc : GraphClient) (event_data : dict) : request :=
  build_request (access_token gc) (base_url gc) "POST" "/me/events" (PDict event_data) PNone.

Definition user_request (gc : GraphClient) : request :=
  build_request (access_token gc) (base_url gc) "GET" "/me" PNone PNone.

(** What [_make_request] returns or raises for the answer of the service. *)
Definition answer_value (a : http_result) : outcome pyval :=
  match a with
  | Responded r => decode_response r
  | Failed e => Raise e
  end.

(** The world after one more request. *)
Definition after_request (w : World) (rq : request) : World :=
  mkWorld (trace w ++ [rq])%list (ticks w).

(** A computation that sends nothing. *)
Definition silent {A} (m : M A) : Prop :=
  forall w, trace (snd (m w)) = trace w.

(** A computation that sends at most one request and raises
    [api_request_failed] when that request is answered with a status
    outside 200, 201, 202 and 204. *)
Definition one_call (E : Env) {A} (m : M A) : Prop :=
  forall w,
    trace (snd (m w)) = trace w
    \/ exists rq,
        trace (snd (m w)) = (trace w ++ [rq])%list
        /\ forall r, http E (trace w) rq = Responded r ->
                     success_status (status_code r) = false ->
                     fst (m w) = Raise (api_request_failed r).

(** The value the dispatcher works with for a numeric parameter: the one
    supplied, or the declared default when the key is absent. *)
Definition effective (tool param : string) (arguments : dict) : option pyval :=
  match dict_get arguments param with
  | Some v => Some v
  | None => option_map PInt (declared_default tool param)
  end.

(** Fields of an outbound request. *)
Definition param_of (rq : request) (k : string) : option pyval :=
  match req_params rq with
  | Some (PDict d) => dict_get d k
  | _ => None
  end.

(** The three accepted layouts, and an instant written in each of them. *)
Inductive time_format : Type := IsoSeconds | SpaceSeconds | IsoMinutes.

Definition format_string (f : time_format) : string :=
  match f with
  | IsoSeconds => "%Y-%m-%dT%H:%M:%S"
  | SpaceSeconds => "%Y-%m-%d %H:%M:%S"
  | IsoMinutes => "%Y-%m-%dT%H:%M"
  end.

Definition written (f : time_format) (t : datetime) : string :=
  match f with
  | IsoSeconds =>
      pad4 (year t) ++ "-" ++ pad2 (month t) ++ "-" ++ pad2 (day t) ++ "T"
        ++ pad2 (hour t) ++ ":" ++ pad2 (minute t) ++ ":" ++ pad2 (second t)
  | SpaceSeconds =>
      pad4 (year t) ++ "-" ++ pad2 (month t) ++ "-" ++ pad2 (day t) ++ " "
        ++ pad2 (hour t) ++ ":" ++ pad2 (minute t) ++ ":" ++ pad2 (second t)
  | IsoMinutes =>
      pad4 (year t) ++ "-" ++ pad2 (month t) ++ "-" ++ pad2 (day t) ++ "T"
        ++ pad2 (hour t) ++ ":" ++ pad2 (minute t)
  end.

(** An instant all three layouts can express: a valid datetime on a whole
    minute. *)
Definition whole_minute (t : datetime) : Prop :=
  valid_datetime t = true /\ second t = 0 /\ microsecond t = 0.

(** The values a two-digit field takes in a valid datetime. *)
Definition field_range (d : directive) (v : Z) : Prop :=
  match d with
  | Dm => 1 <= v <= 12
  | Dd => 1 <= v <= 31
  | DH => 0 <= v <= 23
  | DM => 0 <= v <= 59
  | DS => 0 <= v <= 59
  | _ => False
  end.

(** The text starts with a digit. *)
Definition digit_leading (s : string) : Prop :=
  exists a r, s = String a r /\ is_digit a = true.

(** The text parses under none of the accepted formats, once its [Z]s are
    removed as the dispatcher does. *)
Definition parses_under_none (s : string) : Prop :=
  forall f t, In f accepted_formats ->
              strptime (str_replace (chr 90) EmptyString s) f <> Ok t.

(** The record [bulk_mark_read] appends for [msg_id]. *)
Definition outcome_record (msg_id : string) (r : pyval) : Prop :=
  (exists result,
      r = PDict [("id", PStr msg_id); ("success", PBool true); ("result", result)])
  \/ (exists cause,
      r = PDict [("id", PStr msg_id); ("success", PBool false); ("error", PStr cause)]).

Definition mark_request (c : GraphEmailClient) (msg_id : string) : request :=
  build_request (ec_access_token c) (ec_base_url c)
    "PATCH" ("/me/messages/" ++ msg_id) (PDict [("isRead", PBool true)]) PNone.

(** ** Scenarios used by the examples *)

Definition noon : datetime := mkDatetime 2026 11 4 12 0 0 0.

Definition env_answering (r : response) : Env :=
  mkEnv (fun _ _ => Responded r) (fun _ => noon) (fun _ => None).

Definition not_found_body : string :=
  "{" ++ dquote ++ "error" ++ dquote ++ ":" ++ dquote ++ "not found" ++ dquote ++ "}".

Definition not_found : response :=
  mkResponse 404 not_found_body (Some (PDict [("error", PStr "not found")])).

Definition empty_page : response :=
  mkResponse 200 ("{" ++ dquote ++ "value" ++ dquote ++ ":[]}")
    (Some (PDict [("value", PList [])])).

Definition no_content : response := mkResponse 204 EmptyString None.

Definition world0 : World := mkWorld [] 0.

Definition signed_in : GraphClient :=
  with_token (GraphClient_init "client" "secret") (PStr "token").

Definition signed_out : GraphClient := GraphClient_init "client" "secret".


Definition two_pm : datetime := mkDatetime 2025 8 14 14 0 0 0.
Definition half_past_three : datetime := mkDatetime 2025 8 14 15 30 0 0.

Definition meeting (start_time end_time : string) : dict :=
  [("subject", PStr "Review"); ("start_time", PStr start_time);
   ("end_time", PStr end_time)].

Definition mail_client : GraphEmailClient :=
  mkGraphEmailClient (PStr "token") "https://graph.microsoft.com/v1.0".

(** ** Vocabulary of the further properties *)

(** What the outer [except Exception] makes of a branch's outcome. *)
Definition rendered (name : string) (o : outcome (list TextContent)) : list TextContent :=
  match o with
  | Ok a => a
  | Raise e => text_result (error_executing_text name e)
  end.

(** The shape of the only request a tool can send for a client: bearer and
    content-type headers, a fixed method and URL under [base_url], and a
    JSON body for the event creation only. *)
Definition dispatcher_request (gc : GraphClient) (name : string) (rq : request) : Prop :=
  req_headers rq
  = [("Authorization", "Bearer " ++ py_str (access_token gc));
     ("Content-Type", "application/json")]
  /\ ((name = "get_emails" /\ req_method rq = "get"
       /\ req_url rq = base_url gc ++ "/me/mailFolders/inbox/messages"
       /\ req_json rq = None)
      \/ (name = "get_calendar_events" /\ req_method rq = "get"
          /\ req_url rq = base_url gc ++ "/me/events" /\ req_json rq = None)
      \/ (name = "create_calendar_event" /\ req_method rq = "post"
          /\ req_url rq = base_url gc ++ "/me/events" /\ req_params rq = None
          /\ exists data, req_json rq = Some (PDict data))
      \/ (name = "get_user_info" /\ req_method rq = "get"
          /\ req_url rq = base_url gc ++ "/me"
          /\ req_json rq = None /\ req_params rq = None)).

(** The function a tool applies to the decoded answer of its request. *)
Definition tool_render (E : Env) (name : string) (arguments : dict)
    (f : pyval -> outcome (list TextContent)) : Prop :=
  (name = "get_emails"
   /\ f = render_emails E (dict_get_default arguments "search" PNone))
  \/ (name = "get_calendar_events"
      /\ exists days,
          py_min (dict_get_default arguments "days" (PInt 7)) 30 = Ok days
          /\ f = render_events E days)
  \/ (name = "create_calendar_event"
      /\ exists subject sv ev ts te,
          dict_get arguments "subject" = Some subject
          /\ dict_get arguments "start_time" = Some sv
          /\ dict_get arguments "end_time" = Some ev
          /\ parse_time "start" sv = Ok ts
          /\ parse_time "end" ev = Ok te
          /\ (exists data,
                event_body subject ts te (dict_get_default arguments "description" PNone)
                  (dict_get_default arguments "location" PNone)
                  (dict_get_default arguments "attendees" PNone) = Ok data)
          /\ f = (fun _ => render_created subject ts te
                             (dict_get_default arguments "location" PNone)
                             (dict_get_default arguments "attendees" PNone)))
  \/ (name = "get_user_info" /\ f = render_user_info).

(** What a branch does once the credential guard is passed: either nothing
    is sent, or one request of the tool's shape is sent and the outcome is
    the tool's rendering of the decoded answer. *)
Definition exchange (E : Env) (gc : GraphClient) (name : string) (arguments : dict)
    (w : World) (r : outcome (list TextContent) * World) : Prop :=
  (trace (snd r) = trace w
   /\ forall a, fst r = Ok a -> exists s, a = text_result s)
  \/ exists rq f,
      trace (snd r) = (trace w ++ [rq])%list
      /\ dispatcher_request gc name rq
      /\ tool_render E name arguments f
      /\ fst r = obind (answer_value (http E (trace w) rq)) f.

(** The first required argument of [create_calendar_event] that is absent,
    in the order the branch reads them. *)
Definition first_missing (arguments : dict) : option string :=
  find (fun k => match dict_get arguments k with None => true | Some _ => false end)
       ["subject"; "start_time"; "end_time"].

(** The text of the [TypeError] of [min] on a value that is no number. *)
Definition not_comparable_text (v : pyval) : string :=
  "'<' not supported between instances of 'int' and '" ++ type_name v ++ "'".

Definition is_dict (v : pyval) : bool :=
  match v with PDict _ => true | _ => false end.

(** The three tools that read the decoded answer. *)
Definition reading_tools : list string :=
  ["get_emails"; "get_calendar_events"; "get_user_info"].


Definition sliceable (v : pyval) : bool :=
  match v with PStr _ | PList _ => true | _ => false end.

(** A message the loop of [get_emails] can render: an object whose [from]
    and its [emailAddress], when present, are objects, and whose
    [bodyPreview], when present, is text or a list. *)
Definition email_renderable (email : pyval) : bool :=
  match email with
  | PDict d =>
      match dict_get_default d "from" (PDict []) with
      | PDict f => is_dict (dict_get_default f "emailAddress" (PDict []))
      | _ => false
      end
      && sliceable (dict_get_default d "bodyPreview" (PStr EmptyString))
  | _ => false
  end.

(** The preview as a block shows it: the first 150 characters, and an
    ellipsis when there are more. *)
Definition shown_preview (p : string) : string :=
  str_take 150 p ++ (if 150 <? Z.of_nat (String.length p) then "..." else EmptyString).

(** The attendee entry [create_event] builds for one address. *)
Definition attendee_of (email : string) : pyval :=
  PDict [("emailAddress",
          PDict [("address", PStr email); ("name", PStr (str_before (chr 64) email))]);
         ("type", PStr "required")].

Definition is_str (v : pyval) : bool :=
  match v with PStr _ => true | _ => false end.

(** The record [bulk_mark_read] appends for [msg_id] when [mark_as_read]
    ends with [o]. *)
Definition record_of (msg_id : string) (o : outcome pyval) : pyval :=
  match o with
  | Ok result => PDict [("id", PStr msg_id); ("success", PBool true); ("result", result)]
  | Raise e => PDict [("id", PStr msg_id); ("success", PBool false);
                      ("error", PStr (exn_str e))]
  end.

(** The records of a batch, the service having seen the requests [tr]. *)
Fixpoint bulk_records (E : Env) (c : GraphEmailClient) (message_ids : list string)
    (tr : list request) : list pyval :=
  match message_ids with
  | [] => []
  | msg_id :: rest =>
      record_of msg_id (answer_value (http E tr (mark_request c msg_id)))
      :: bulk_records E c rest (tr ++ [mark_request c msg_id])%list
  end.

Definition folder_request (c : GraphEmailClient) (folder_id : string) : request :=
  build_request (ec_access_token c) (ec_base_url c)
    "GET" ("/me/mailFolders/" ++ folder_id) PNone PNone.


(** ** Scenarios of the further examples *)

(** A 200 whose body is no JSON. *)
Definition garbled : response := mkResponse 200 "<html></html>" None.

(** A 200 whose body is the JSON array [[]]. *)
Definition array_answer : response := mkResponse 200 "[]" (Some (PList [])).

Definition a_preview : string := "Quarterly numbers attached.".

Definition a_message : dict :=
  [("subject", PStr "Report");
   ("from", PDict [("emailAddress", PDict [("address", PStr "ada@example.org")])]);
   ("bodyPreview", PStr a_preview)].

Definition inbox_page : response :=
  mkResponse 200 "{...}" (Some (PDict [("value", PList [PDict a_message])])).

(** A [fromisoformat] that knows the two instants of the examples. *)
Definition iso_env : Env :=
  mkEnv (fun _ _ => Responded empty_page) (fun _ => noon)
        (fun s => if String.eqb s "2025-08-14T14:00:00" then Some two_pm
                  else if String.eqb s "2025-08-14T15:30:00" then Some half_past_three
                  else None).

Definition an_event : dict :=
  [("subject", PStr "Review");
   ("start", PDict [("dateTime", PStr "2025-08-14T14:00:00")]);
   ("end", PDict [("dateTime", PStr "2025-08-14T15:30:00")])].

Definition a_user : dict :=
  [("displayName", PStr "Ada"); ("userPrincipalName", PStr "ada@example.org");
   ("businessPhones", PList [])].

Definition mail_client_signed_out : GraphEmailClient :=
  mkGraphEmailClient PNone "https://graph.microsoft.com/v1.0".


(** * Properties *)

(** ** Dictionaries and text *)

Lemma dict_get_default_agree ks a b k v :
  agree_except ks a b -> ~ In k ks ->
  dict_get_default a k v = dict_get_default b k v.
Proof.
  intros H Hk. unfold dict_get_default. now rewrite (H k Hk).
Qed.

Lemma dict_get_default_some d k v x :
  dict_get d k = Some x -> dict_get_default d k v = x.
Proof.
  intros H. unfold dict_get_default. now rewrite H.
Qed.

Lemma contains_middle pre x post : contains x (pre ++ x ++ post).
Proof.
  now exists pre, post.
Qed.

Lemma append_assoc (a b c : string) : (a ++ b) ++ c = a ++ b ++ c.
Proof.
  induction a as [|x a IH]; simpl; [reflexivity | now rewrite IH].
Qed.

Lemma append_nil_r (a : string) : a ++ EmptyString = a.
Proof.
  induction a as [|x a IH]; simpl; [reflexivity | now rewrite IH].
Qed.

Section Properties.

Variable E : Env.

(** ** The guard and the unknown-tool branch *)

Lemma guard_closes (g : option GraphClient) (name : string)
    (arguments : dict) (w : World) :
  authenticated g = false ->
  handle_call_tool E g name arguments w = (Ok (text_result not_authenticated_text), w).
Proof.
  intros H. destruct g as [gc|]; simpl in *; [rewrite H|]; reflexivity.
Qed.

Lemma guard_opens (gc : GraphClient) (name : string) (arguments : dict) :
  truthy (access_token gc) = true ->
  handle_call_tool E (Some gc) name arguments
  = try_except
      (if String.eqb name "get_emails" then tool_get_emails E gc arguments
       else if String.eqb name "get_calendar_events"
            then tool_get_calendar_events E gc arguments
       else if String.eqb name "create_calendar_event"
            then tool_create_calendar_event E gc arguments
       else if String.eqb name "get_user_info" then tool_get_user_info E gc
       else ret (text_result (unknown_tool_text name)))
      (fun _ => true)
      (fun e => ret (text_result (error_executing_text name e))).
Proof.
  intros H. unfold handle_call_tool. now rewrite H.
Qed.

(** C3.  With no credential loaded (no client at all, or a client whose
    access token is falsy), every invocation returns the same
    not-authenticated text, whatever the tool name and arguments, and
    the world is left as it was: no request is sent. *)
Theorem unauthenticated_is_uniform (g : option GraphClient) (name : string)
    (arguments : dict) (w : World) :
  authenticated g = false ->
  handle_call_tool E g name arguments w = (Ok (text_result not_authenticated_text), w).
Proof.
  apply guard_closes.
Qed.

Lemma not_in_catalog name :
  ~ In name catalog_names ->
  String.eqb name "get_emails" = false
  /\ String.eqb name "get_calendar_events" = false
  /\ String.eqb name "create_calendar_event" = false
  /\ String.eqb name "get_user_info" = false.
Proof.
  intros H. repeat split; apply String.eqb_neq; intros ->; apply H; simpl; tauto.
Qed.

(** C1, amended.  For a name outside the catalog the dispatcher sends no
    request and returns normally; the text is the unknown-tool message
    naming the tool when a credential is loaded, and the not-authenticated
    message when none is: the credential guard runs before the name is
    looked at. *)
Theorem unknown_tool_is_reported (g : option GraphClient) (name : string)
    (arguments : dict) (w : World) :
  ~ In name catalog_names ->
  handle_call_tool E g name arguments w
  = (Ok (text_result (if authenticated g then unknown_tool_text name
                      else not_authenticated_text)), w).
Proof.
  intros H. destruct (authenticated g) eqn:Ha.
  - destruct g as [gc|]; [|discriminate]. simpl in Ha.
    destruct (not_in_catalog name H) as (H1 & H2 & H3 & H4).
    unfold handle_call_tool. rewrite Ha, H1, H2, H3, H4. reflexivity.
  - now apply guard_closes.
Qed.

(** ** Clamping *)



Lemma py_min_below (mx v : Z) : v <= mx -> py_min (PInt v) mx = Ok (PInt v).
Proof.
  intros H. unfold py_min; simpl.
  now replace (mx <? v) with false by (symmetry; apply Z.ltb_ge; lia).
Qed.

Lemma not_in_one (k k' : string) : k <> k' -> ~ In k [k'].
Proof.
  intros H [<-|[]]. now apply H.
Qed.


(** ** Running the monad *)

Lemma trace_grows_not (l : list request) (rq : request) : l <> (l ++ [rq])%list.
Proof.
  intros H. apply (f_equal (@List.length _)) in H.
  rewrite length_app in H. simpl in H. lia.
Qed.

Lemma silent_ret {A} (a : A) : silent (ret a).
Proof. now intros w. Qed.

Lemma silent_raise {A} (e : exn) : silent (@raise A e).
Proof. now intros w. Qed.

Lemma silent_lift {A} (o : outcome A) : silent (lift o).
Proof. now intros w. Qed.

Lemma silent_now : silent (now E).
Proof. now intros w. Qed.

Lemma silent_bind {A B} (m : M A) (k : A -> M B) :
  silent m -> (forall a, silent (k a)) -> silent (bind m k).
Proof.
  intros Hm Hk w. unfold bind. specialize (Hm w).
  destruct (m w) as [[a|e] w1]; simpl in *; [|assumption].
  now rewrite (Hk a w1).
Qed.

Lemma silent_try {A} (m : M A) (c : exn -> bool) (h : exn -> M A) :
  silent m -> (forall e, silent (h e)) -> silent (try_except m c h).
Proof.
  intros Hm Hh w. unfold try_except. specialize (Hm w).
  destruct (m w) as [[a|e] w1]; simpl in *; [assumption|].
  destruct (c e); simpl; [|assumption].
  now rewrite (Hh e w1).
Qed.

Lemma one_call_silent {A} (m : M A) : silent m -> one_call E m.
Proof.
  intros H w. now left.
Qed.

Lemma one_call_bind {A B} (m : M A) (k : A -> M B) :
  silent m -> (forall a, one_call E (k a)) -> one_call E (bind m k).
Proof.
  intros Hm Hk w. unfold bind. specialize (Hm w).
  destruct (m w) as [[a|e] w1]; simpl in *; [|now left].
  destruct (Hk a w1) as [H|(rq & H1 & H2)].
  - left. congruence.
  - right. exists rq. rewrite <- Hm. now split.
Qed.

Lemma make_request_run (tok : pyval) (base method endpoint : string)
    (data params : pyval) (w : World) :
  truthy tok = true ->
  _make_request E tok base method endpoint data params w
  = (answer_value (http E (trace w) (build_request tok base method endpoint data params)),
     after_request w (build_request tok base method endpoint data params)).
Proof.
  intros H. unfold _make_request, bind, send, lift, after_request.
  rewrite H; simpl.
  now destruct (http E (trace w) _).
Qed.

Lemma make_request_refused (tok : pyval) (base method endpoint : string)
    (data params : pyval) (w : World) :
  truthy tok = false ->
  _make_request E tok base method endpoint data params w = (Raise no_access_token, w).
Proof.
  intros H. unfold _make_request. now rewrite H.
Qed.

Lemma answer_value_failure (a : http_result) (r : response) :
  a = Responded r -> success_status (status_code r) = false ->
  answer_value a = Raise (api_request_failed r).
Proof.
  intros -> H. unfold answer_value, decode_response. now rewrite H.
Qed.

Lemma one_call_request {A} (tok : pyval) (base method endpoint : string)
    (data params : pyval) (k : pyval -> M A) :
  (forall a, silent (k a)) ->
  one_call E (bind (_make_request E tok base method endpoint data params) k).
Proof.
  intros Hk w. unfold bind.
  destruct (truthy tok) eqn:Ht.
  - rewrite make_request_run by assumption.
    set (rq := build_request tok base method endpoint data params).
    right. exists rq.
    destruct (answer_value (http E (trace w) rq)) as [v|e] eqn:Hv.
    + split.
      * now rewrite (Hk v (after_request w rq)).
      * intros r Hr Hs. rewrite (answer_value_failure _ _ Hr Hs) in Hv. discriminate.
    + split; [reflexivity|].
      intros r Hr Hs. rewrite (answer_value_failure _ _ Hr Hs) in Hv.
      simpl. congruence.
  - rewrite make_request_refused by assumption. now left.
Qed.

Lemma one_call_tool_get_emails gc arguments : one_call E (tool_get_emails E gc arguments).
Proof.
  unfold tool_get_emails.
  apply one_call_bind; [apply silent_lift|]; intros count.
  destruct (truthy (dict_get_default arguments "search" PNone));
    apply one_call_request; intros; apply silent_lift.
Qed.

Lemma one_call_tool_get_calendar_events gc arguments :
  one_call E (tool_get_calendar_events E gc arguments).
Proof.
  unfold tool_get_calendar_events.
  apply one_call_bind; [apply silent_lift|]; intros days.
  apply one_call_bind; [apply silent_lift|]; intros count.
  apply one_call_bind; [apply silent_now|]; intros t1.
  apply one_call_bind; [apply silent_now|]; intros t2.
  apply one_call_bind; [apply silent_lift|]; intros t3.
  apply one_call_request; intros; apply silent_lift.
Qed.

Lemma one_call_tool_create_calendar_event gc arguments :
  one_call E (tool_create_calendar_event E gc arguments).
Proof.
  unfold tool_create_calendar_event.
  apply one_call_bind; [apply silent_lift|]; intros subject.
  apply one_call_bind; [apply silent_lift|]; intros start_time_str.
  apply one_call_bind; [apply silent_lift|]; intros end_time_str.
  apply one_call_bind.
  - apply silent_try.
    + apply silent_bind; [apply silent_lift|]; intros.
      apply silent_bind; [apply silent_lift|]; intros. apply silent_ret.
    + intros. apply silent_ret.
  - intros [[start_time end_time]|early].
    + unfold create_event.
      match goal with
      | |- one_call E (bind (bind ?m ?k1) ?k2) =>
          assert (Hassoc : forall w, bind (bind m k1) k2 w
                                     = bind m (fun x => bind (k1 x) k2) w)
      end.
      { intros w. unfold bind. now destruct (lift _ w) as [[a|e] w1]. }
      intros w. rewrite Hassoc. revert w.
      apply one_call_bind; [apply silent_lift|]; intros event_data.
      apply one_call_request; intros; apply silent_lift.
    + apply one_call_silent, silent_ret.
Qed.

Lemma one_call_tool_get_user_info gc : one_call E (tool_get_user_info E gc).
Proof.
  unfold tool_get_user_info.
  apply one_call_request; intros; apply silent_lift.
Qed.

Lemma catch_all_returns {A} (m : M A) (h : exn -> A) (w : World) :
  exists a, fst (try_except m (fun _ => true) (fun e => ret (h e)) w) = Ok a.
Proof.
  unfold try_except. destruct (m w) as [[a|e] w1]; simpl; eauto.
Qed.

Lemma catch_all_trace {A} (m : M A) (h : exn -> A) (w : World) :
  snd (try_except m (fun _ => true) (fun e => ret (h e)) w) = snd (m w).
Proof.
  unfold try_except. now destruct (m w) as [[a|e] w1].
Qed.

Lemma catch_all_raise {A} (m : M A) (h : exn -> A) (w : World) (e : exn) :
  fst (m w) = Raise e ->
  fst (try_except m (fun _ => true) (fun e => ret (h e)) w) = Ok (h e).
Proof.
  unfold try_except. destruct (m w) as [[a|e'] w1]; simpl; intros H; congruence.
Qed.

(** The dispatcher never raises: every exception of a branch is rendered. *)
Lemma dispatcher_returns g name arguments w :
  exists texts, fst (handle_call_tool E g name arguments w) = Ok texts.
Proof.
  destruct (authenticated g) eqn:Hg.
  - destruct g as [gc|]; [simpl in Hg|discriminate].
    rewrite guard_opens by assumption. apply catch_all_returns.
  - rewrite guard_closes by assumption. simpl. eauto.
Qed.

Lemma one_call_branches gc name arguments :
  one_call E
    (if String.eqb name "get_emails" then tool_get_emails E gc arguments
     else if String.eqb name "get_calendar_events"
          then tool_get_calendar_events E gc arguments
     else if String.eqb name "create_calendar_event"
          then tool_create_calendar_event E gc arguments
     else if String.eqb name "get_user_info" then tool_get_user_info E gc
     else ret (text_result (unknown_tool_text name))).
Proof.
  destruct (String.eqb name "get_emails"); [apply one_call_tool_get_emails|].
  destruct (String.eqb name "get_calendar_events");
    [apply one_call_tool_get_calendar_events|].
  destruct (String.eqb name "create_calendar_event");
    [apply one_call_tool_create_calendar_event|].
  destruct (String.eqb name "get_user_info"); [apply one_call_tool_get_user_info|].
  apply one_call_silent, silent_ret.
Qed.

(** ** Remote failures *)

Lemma error_text_names_tool_and_status (name : string) (r : response) :
  error_executing_text name (api_request_failed r)
  = "❌ Error executing " ++ name ++ ": API request failed: "
      ++ Z_str (status_code r) ++ " - " ++ content r
  /\ contains name (error_executing_text name (api_request_failed r))
  /\ contains (Z_str (status_code r)) (error_executing_text name (api_request_failed r)).
Proof.
  split; [reflexivity|split].
  - apply contains_middle.
  - exists ("❌ Error executing " ++ name ++ ": API request failed: "),
           (" - " ++ content r).
    unfold error_executing_text, api_request_failed; simpl exn_str.
    now rewrite !append_assoc.
Qed.

(** C7.  When the request an invocation sends is answered with a status
    outside 200, 201, 202 and 204, the dispatcher returns normally, with the
    text [❌ Error executing <tool>: API request failed: <status> - <body>],
    which names the tool and contains the status code; the dispatcher
    returns normally on every invocation; and [_make_request] gives [None],
    not an error, for a 204 answer without content. *)
Theorem remote_failure_is_rendered :
  (forall g name arguments w rq r,
      sent_exactly w (snd (handle_call_tool E g name arguments w)) [rq] ->
      http E (trace w) rq = Responded r ->
      success_status (status_code r) = false ->
      fst (handle_call_tool E g name arguments w)
      = Ok (text_result (error_executing_text name (api_request_failed r)))
      /\ contains name (error_executing_text name (api_request_failed r))
      /\ contains (Z_str (status_code r))
                  (error_executing_text name (api_request_failed r)))
  /\ (forall g name arguments w,
         exists texts, fst (handle_call_tool E g name arguments w) = Ok texts)
  /\ (forall tok base method endpoint data params w r,
         truthy tok = true ->
         http E (trace w) (build_request tok base method endpoint data params)
         = Responded r ->
         status_code r = 204 -> content r = EmptyString ->
         fst (_make_request E tok base method endpoint data params w) = Ok PNone).
Proof.
  split; [|split].
  - intros g name arguments w rq r Hsent Hr Hs.
    split; [|apply error_text_names_tool_and_status].
    unfold sent_exactly in Hsent.
    destruct (authenticated g) eqn:Hg.
    + destruct g as [gc|]; [simpl in Hg|discriminate].
      rewrite guard_opens in * by assumption.
      rewrite catch_all_trace in Hsent.
      destruct (one_call_branches gc name arguments w) as [H|(rq' & H1 & H2)].
      * rewrite H in Hsent. now apply trace_grows_not in Hsent.
      * rewrite H1 in Hsent. apply app_inv_head in Hsent.
        injection Hsent as <-.
        apply (catch_all_raise _ (fun e => text_result (error_executing_text name e))).
        now apply H2.
    + rewrite guard_closes in Hsent by assumption. simpl in Hsent.
      now apply trace_grows_not in Hsent.
  - intros. apply dispatcher_returns.
  - intros tok base method endpoint data params w r Ht Hr Hc Hn.
    rewrite make_request_run by assumption. simpl. rewrite Hr.
    unfold answer_value, decode_response. now rewrite Hc, Hn.
Qed.

(** ** Runs of the two listing tools *)

Lemma messages_params_falsy (top search filter_str : pyval) :
  truthy search = false ->
  messages_params top PNone filter_str = messages_params top search filter_str.
Proof.
  intros H. unfold messages_params. now rewrite H.
Qed.

Lemma tool_get_emails_run gc arguments w count :
  truthy (access_token gc) = true ->
  py_min (dict_get_default arguments "count" (PInt 10)) 50 = Ok count ->
  tool_get_emails E gc arguments w
  = (obind (answer_value
              (http E (trace w)
                 (emails_request gc count (dict_get_default arguments "search" PNone))))
           (render_emails E (dict_get_default arguments "search" PNone)),
     after_request w (emails_request gc count (dict_get_default arguments "search" PNone))).
Proof.
  intros Ht Hc. unfold tool_get_emails, bind at 1, lift at 1. rewrite Hc.
  unfold bind, search_messages, get_messages, gc_request, emails_request.
  destruct (truthy (dict_get_default arguments "search" PNone)) eqn:Hs.
  - rewrite make_request_run by assumption.
    now destruct (answer_value _).
  - rewrite make_request_run by assumption.
    rewrite <- (messages_params_falsy count _ PNone Hs).
    now destruct (answer_value _).
Qed.

Lemma tool_get_calendar_events_run gc arguments w days count t3 :
  truthy (access_token gc) = true ->
  py_min (dict_get_default arguments "days" (PInt 7)) 30 = Ok days ->
  py_min (dict_get_default arguments "count" (PInt 20)) 50 = Ok count ->
  shift_days (clock E (S (ticks w))) days = Ok t3 ->
  tool_get_calendar_events E gc arguments w
  = (obind (answer_value
              (http E (trace w) (events_request gc (clock E (ticks w)) t3 count)))
           (render_events E days),
     mkWorld (trace w ++ [events_request gc (clock E (ticks w)) t3 count])%list
             (S (S (ticks w)))).
Proof.
  intros Ht Hd Hc Hs.
  unfold tool_get_calendar_events, bind at 1, lift at 1. rewrite Hd.
  unfold bind at 1, lift at 1. rewrite Hc.
  unfold bind at 1, now at 1. unfold bind at 1, now at 1. simpl ticks.
  unfold bind at 1, lift at 1. rewrite Hs.
  unfold bind, get_events, gc_request, events_request.
  rewrite make_request_run by assumption. unfold after_request; simpl.
  now destruct (answer_value _).
Qed.

Lemma tool_get_calendar_events_overflow gc arguments w days count e :
  py_min (dict_get_default arguments "days" (PInt 7)) 30 = Ok days ->
  py_min (dict_get_default arguments "count" (PInt 20)) 50 = Ok count ->
  shift_days (clock E (S (ticks w))) days = Raise e ->
  tool_get_calendar_events E gc arguments w
  = (Raise e, mkWorld (trace w) (S (S (ticks w)))).
Proof.
  intros Hd Hc Hs.
  unfold tool_get_calendar_events, bind at 1, lift at 1. rewrite Hd.
  unfold bind at 1, lift at 1. rewrite Hc.
  unfold bind at 1, now at 1. unfold bind at 1, now at 1. simpl ticks.
  unfold bind at 1, lift at 1. now rewrite Hs.
Qed.

Lemma catch_all_run {A} (m : M A) (h : exn -> A) (w w' : World) (o : outcome A) :
  m w = (o, w') ->
  try_except m (fun _ => true) (fun e => ret (h e)) w
  = (Ok (match o with Ok a => a | Raise e => h e end), w').
Proof.
  intros H. unfold try_except. rewrite H. now destruct o.
Qed.

Lemma decode_page (r : response) (result : pyval) :
  success_status (status_code r) = true ->
  content r <> EmptyString ->
  json_body r = Some result ->
  decode_response r = Ok result.
Proof.
  intros Hs Hc Hj. unfold decode_response. rewrite Hs, Hj.
  now destruct (content r).
Qed.

(** ** Empty results *)

(** C8.  When the service answers the request of a [get_emails] invocation
    with a page whose [value] is empty (or absent), the result is the text
    [📧 No emails found<criteria>.], where the criteria echo a non-empty
    search term as [ matching '<term>']; when it so answers the request of
    a [get_calendar_events] invocation the result is
    [📅 No events found in the next <days> days.], [days] being the clamped
    day range. *)
Theorem empty_results_are_announced :
  (forall gc arguments w count r result emails,
      truthy (access_token gc) = true ->
      py_min (dict_get_default arguments "count" (PInt 10)) 50 = Ok count ->
      http E (trace w)
        (emails_request gc count (dict_get_default arguments "search" PNone))
      = Responded r ->
      success_status (status_code r) = true ->
      content r <> EmptyString ->
      json_body r = Some result ->
      py_get result "value" (PList []) = Ok emails ->
      truthy emails = false ->
      fst (handle_call_tool E (Some gc) "get_emails" arguments w)
      = Ok (text_result
              ("📧 No emails found"
                 ++ search_text (dict_get_default arguments "search" PNone) ++ "."))
      /\ forall term, dict_get arguments "search" = Some (PStr term) ->
                      term <> EmptyString ->
                      fst (handle_call_tool E (Some gc) "get_emails" arguments w)
                      = Ok (text_result
                              ("📧 No emails found matching '" ++ term ++ "'.")))
  /\ (forall gc arguments w days count t3 r result events,
         truthy (access_token gc) = true ->
         py_min (dict_get_default arguments "days" (PInt 7)) 30 = Ok days ->
         py_min (dict_get_default arguments "count" (PInt 20)) 50 = Ok count ->
         shift_days (clock E (S (ticks w))) days = Ok t3 ->
         http E (trace w) (events_request gc (clock E (ticks w)) t3 count)
         = Responded r ->
         success_status (status_code r) = true ->
         content r <> EmptyString ->
         json_body r = Some result ->
         py_get result "value" (PList []) = Ok events ->
         truthy events = false ->
         fst (handle_call_tool E (Some gc) "get_calendar_events" arguments w)
         = Ok (text_result
                 ("📅 No events found in the next " ++ py_str days ++ " days."))).
Proof.
  split.
  - intros gc arguments w count r result emails Ht Hc Hr Hs Hn Hj Hv He.
    assert (Hrun : fst (handle_call_tool E (Some gc) "get_emails" arguments w)
                   = Ok (text_result
                           ("📧 No emails found"
                              ++ search_text (dict_get_default arguments "search" PNone)
                              ++ "."))).
    { rewrite guard_opens by assumption. simpl String.eqb. cbv iota.
      erewrite catch_all_run by (apply tool_get_emails_run; eassumption).
      rewrite Hr. unfold answer_value. rewrite (decode_page r result) by assumption.
      simpl obind. unfold render_emails. rewrite Hv. simpl obind. now rewrite He. }
    split; [exact Hrun|].
    intros term Hterm Hne. rewrite Hrun.
    rewrite (dict_get_default_some _ _ _ _ Hterm).
    unfold search_text; simpl truthy.
    apply String.eqb_neq in Hne. rewrite Hne. simpl.
    now rewrite append_assoc.
  - intros gc arguments w days count t3 r result events Ht Hd Hc Hsh Hr Hs Hn Hj Hv He.
    rewrite guard_opens by assumption. simpl String.eqb. cbv iota.
    erewrite catch_all_run by (apply tool_get_calendar_events_run; eassumption).
    rewrite Hr. unfold answer_value. rewrite (decode_page r result) by assumption.
    simpl obind. unfold render_events. rewrite Hv. simpl obind. now rewrite He.
Qed.

(** ** Values at or below the maximum *)

Lemma effective_get_emails_count arguments v :
  effective "get_emails" "count" arguments = Some v ->
  dict_get_default arguments "count" (PInt 10) = v.
Proof.
  unfold effective, dict_get_default.
  destruct (dict_get arguments "count"); intros H; now inversion H.
Qed.

Lemma effective_events_days arguments v :
  effective "get_calendar_events" "days" arguments = Some v ->
  dict_get_default arguments "days" (PInt 7) = v.
Proof.
  unfold effective, dict_get_default.
  destruct (dict_get arguments "days"); intros H; now inversion H.
Qed.

Lemma effective_events_count arguments v :
  effective "get_calendar_events" "count" arguments = Some v ->
  dict_get_default arguments "count" (PInt 20) = v.
Proof.
  unfold effective, dict_get_default.
  destruct (dict_get arguments "count"); intros H; now inversion H.
Qed.

Lemma events_request_filter gc t1 t3 count :
  param_of (events_request gc t1 t3 count) "$filter"
  = Some (PStr ("start/dateTime ge '" ++ isoformat t1
                  ++ "Z' and end/dateTime le '" ++ isoformat t3 ++ "Z'")).
Proof.
  unfold param_of, events_request, build_request, events_params.
  replace (truthy (PStr (isoformat t1 ++ "Z"))) with true by reflexivity.
  replace (truthy (PStr (isoformat t3 ++ "Z"))) with true by reflexivity.
  cbn -[isoformat append].
  now rewrite !append_assoc.
Qed.

Lemma events_request_top gc t1 t3 count :
  param_of (events_request gc t1 t3 count) "$top" = Some count.
Proof.
  unfold param_of, events_request, build_request, events_params.
  replace (truthy (PStr (isoformat t1 ++ "Z"))) with true by reflexivity.
  replace (truthy (PStr (isoformat t3 ++ "Z"))) with true by reflexivity.
  reflexivity.
Qed.

(** C10, amended.  The numeric parameters have no lower bound of their
    own.  The dispatcher works with the supplied value, or with the declared
    default when the key is absent.  For [get_emails], any integer [count]
    at or below 50, zero and negatives included, is sent unchanged as
    [$top].  For [get_calendar_events], any integers [days] at or below 30
    and [count] at or below 50 are used unchanged, as the day span of the
    filter and as [$top], provided the current time shifted by [days] is a
    representable date; when it is not, the addition raises, no request is
    sent and the error text is returned. *)
Theorem low_values_are_forwarded :
  (forall gc arguments w v,
      truthy (access_token gc) = true ->
      effective "get_emails" "count" arguments = Some (PInt v) ->
      v <= 50 ->
      sent_exactly w (snd (handle_call_tool E (Some gc) "get_emails" arguments w))
        [emails_request gc (PInt v) (dict_get_default arguments "search" PNone)]
      /\ param_of (emails_request gc (PInt v) (dict_get_default arguments "search" PNone))
                  "$top" = Some (PInt v))
  /\ (forall gc arguments w d c t3,
         truthy (access_token gc) = true ->
         effective "get_calendar_events" "days" arguments = Some (PInt d) ->
         d <= 30 ->
         effective "get_calendar_events" "count" arguments = Some (PInt c) ->
         c <= 50 ->
         add_days (clock E (S (ticks w))) d = Ok t3 ->
         sent_exactly w
           (snd (handle_call_tool E (Some gc) "get_calendar_events" arguments w))
           [events_request gc (clock E (ticks w)) t3 (PInt c)]
         /\ param_of (events_request gc (clock E (ticks w)) t3 (PInt c)) "$top"
            = Some (PInt c)
         /\ param_of (events_request gc (clock E (ticks w)) t3 (PInt c)) "$filter"
            = Some (PStr ("start/dateTime ge '" ++ isoformat (clock E (ticks w))
                            ++ "Z' and end/dateTime le '" ++ isoformat t3 ++ "Z'")))
  /\ (forall gc arguments w d c e,
         truthy (access_token gc) = true ->
         effective "get_calendar_events" "days" arguments = Some (PInt d) ->
         d <= 30 ->
         effective "get_calendar_events" "count" arguments = Some (PInt c) ->
         c <= 50 ->
         add_days (clock E (S (ticks w))) d = Raise e ->
         handle_call_tool E (Some gc) "get_calendar_events" arguments w
         = (Ok (text_result (error_executing_text "get_calendar_events" e)),
            mkWorld (trace w) (S (S (ticks w))))).
Proof.
  split; [|split].
  - intros gc arguments w v Ht Hv Hle.
    apply effective_get_emails_count in Hv.
    split.
    + rewrite guard_opens by assumption. simpl String.eqb. cbv iota.
      erewrite (catch_all_run _ (fun e => text_result (error_executing_text _ e)))
        by (apply tool_get_emails_run; [assumption|rewrite Hv; now apply py_min_below]).
      reflexivity.
    + unfold param_of, emails_request, build_request, messages_params. simpl.
      destruct (truthy (dict_get_default arguments "search" PNone)); reflexivity.
  - intros gc arguments w d c t3 Ht Hd Hdle Hc Hcle Hs.
    apply effective_events_days in Hd. apply effective_events_count in Hc.
    split; [|split].
    + rewrite guard_opens by assumption. simpl String.eqb. cbv iota.
      erewrite (catch_all_run _ (fun e => text_result (error_executing_text _ e)))
        by (apply tool_get_calendar_events_run with (days := PInt d);
            [assumption
            |rewrite Hd; now apply py_min_below
            |rewrite Hc; now apply py_min_below
            |exact Hs]).
      reflexivity.
    + apply events_request_top.
    + apply events_request_filter.
  - intros gc arguments w d c e Ht Hd Hdle Hc Hcle Hs.
    apply effective_events_days in Hd. apply effective_events_count in Hc.
    rewrite guard_opens by assumption. simpl String.eqb. cbv iota.
    erewrite (catch_all_run _ (fun e => text_result (error_executing_text _ e)))
      by (apply tool_get_calendar_events_overflow with (days := PInt d) (count := PInt c);
          [rewrite Hd; now apply py_min_below
          |rewrite Hc; now apply py_min_below
          |exact Hs]).
    reflexivity.
Qed.

(** ** The bulk operation *)

Lemma mark_one_run c msg_id w :
  exists r w',
    mark_one E c msg_id w = (Ok r, w')
    /\ outcome_record msg_id r
    /\ (truthy (ec_access_token c) = true ->
        trace w' = (trace w ++ [mark_request c msg_id])%list).
Proof.
  unfold mark_one, mark_as_read, try_except, bind at 1.
  destruct (truthy (ec_access_token c)) eqn:Ht.
  - rewrite make_request_run by assumption.
    destruct (answer_value _) as [v|e]; simpl;
      do 2 eexists; (split; [reflexivity|split; [|reflexivity]]).
    + left. now eexists.
    + right. now eexists.
  - rewrite make_request_refused by assumption. simpl.
    do 2 eexists. split; [reflexivity|split; [|discriminate]].
    right. now eexists.
Qed.

Lemma bulk_loop_run c message_ids :
  forall acc w,
  exists results w',
    bulk_loop E c message_ids acc w = (Ok (acc ++ results)%list, w')
    /\ Forall2 outcome_record message_ids results
    /\ (truthy (ec_access_token c) = true ->
        trace w' = (trace w ++ map (mark_request c) message_ids)%list).
Proof.
  induction message_ids as [|msg_id rest IH]; intros acc w.
  - exists [], w. simpl. rewrite !app_nil_r. repeat split. constructor.
  - destruct (mark_one_run c msg_id w) as (r & w1 & H1 & Hr & Ht1).
    destruct (IH (acc ++ [r])%list w1) as (rs & w2 & H2 & Hrs & Ht2).
    exists (r :: rs), w2. simpl. unfold bind. rewrite H1, H2.
    rewrite <- app_assoc. simpl. repeat split.
    + now constructor.
    + intros Ht. rewrite (Ht2 Ht), (Ht1 Ht), <- app_assoc. reflexivity.
Qed.

(** C9.  [bulk_mark_read] always returns, with one record per message id,
    in the order of the ids: the record of an id carries that id and either
    [success: True] with the result or [success: False] with the text of the
    exception.  The list is as long as the input, and with an access token
    one request per id has been sent, in order, whatever the earlier ones
    were answered. *)
Theorem bulk_mark_read_records_every_id (c : GraphEmailClient)
    (message_ids : list string) (w : World) :
  exists results w',
    bulk_mark_read E c message_ids w = (Ok results, w')
    /\ List.length results = List.length message_ids
    /\ Forall2 outcome_record message_ids results
    /\ (truthy (ec_access_token c) = true ->
        sent_exactly w w' (map (mark_request c) message_ids)).
Proof.
  destruct (bulk_loop_run c message_ids [] w) as (rs & w' & H & Hrs & Ht).
  exists rs, w'. repeat split; try assumption.
  symmetry. now apply Forall2_length in Hrs.
Qed.

(** ** Start-up *)

Lemma main_serves_iff_file_is_object (s : Startup) (g : option GraphClient)
    (err : list string) :
  main s = Serving g err ->
  exists gc d,
    g = Some gc
    /\ token_file s = FileJson (PDict d)
    /\ access_token gc = dict_get_default d "access_token" PNone.
Proof.
  unfold main, initialize_graph_client.
  destruct (env_missing (AZURE_CLIENT_ID s) || env_missing (AZURE_CLIENT_SECRET s));
    [discriminate|].
  destruct (token_file s) as [|e|v]; try discriminate.
  destruct v; try discriminate.
  simpl. intros H. inversion H; subst. now eexists _, _.
Qed.

Lemma main_exits_without_token_file (s : Startup) :
  token_file s = FileAbsent \/ (exists e, token_file s = FileUnreadable e) ->
  exists err, main s = Exited 1 err.
Proof.
  unfold main, initialize_graph_client.
  destruct (env_missing (AZURE_CLIENT_ID s) || env_missing (AZURE_CLIENT_SECRET s));
    [simpl; eauto|].
  intros [->|(e & ->)]; simpl; eauto.
Qed.


(** ** Times that do not parse *)

Lemma strptime_raises_ValueError (s f : string) (e : exn) :
  strptime s f = Raise e -> is_ValueError e = true.
Proof.
  unfold strptime.
  destruct (compile_format f) as [ds|]; [|now intros [= <-]].
  destruct (match_seq ds s) as [|[vs rest] l]; [now intros [= <-]|].
  destruct rest; [|now intros [= <-]].
  repeat match goal with
         | |- context [if ?b then _ else _] => destruct b
         end; intros H; inversion H; reflexivity.
Qed.










(** ** Times written in the accepted formats *)

Lemma Z_cases (P : Z -> Prop) (lo : Z) (n : nat) :
  (forall i : nat, (i < n)%nat -> P (lo + Z.of_nat i)) ->
  forall v, lo <= v < lo + Z.of_nat n -> P v.
Proof.
  intros H v Hv.
  replace v with (lo + Z.of_nat (Z.to_nat (v - lo))) by lia.
  apply H. lia.
Qed.

Ltac enumerate v lo n tac :=
  pattern v; apply (Z_cases _ lo n); [|lia];
  let i := fresh "i" in
  let Hi := fresh "Hi" in
  intros i Hi;
  repeat (assert_fails (exfalso; lia); destruct i as [|i]; [solve [tac]|]);
  exfalso; lia.

Lemma digit_char_facts (k : Z) :
  0 <= k <= 9 ->
  is_digit (digit_char k) = true
  /\ digit_val (digit_char k) = k
  /\ Ascii.eqb (digit_char k) (chr 90) = false
  /\ is_space (digit_char k) = false.
Proof.
  intros H. enumerate k 0 10%nat ltac:(now vm_compute).
Qed.

Lemma is_digit_cases (a : ascii) :
  is_digit a = true ->
  is_space a = false
  /\ Ascii.eqb (str_lower_char a) (str_lower_char "-") = false
  /\ Ascii.eqb (str_lower_char a) (str_lower_char "T") = false
  /\ Ascii.eqb (str_lower_char a) (str_lower_char ":") = false.
Proof.
  destruct a as [[] [] [] [] [] [] [] []]; vm_compute; intros H;
    try discriminate; repeat split.
Qed.

Lemma str_replace_app (c : ascii) (b s1 s2 : string) :
  str_replace c b (s1 ++ s2) = str_replace c b s1 ++ str_replace c b s2.
Proof.
  induction s1 as [|a s1 IH]; simpl; [reflexivity|].
  destruct (Ascii.eqb a c); rewrite IH; [now rewrite append_assoc|reflexivity].
Qed.

Lemma tens_units (v : Z) : 0 <= v <= 99 -> 0 <= v / 10 <= 9 /\ 0 <= v mod 10 <= 9.
Proof.
  intros H. Z.div_mod_to_equations. lia.
Qed.

Lemma pad2_keeps_Z (v : Z) :
  0 <= v <= 99 -> str_replace (chr 90) EmptyString (pad2 v) = pad2 v.
Proof.
  intros H. destruct (tens_units v H) as [H1 H2].
  destruct (digit_char_facts _ H1) as (_ & _ & E1 & _).
  destruct (digit_char_facts _ H2) as (_ & _ & E2 & _).
  unfold pad2. simpl. now rewrite E1, E2.
Qed.

Lemma thousands (y : Z) :
  0 <= y <= 9999 ->
  0 <= y / 1000 <= 9 /\ 0 <= y / 100 mod 10 <= 9
  /\ 0 <= y / 10 mod 10 <= 9 /\ 0 <= y mod 10 <= 9
  /\ 1000 * (y / 1000) + 100 * (y / 100 mod 10) + 10 * (y / 10 mod 10) + y mod 10 = y.
Proof.
  intros H. Z.div_mod_to_equations. lia.
Qed.

Lemma pad4_keeps_Z (y : Z) :
  0 <= y <= 9999 -> str_replace (chr 90) EmptyString (pad4 y) = pad4 y.
Proof.
  intros H. destruct (thousands y H) as (H1 & H2 & H3 & H4 & _).
  destruct (digit_char_facts _ H1) as (_ & _ & E1 & _).
  destruct (digit_char_facts _ H2) as (_ & _ & E2 & _).
  destruct (digit_char_facts _ H3) as (_ & _ & E3 & _).
  destruct (digit_char_facts _ H4) as (_ & _ & E4 & _).
  unfold pad4. simpl. now rewrite E1, E2, E3, E4.
Qed.

Lemma valid_datetime_ranges (t : datetime) :
  valid_datetime t = true ->
  1 <= year t <= 9999 /\ 1 <= month t <= 12
  /\ 1 <= day t <= days_in_month (year t) (month t)
  /\ 0 <= hour t <= 23 /\ 0 <= minute t <= 59 /\ 0 <= second t <= 59
  /\ 0 <= microsecond t <= 999999.
Proof.
  unfold valid_datetime, MINYEAR, MAXYEAR. intros H.
  repeat (apply andb_prop in H; destruct H as [H ?]).
  repeat match goal with
         | Hb : (_ <=? _) = true |- _ => apply Z.leb_le in Hb
         end.
  repeat split; assumption.
Qed.

Lemma days_in_month_le_31 (y m : Z) : days_in_month y m <= 31.
Proof.
  unfold days_in_month.
  repeat match goal with
         | |- context [if ?b then _ else _] => destruct b
         end; lia.
Qed.

Lemma written_keeps_Z (f : time_format) (t : datetime) :
  valid_datetime t = true ->
  str_replace (chr 90) EmptyString (written f t) = written f t.
Proof.
  intros H. destruct (valid_datetime_ranges t H) as (Hy & Hm & Hd & Hh & Hmi & Hs & _).
  pose proof (days_in_month_le_31 (year t) (month t)) as H31.
  destruct f; unfold written;
    repeat rewrite str_replace_app;
    rewrite pad4_keeps_Z by lia; repeat rewrite pad2_keeps_Z by lia;
    reflexivity.
Qed.

(** The matches of one directive on a padded field. *)
Lemma four_padded (y : Z) (rest : string) :
  0 <= y <= 9999 -> match_dir DY (pad4 y ++ rest) = [([y], rest)].
Proof.
  intros H. destruct (thousands y H) as (H1 & H2 & H3 & H4 & Hsum).
  destruct (digit_char_facts _ H1) as (D1 & V1 & _).
  destruct (digit_char_facts _ H2) as (D2 & V2 & _).
  destruct (digit_char_facts _ H3) as (D3 & V3 & _).
  destruct (digit_char_facts _ H4) as (D4 & V4 & _).
  unfold pad4, match_dir, four; cbn [append].
  rewrite D1, D2, D3, D4, V1, V2, V3, V4. cbn [andb].
  now rewrite Hsum.
Qed.

Ltac padded_cases :=
  simpl; eexists; split;
  [reflexivity | repeat constructor; do 2 eexists; split; reflexivity].

Lemma match_dir_padded (d : directive) (v : Z) (rest : string) :
  field_range d v ->
  exists extras,
    match_dir d (pad2 v ++ rest) = ([v], rest) :: extras
    /\ Forall (fun e => digit_leading (snd e)) extras.
Proof.
  destruct d; simpl field_range; intros H; try contradiction.
  - enumerate v 1 12%nat padded_cases.
  - enumerate v 1 31%nat padded_cases.
  - enumerate v 0 24%nat padded_cases.
  - enumerate v 0 60%nat padded_cases.
  - enumerate v 0 60%nat padded_cases.
Qed.

(** The matches of a sequence of directives, field by field. *)
Lemma map_prepend_nil (l : list (list Z * string)) :
  map (fun vr' : list Z * string => (fst vr', snd vr')) l = l.
Proof.
  induction l as [|[vs r] l IH]; simpl; [reflexivity | now rewrite IH].
Qed.

Lemma flat_map_blocked (k : string -> list (list Z * string))
    (extras : list (list Z * string)) :
  (forall s, digit_leading s -> k s = []) ->
  Forall (fun e => digit_leading (snd e)) extras ->
  flat_map (fun vr => map (fun vr' => ((fst vr ++ fst vr')%list, snd vr')) (k (snd vr)))
           extras = [].
Proof.
  intros Hk Hx. induction Hx as [|e l He _ IH]; simpl; [reflexivity|].
  now rewrite (Hk _ He), IH.
Qed.

Lemma seq_field (d : directive) (v : Z) (rest : string) (ds : list directive) :
  field_range d v ->
  (forall s, digit_leading s -> match_seq ds s = []) ->
  match_seq (d :: ds) (pad2 v ++ rest)
  = map (fun vr' => (v :: fst vr', snd vr')) (match_seq ds rest).
Proof.
  intros Hr Hk. destruct (match_dir_padded d v rest Hr) as (extras & Hm & Hx).
  cbn [match_seq]. rewrite Hm. cbn [flat_map fst snd app].
  rewrite (flat_map_blocked (match_seq ds) extras Hk Hx).
  now rewrite app_nil_r.
Qed.

Lemma seq_last (d : directive) (v : Z) :
  field_range d v ->
  exists extras, match_seq [d] (pad2 v) = ([v], EmptyString) :: extras.
Proof.
  intros Hr. destruct (match_dir_padded d v EmptyString Hr) as (extras & Hm & _).
  change (pad2 v ++ EmptyString) with (pad2 v) in Hm.
  cbn [match_seq]. rewrite Hm. cbn [flat_map map fst snd app]. eauto.
Qed.

Lemma seq_year (y : Z) (rest : string) (ds : list directive) :
  0 <= y <= 9999 ->
  match_seq (DY :: ds) (pad4 y ++ rest)
  = map (fun vr' => (y :: fst vr', snd vr')) (match_seq ds rest).
Proof.
  intros H. cbn [match_seq]. rewrite (four_padded y rest H).
  cbn [flat_map fst snd app]. now rewrite app_nil_r.
Qed.

Lemma seq_lit (c : ascii) (rest : string) (ds : list directive) :
  match_seq (Lit c :: ds) (String c rest) = match_seq ds rest.
Proof.
  cbn [match_seq match_dir]. rewrite Ascii.eqb_refl.
  cbn [flat_map fst snd app]. now rewrite app_nil_r, map_prepend_nil.
Qed.

Lemma seq_lit_mismatch (c a : ascii) (rest : string) (ds : list directive) :
  Ascii.eqb (str_lower_char a) (str_lower_char c) = false ->
  match_seq (Lit c :: ds) (String a rest) = [].
Proof.
  intros H. cbn [match_seq match_dir]. now rewrite H.
Qed.

Lemma seq_lit_end (c : ascii) (ds : list directive) :
  match_seq (Lit c :: ds) EmptyString = [].
Proof.
  reflexivity.
Qed.

Lemma dash_blocks (ds : list directive) (s : string) :
  digit_leading s -> match_seq (Lit "-" :: ds) s = [].
Proof.
  intros (a & r & -> & Ha). apply seq_lit_mismatch.
  now destruct (is_digit_cases a Ha) as (_ & H & _).
Qed.

Lemma tee_blocks (ds : list directive) (s : string) :
  digit_leading s -> match_seq (Lit "T" :: ds) s = [].
Proof.
  intros (a & r & -> & Ha). apply seq_lit_mismatch.
  now destruct (is_digit_cases a Ha) as (_ & _ & H & _).
Qed.

Lemma colon_blocks (ds : list directive) (s : string) :
  digit_leading s -> match_seq (Lit ":" :: ds) s = [].
Proof.
  intros (a & r & -> & Ha). apply seq_lit_mismatch.
  now destruct (is_digit_cases a Ha) as (_ & _ & _ & H).
Qed.

Lemma seq_ws_mismatch (a : ascii) (rest : string) (ds : list directive) :
  is_space a = false -> match_seq (WS :: ds) (String a rest) = [].
Proof.
  intros H. cbn [match_seq match_dir spaces]. now rewrite H.
Qed.

Lemma space_blocks (ds : list directive) (s : string) :
  digit_leading s -> match_seq (WS :: ds) s = [].
Proof.
  intros (a & r & -> & Ha). apply seq_ws_mismatch.
  now destruct (is_digit_cases a Ha) as (H & _).
Qed.

Lemma pad2_digit_leading (v : Z) (rest : string) :
  0 <= v <= 99 -> digit_leading (pad2 v ++ rest).
Proof.
  intros H. destruct (tens_units v H) as [H1 _].
  destruct (digit_char_facts _ H1) as (D1 & _).
  unfold pad2. cbn [append]. now eexists _, _.
Qed.

Lemma seq_ws_one (v : Z) (rest : string) (ds : list directive) :
  0 <= v <= 99 ->
  match_seq (WS :: ds) (String " " (pad2 v ++ rest)) = match_seq ds (pad2 v ++ rest).
Proof.
  intros H. destruct (pad2_digit_leading v rest H) as (a & r & Hs & Ha).
  destruct (is_digit_cases a Ha) as (Hsp & _).
  cbn [match_seq match_dir spaces]. rewrite Hs.
  replace (is_space " ") with true by reflexivity.
  cbn [spaces]. rewrite Hsp. cbn [app flat_map fst snd].
  now rewrite app_nil_r, map_prepend_nil.
Qed.

Lemma accepted_formats_compiled :
  compile_format "%Y-%m-%dT%H:%M:%S"
  = Some [DY; Lit "-"; Dm; Lit "-"; Dd; Lit "T"; DH; Lit ":"; DM; Lit ":"; DS]
  /\ compile_format "%Y-%m-%d %H:%M:%S"
     = Some [DY; Lit "-"; Dm; Lit "-"; Dd; WS; DH; Lit ":"; DM; Lit ":"; DS]
  /\ compile_format "%Y-%m-%dT%H:%M"
     = Some [DY; Lit "-"; Dm; Lit "-"; Dd; Lit "T"; DH; Lit ":"; DM].
Proof.
  repeat split.
Qed.

Lemma built_is_valid (t : datetime) :
  valid_datetime t = true ->
  (if year t <? MINYEAR then false
   else if days_in_month (year t) (month t) <? day t then false
   else if 59 <? second t then false else true) = true.
Proof.
  intros H. destruct (valid_datetime_ranges t H) as (Hy & Hm & Hd & Hh & Hmi & Hs & _).
  unfold MINYEAR.
  replace (year t <? 1) with false by (symmetry; apply Z.ltb_ge; lia).
  replace (days_in_month (year t) (month t) <? day t) with false
    by (symmetry; apply Z.ltb_ge; lia).
  now replace (59 <? second t) with false by (symmetry; apply Z.ltb_ge; lia).
Qed.

Lemma strptime_of_match (s f : string) (ds : list directive)
    (t : datetime) (extras : list (list Z * string)) :
  compile_format f = Some ds ->
  match_seq ds s
  = ([year t; month t; day t; hour t; minute t; second t], EmptyString) :: extras ->
  valid_datetime t = true ->
  microsecond t = 0 ->
  strptime s f = Ok t.
Proof.
  intros Hc Hm Hv Hu. unfold strptime. rewrite Hc, Hm. cbn [nth].
  pose proof (built_is_valid t Hv) as Hb.
  destruct t as [y mo d h mi se us]; simpl in *. subst us.
  destruct (y <? MINYEAR); [discriminate|].
  destruct (days_in_month y mo <? d); [discriminate|].
  destruct (59 <? se); [discriminate|reflexivity].
Qed.

Lemma strptime_of_no_match (s f : string) (ds : list directive) :
  compile_format f = Some ds ->
  match_seq ds s = [] ->
  strptime s f = Raise (no_match s f).
Proof.
  intros Hc Hm. unfold strptime. now rewrite Hc, Hm.
Qed.

Ltac parse_fields :=
  repeat first
    [ rewrite seq_year by lia
    | rewrite seq_lit
    | rewrite seq_ws_one by lia
    | rewrite seq_field
        by (first [ simpl; lia
                  | apply dash_blocks | apply tee_blocks
                  | apply colon_blocks | apply space_blocks ]) ].

Lemma strptime_written_iso_seconds (t : datetime) :
  valid_datetime t = true -> microsecond t = 0 ->
  strptime (written IsoSeconds t) "%Y-%m-%dT%H:%M:%S" = Ok t.
Proof.
  intros Hv Hu.
  destruct (valid_datetime_ranges t Hv) as (Hy & Hm & Hd & Hh & Hmi & Hs & _).
  pose proof (days_in_month_le_31 (year t) (month t)) as H31.
  destruct (seq_last DS (second t)) as (extras & Hlast); [simpl; lia|].
  eapply strptime_of_match; try eassumption; [apply accepted_formats_compiled|].
  unfold written. cbn [append]. parse_fields.
  rewrite Hlast. cbn [map fst snd]. reflexivity.
Qed.

Lemma strptime_written_space_seconds (t : datetime) :
  valid_datetime t = true -> microsecond t = 0 ->
  strptime (written SpaceSeconds t) "%Y-%m-%d %H:%M:%S" = Ok t.
Proof.
  intros Hv Hu.
  destruct (valid_datetime_ranges t Hv) as (Hy & Hm & Hd & Hh & Hmi & Hs & _).
  pose proof (days_in_month_le_31 (year t) (month t)) as H31.
  destruct (seq_last DS (second t)) as (extras & Hlast); [simpl; lia|].
  eapply strptime_of_match; try eassumption; [apply accepted_formats_compiled|].
  unfold written. cbn [append]. parse_fields.
  rewrite Hlast. cbn [map fst snd]. reflexivity.
Qed.

Lemma strptime_written_iso_minutes (t : datetime) :
  whole_minute t ->
  strptime (written IsoMinutes t) "%Y-%m-%dT%H:%M" = Ok t.
Proof.
  intros (Hv & Hsec & Hu).
  destruct (valid_datetime_ranges t Hv) as (Hy & Hm & Hd & Hh & Hmi & Hs & _).
  pose proof (days_in_month_le_31 (year t) (month t)) as H31.
  destruct (seq_last DM (minute t)) as (extras & Hlast); [simpl; lia|].
  unfold strptime.
  replace (compile_format "%Y-%m-%dT%H:%M")
    with (Some [DY; Lit "-"; Dm; Lit "-"; Dd; Lit "T"; DH; Lit ":"; DM])
    by reflexivity.
  unfold written. cbn [append]. parse_fields.
  rewrite Hlast. cbn [map fst snd nth].
  pose proof (built_is_valid t Hv) as Hb.
  destruct t as [y mo d h mi se us]; simpl in *. subst se us.
  destruct (y <? MINYEAR); [discriminate|].
  destruct (days_in_month y mo <? d); [discriminate|reflexivity].
Qed.

(** A text written with a space is not matched by the [T] formats, and one
    written to the minute is matched by neither seconds format. *)
Lemma space_seconds_is_not_iso (t : datetime) :
  valid_datetime t = true ->
  strptime (written SpaceSeconds t) "%Y-%m-%dT%H:%M:%S"
  = Raise (no_match (written SpaceSeconds t) "%Y-%m-%dT%H:%M:%S").
Proof.
  intros Hv.
  destruct (valid_datetime_ranges t Hv) as (Hy & Hm & Hd & Hh & Hmi & Hs & _).
  pose proof (days_in_month_le_31 (year t) (month t)) as H31.
  eapply strptime_of_no_match; [apply accepted_formats_compiled|].
  unfold written. cbn [append]. parse_fields.
  rewrite seq_lit_mismatch by reflexivity. reflexivity.
Qed.

Lemma iso_minutes_is_not_iso_seconds (t : datetime) :
  valid_datetime t = true ->
  strptime (written IsoMinutes t) "%Y-%m-%dT%H:%M:%S"
  = Raise (no_match (written IsoMinutes t) "%Y-%m-%dT%H:%M:%S").
Proof.
  intros Hv.
  destruct (valid_datetime_ranges t Hv) as (Hy & Hm & Hd & Hh & Hmi & Hs & _).
  pose proof (days_in_month_le_31 (year t) (month t)) as H31.
  eapply strptime_of_no_match; [apply accepted_formats_compiled|].
  unfold written. cbn [append].
  change (pad2 (minute t)) with (pad2 (minute t) ++ EmptyString).
  parse_fields. rewrite seq_lit_end. reflexivity.
Qed.

Lemma iso_minutes_is_not_space_seconds (t : datetime) :
  valid_datetime t = true ->
  strptime (written IsoMinutes t) "%Y-%m-%d %H:%M:%S"
  = Raise (no_match (written IsoMinutes t) "%Y-%m-%d %H:%M:%S").
Proof.
  intros Hv.
  destruct (valid_datetime_ranges t Hv) as (Hy & Hm & Hd & Hh & Hmi & Hs & _).
  pose proof (days_in_month_le_31 (year t) (month t)) as H31.
  eapply strptime_of_no_match; [apply accepted_formats_compiled|].
  unfold written. cbn [append]. parse_fields.
  rewrite seq_ws_mismatch by reflexivity. reflexivity.
Qed.

Lemma first_format_written (f : time_format) (t : datetime) :
  whole_minute t ->
  first_format (written f t) accepted_formats = Ok (Some t).
Proof.
  intros Hw. pose proof Hw as (Hv & Hsec & Hu).
  unfold accepted_formats, first_format. destruct f.
  - now rewrite strptime_written_iso_seconds.
  - rewrite space_seconds_is_not_iso by assumption. cbn [is_ValueError no_match exn_cls].
    now rewrite strptime_written_space_seconds.
  - rewrite iso_minutes_is_not_iso_seconds by assumption.
    cbn [is_ValueError no_match exn_cls].
    rewrite iso_minutes_is_not_space_seconds by assumption.
    cbn [is_ValueError no_match exn_cls].
    now rewrite strptime_written_iso_minutes.
Qed.

Lemma parse_time_written (label : string) (f : time_format) (t : datetime) :
  whole_minute t -> parse_time label (PStr (written f t)) = Ok t.
Proof.
  intros Hw. unfold parse_time.
  rewrite written_keeps_Z by apply Hw.
  now rewrite first_format_written.
Qed.

(** The loop over the formats stops at the first one that parses. *)
Lemma first_format_first_wins (s : string) (before after : list string)
    (f : string) (t : datetime) :
  (forall g, In g before -> forall t', strptime s g <> Ok t') ->
  strptime s f = Ok t ->
  first_format s (before ++ f :: after) = Ok (Some t).
Proof.
  intros Hb Hf. induction before as [|g r IH]; simpl.
  - now rewrite Hf.
  - destruct (strptime s g) as [t'|e] eqn:Hg.
    + exfalso. apply (Hb g (or_introl eq_refl) t' Hg).
    + rewrite (strptime_raises_ValueError _ _ _ Hg).
      apply IH. intros g' Hin. apply Hb. now right.
Qed.

Lemma tool_create_agree gc a1 a2 s1 s2 e1 e2 ts te :
  agree_except ["start_time"; "end_time"] a1 a2 ->
  dict_get a1 "start_time" = Some (PStr s1) ->
  dict_get a2 "start_time" = Some (PStr s2) ->
  dict_get a1 "end_time" = Some (PStr e1) ->
  dict_get a2 "end_time" = Some (PStr e2) ->
  parse_time "start" (PStr s1) = Ok ts ->
  parse_time "start" (PStr s2) = Ok ts ->
  parse_time "end" (PStr e1) = Ok te ->
  parse_time "end" (PStr e2) = Ok te ->
  tool_create_calendar_event E gc a1 = tool_create_calendar_event E gc a2.
Proof.
  intros Ha Hs1 Hs2 He1 He2 P1 P2 Q1 Q2.
  assert (Hk : forall k, k <> "start_time" -> k <> "end_time" ->
                         dict_get a1 k = dict_get a2 k).
  { intros k H1 H2. apply Ha. intros [<-|[<-|[]]]; congruence. }
  unfold tool_create_calendar_event, py_getitem, dict_get_default.
  rewrite Hs1, Hs2, He1, He2.
  rewrite (Hk "subject"), (Hk "location"), (Hk "description"), (Hk "attendees")
    by discriminate.
  destruct (dict_get a2 "subject") as [subject|]; [|reflexivity].
  cbv beta iota delta [bind lift try_except ret].
  rewrite P1, P2. cbv beta iota. rewrite Q1, Q2. reflexivity.
Qed.

Lemma tool_create_run gc arguments w subject sv ev ts te data :
  truthy (access_token gc) = true ->
  dict_get arguments "subject" = Some subject ->
  dict_get arguments "start_time" = Some sv ->
  dict_get arguments "end_time" = Some ev ->
  parse_time "start" sv = Ok ts ->
  parse_time "end" ev = Ok te ->
  event_body subject ts te (dict_get_default arguments "description" PNone)
    (dict_get_default arguments "location" PNone)
    (dict_get_default arguments "attendees" PNone) = Ok data ->
  tool_create_calendar_event E gc arguments w
  = (obind (answer_value (http E (trace w) (create_request gc data)))
           (fun _ => render_created subject ts te
                       (dict_get_default arguments "location" PNone)
                       (dict_get_default arguments "attendees" PNone)),
     after_request w (create_request gc data)).
Proof.
  intros Ht Hs Hst Hen Hp Hq Hb.
  unfold tool_create_calendar_event, py_getitem. rewrite Hs, Hst, Hen.
  unfold bind at 1 2 3, lift at 1 2 3. cbv beta iota.
  unfold bind at 1, try_except, bind at 1, lift at 1. rewrite Hp. cbv beta iota.
  unfold bind at 1, lift at 1. rewrite Hq. cbv beta iota. unfold ret at 1. cbv beta iota.
  unfold create_event, bind at 1, bind at 1, lift at 1. rewrite Hb. cbv beta iota.
  unfold gc_request, create_request. rewrite make_request_run by assumption.
  unfold lift. now destruct (answer_value _).
Qed.

Lemma event_body_times subject ts te body location attendees data :
  event_body subject ts te body location attendees = Ok data ->
  dict_get data "start"
  = Some (PDict [("dateTime", PStr (isoformat ts)); ("timeZone", PStr "UTC")])
  /\ dict_get data "end"
     = Some (PDict [("dateTime", PStr (isoformat te)); ("timeZone", PStr "UTC")]).
Proof.
  unfold event_body.
  destruct (truthy body), (truthy location), (truthy attendees);
    try (destruct (obind (py_iter attendees) (omap attendee_entry)) as [entries|e];
         cbn [obind]);
    intros Hb; inversion Hb; subst; split; reflexivity.
Qed.

(** C5.  Take two instants on a whole minute, the only ones all three
    accepted formats can express.  Two [create_calendar_event] invocations
    that write the start instant and the end instant in any of the three
    formats, and agree on every other argument, behave identically: the
    same result and the same request sent, so the same event-creation body.
    Each text is parsed back to its instant by the first format of the
    ordered list that parses it. *)
Theorem same_instant_same_request (g : option GraphClient) (a1 a2 : dict)
    (w : World) (ts te : datetime) (fs1 fs2 fe1 fe2 : time_format) :
  whole_minute ts -> whole_minute te ->
  agree_except ["start_time"; "end_time"] a1 a2 ->
  dict_get a1 "start_time" = Some (PStr (written fs1 ts)) ->
  dict_get a2 "start_time" = Some (PStr (written fs2 ts)) ->
  dict_get a1 "end_time" = Some (PStr (written fe1 te)) ->
  dict_get a2 "end_time" = Some (PStr (written fe2 te)) ->
  handle_call_tool E g "create_calendar_event" a1 w
  = handle_call_tool E g "create_calendar_event" a2 w
  /\ (forall gc subject data,
         g = Some gc ->
         truthy (access_token gc) = true ->
         dict_get a1 "subject" = Some subject ->
         event_body subject ts te (dict_get_default a1 "description" PNone)
           (dict_get_default a1 "location" PNone)
           (dict_get_default a1 "attendees" PNone) = Ok data ->
         sent_exactly w (snd (handle_call_tool E g "create_calendar_event" a1 w))
           [create_request gc data]
         /\ dict_get data "start"
            = Some (PDict [("dateTime", PStr (isoformat ts)); ("timeZone", PStr "UTC")])
         /\ dict_get data "end"
            = Some (PDict [("dateTime", PStr (isoformat te)); ("timeZone", PStr "UTC")]))
  /\ first_format (written fs1 ts) accepted_formats = Ok (Some ts)
  /\ first_format (written fe1 te) accepted_formats = Ok (Some te)
  /\ forall s before after f t,
       accepted_formats = (before ++ f :: after)%list ->
       (forall g', In g' before -> forall t', strptime s g' <> Ok t') ->
       strptime s f = Ok t ->
       first_format s accepted_formats = Ok (Some t).
Proof.
  intros Hts Hte Ha Hs1 Hs2 He1 He2.
  split; [|split; [|split; [|split]]].
  - destruct (authenticated g) eqn:Hg; [|now rewrite !guard_closes].
    destruct g as [gc|]; [simpl in Hg|discriminate].
    rewrite !guard_opens by assumption. simpl String.eqb. cbv iota.
    now rewrite (tool_create_agree gc a1 a2 _ _ _ _ ts te Ha Hs1 Hs2 He1 He2)
      by (now apply parse_time_written).
  - intros gc subject data -> Ht Hsub Hb. split.
    + rewrite guard_opens by assumption. simpl String.eqb. cbv iota.
      erewrite (catch_all_run _ (fun e => text_result (error_executing_text _ e)))
        by (eapply tool_create_run; eauto using parse_time_written).
      reflexivity.
    + now apply event_body_times in Hb.
  - now apply first_format_written.
  - now apply first_format_written.
  - intros s before after f t -> Hb Hf. now apply first_format_first_wins.
Qed.

(** * Further properties of the dispatcher *)

(** ** One exchange per invocation *)

Lemma bind_lift {A B} (o : outcome A) (k : A -> M B) (w : World) :
  bind (lift o) k w = match o with Ok a => k a w | Raise e => (Raise e, w) end.
Proof.
  now destruct o.
Qed.

Lemma bind_now {B} (k : datetime -> M B) (w : World) :
  bind (now E) k w = k (clock E (ticks w)) (mkWorld (trace w) (S (ticks w))).
Proof.
  reflexivity.
Qed.

Lemma request_then_lift {A} (tok : pyval) (base method endpoint : string)
    (data params : pyval) (f : pyval -> outcome A) (w : World) :
  truthy tok = true ->
  bind (_make_request E tok base method endpoint data params) (fun v => lift (f v)) w
  = (obind (answer_value
              (http E (trace w) (build_request tok base method endpoint data params))) f,
     after_request w (build_request tok base method endpoint data params)).
Proof.
  intros H. unfold bind. rewrite make_request_run by assumption.
  unfold lift. now destruct (answer_value _).
Qed.

Ltac quiet :=
  left; split; [reflexivity|];
  let a := fresh "a" in
  let Ha := fresh "Ha" in
  intros a Ha; cbn in Ha; try discriminate; inversion Ha; eauto.

Lemma exchange_get_emails gc arguments w :
  truthy (access_token gc) = true ->
  exchange E gc "get_emails" arguments w (tool_get_emails E gc arguments w).
Proof.
  intros Ht. unfold tool_get_emails. rewrite bind_lift.
  destruct (py_min (dict_get_default arguments "count" (PInt 10)) 50) as [count|e];
    [|quiet].
  right.
  exists (emails_request gc count (dict_get_default arguments "search" PNone)),
         (render_emails E (dict_get_default arguments "search" PNone)).
  assert (Hrun :
    (if truthy (dict_get_default arguments "search" PNone)
     then search_messages E gc (dict_get_default arguments "search" PNone) count
     else get_messages E gc "inbox" count PNone PNone)
    = _make_request E (access_token gc) (base_url gc) "GET"
        "/me/mailFolders/inbox/messages" PNone
        (PDict (messages_params count (dict_get_default arguments "search" PNone) PNone))).
  { unfold search_messages, get_messages, gc_request.
    destruct (truthy (dict_get_default arguments "search" PNone)) eqn:Hs;
      [reflexivity|].
    now rewrite (messages_params_falsy count _ PNone Hs). }
  rewrite Hrun, request_then_lift by assumption.
  repeat split; try reflexivity.
  - left. repeat split.
  - now left.
Qed.

Lemma exchange_get_calendar_events gc arguments w :
  truthy (access_token gc) = true ->
  exchange E gc "get_calendar_events" arguments w
    (tool_get_calendar_events E gc arguments w).
Proof.
  intros Ht. unfold tool_get_calendar_events. rewrite bind_lift.
  destruct (py_min (dict_get_default arguments "days" (PInt 7)) 30) as [days|e] eqn:Hd;
    [|quiet].
  rewrite bind_lift.
  destruct (py_min (dict_get_default arguments "count" (PInt 20)) 50) as [count|e];
    [|quiet].
  rewrite bind_now, bind_now, bind_lift. cbn [ticks trace].
  destruct (shift_days (clock E (S (ticks w))) days) as [t3|e]; [|quiet].
  right.
  exists (events_request gc (clock E (ticks w)) t3 count), (render_events E days).
  unfold get_events, gc_request. rewrite request_then_lift by assumption.
  repeat split; try reflexivity.
  - right; left. repeat split.
  - right; left. split; [reflexivity|]. now exists days.
Qed.

Lemma exchange_get_user_info gc arguments w :
  truthy (access_token gc) = true ->
  exchange E gc "get_user_info" arguments w (tool_get_user_info E gc w).
Proof.
  intros Ht. unfold tool_get_user_info, get_user_info, gc_request.
  rewrite request_then_lift by assumption.
  right. exists (user_request gc), render_user_info.
  repeat split; try reflexivity.
  - right; right; right. repeat split.
  - right; right; right. now split.
Qed.

Lemma dict_set_truthy (d : dict) (k : string) (v : pyval) :
  truthy (PDict (dict_set d k v)) = true.
Proof.
  destruct d as [|[k' v'] r]; simpl; [reflexivity|].
  now destruct (String.eqb k' k).
Qed.

Lemma event_body_truthy subject ts te body location attendees data :
  event_body subject ts te body location attendees = Ok data ->
  truthy (PDict data) = true.
Proof.
  unfold event_body.
  destruct (truthy body), (truthy location), (truthy attendees);
    try (destruct (obind (py_iter attendees) (omap attendee_entry)) as [entries|e];
         cbn [obind]);
    intros Hb; inversion Hb; subst; try apply dict_set_truthy; reflexivity.
Qed.

Lemma create_request_shape gc data :
  truthy (PDict data) = true ->
  dispatcher_request gc "create_calendar_event" (create_request gc data).
Proof.
  intros H. unfold dispatcher_request, create_request, build_request.
  cbn [req_headers req_method req_url req_json req_params]. rewrite H.
  split; [reflexivity|]. right; right; left.
  repeat split. now exists data.
Qed.

Lemma exchange_create_calendar_event gc arguments w :
  truthy (access_token gc) = true ->
  exchange E gc "create_calendar_event" arguments w
    (tool_create_calendar_event E gc arguments w).
Proof.
  intros Ht. unfold tool_create_calendar_event, py_getitem.
  destruct (dict_get arguments "subject") as [subject|] eqn:Hs;
    rewrite bind_lift; [|quiet].
  destruct (dict_get arguments "start_time") as [sv|] eqn:Hst;
    rewrite bind_lift; [|quiet].
  destruct (dict_get arguments "end_time") as [ev|] eqn:Hen;
    rewrite bind_lift; [|quiet].
  unfold bind at 1, try_except. rewrite bind_lift.
  destruct (parse_time "start" sv) as [ts|e] eqn:Hp;
    [|destruct (is_ValueError e); quiet].
  rewrite bind_lift.
  destruct (parse_time "end" ev) as [te|e] eqn:Hq;
    [|destruct (is_ValueError e); quiet].
  cbv beta iota delta [ret]. unfold create_event.
  unfold bind at 1. rewrite bind_lift.
  destruct (event_body subject ts te (dict_get_default arguments "description" PNone)
              (dict_get_default arguments "location" PNone)
              (dict_get_default arguments "attendees" PNone)) as [data|e] eqn:Hb;
    [|quiet].
  unfold gc_request. rewrite make_request_run by assumption.
  right.
  exists (create_request gc data),
         (fun _ => render_created subject ts te
                     (dict_get_default arguments "location" PNone)
                     (dict_get_default arguments "attendees" PNone)).
  assert (Hr : tool_render E "create_calendar_event" arguments
                 (fun _ => render_created subject ts te
                             (dict_get_default arguments "location" PNone)
                             (dict_get_default arguments "attendees" PNone))).
  { right; right; left. split; [reflexivity|].
    exists subject, sv, ev, ts, te. repeat split; try assumption. now exists data. }
  pose proof (create_request_shape gc data (event_body_truthy _ _ _ _ _ _ _ Hb)) as Hq'.
  fold (create_request gc data).
  destruct (answer_value (http E (trace w) (create_request gc data))) as [v|e];
    unfold lift; cbn [fst snd obind]; auto.
Qed.

Lemma catch_all_pair {A} (m : M A) (h : exn -> A) (w : World) :
  try_except m (fun _ => true) (fun e => ret (h e)) w
  = (Ok (match fst (m w) with Ok a => a | Raise e => h e end), snd (m w)).
Proof.
  unfold try_except. now destruct (m w) as [[a|e] w1].
Qed.

Lemma exchange_rendered gc name arguments w r :
  exchange E gc name arguments w r ->
  (trace (snd r) = trace w /\ exists s, rendered name (fst r) = text_result s)
  \/ exists rq f,
      trace (snd r) = (trace w ++ [rq])%list
      /\ dispatcher_request gc name rq
      /\ tool_render E name arguments f
      /\ rendered name (fst r)
         = rendered name (obind (answer_value (http E (trace w) rq)) f).
Proof.
  intros [(H & Ha)|(rq & f & H1 & H2 & H3 & H4)].
  - left. split; [assumption|].
    destruct (fst r) as [a|e]; [now apply Ha|simpl; eauto].
  - right. exists rq, f. rewrite H4. auto.
Qed.

Lemma dispatch_exchange gc name arguments w :
  truthy (access_token gc) = true ->
  (trace (snd (handle_call_tool E (Some gc) name arguments w)) = trace w
   /\ exists s, fst (handle_call_tool E (Some gc) name arguments w) = Ok (text_result s))
  \/ exists rq f,
      trace (snd (handle_call_tool E (Some gc) name arguments w)) = (trace w ++ [rq])%list
      /\ dispatcher_request gc name rq
      /\ tool_render E name arguments f
      /\ fst (handle_call_tool E (Some gc) name arguments w)
         = Ok (rendered name (obind (answer_value (http E (trace w) rq)) f)).
Proof.
  intros Ht. rewrite guard_opens by assumption.
  rewrite (catch_all_pair _ (fun e => text_result (error_executing_text name e))).
  cbn [fst snd].
  assert (Hx : forall r, exchange E gc name arguments w r ->
                 (trace (snd r) = trace w
                  /\ exists s, Ok (rendered name (fst r)) = Ok (text_result s))
                 \/ exists rq f,
                     trace (snd r) = (trace w ++ [rq])%list
                     /\ dispatcher_request gc name rq
                     /\ tool_render E name arguments f
                     /\ Ok (rendered name (fst r))
                        = Ok (rendered name
                                (obind (answer_value (http E (trace w) rq)) f))).
  { intros r Hr.
    destruct (exchange_rendered gc name arguments w r Hr)
      as [(H & s & Hs)|(rq & f & H1 & H2 & H3 & H4)].
    - left. split; [assumption|]. exists s. now rewrite Hs.
    - right. exists rq, f. rewrite H4. auto. }
  unfold rendered in Hx at 1 3.
  destruct (String.eqb name "get_emails") eqn:Q1.
  { apply String.eqb_eq in Q1. subst name. now apply Hx, exchange_get_emails. }
  destruct (String.eqb name "get_calendar_events") eqn:Q2.
  { apply String.eqb_eq in Q2. subst name. now apply Hx, exchange_get_calendar_events. }
  destruct (String.eqb name "create_calendar_event") eqn:Q3.
  { apply String.eqb_eq in Q3. subst name. now apply Hx, exchange_create_calendar_event. }
  destruct (String.eqb name "get_user_info") eqn:Q4.
  { apply String.eqb_eq in Q4. subst name. now apply Hx, exchange_get_user_info. }
  left. cbn. eauto.
Qed.

(** X1.  An invocation sends at most one request.  When it sends one, a
    credential is loaded, the tool is one of the four of the catalog, and the
    request carries the bearer and content-type headers and goes to the
    tool's fixed URL under the client's base URL: with [get] and no JSON
    body for the three reading tools, with [post] and a JSON object for
    [create_calendar_event]. *)
Theorem at_most_one_request_of_the_tool (g : option GraphClient) (name : string)
    (arguments : dict) (w : World) :
  trace (snd (handle_call_tool E g name arguments w)) = trace w
  \/ exists gc rq,
      g = Some gc
      /\ truthy (access_token gc) = true
      /\ In name catalog_names
      /\ sent_exactly w (snd (handle_call_tool E g name arguments w)) [rq]
      /\ dispatcher_request gc name rq.
Proof.
  destruct (authenticated g) eqn:Hg; [|left; now rewrite guard_closes].
  destruct g as [gc|]; [simpl in Hg|discriminate].
  destruct (dispatch_exchange gc name arguments w Hg) as [(H & _)|(rq & f & H1 & H2 & _)];
    [now left|].
  right. exists gc, rq.
  split; [reflexivity|]. split; [assumption|]. split; [|split; assumption].
  destruct H2 as (_ & [(-> & _)|[(-> & _)|[(-> & _)|(-> & _)]]]); simpl; auto 10.
Qed.

Lemma render_emails_text search result a :
  render_emails E search result = Ok a -> exists s, a = text_result s.
Proof.
  unfold render_emails.
  destruct (py_get result "value" (PList [])) as [emails|]; cbn [obind]; [|discriminate].
  destruct (negb (truthy emails)); [intros [= <-]; eauto|].
  destruct (py_iter emails) as [items|]; cbn [obind]; [|discriminate].
  destruct (omap (email_summary E) items); cbn [obind]; [|discriminate].
  destruct (py_len emails); cbn [obind]; [|discriminate].
  intros [= <-]; eauto.
Qed.

Lemma render_events_text days result a :
  render_events E days result = Ok a -> exists s, a = text_result s.
Proof.
  unfold render_events.
  destruct (py_get result "value" (PList [])) as [events|]; cbn [obind]; [|discriminate].
  destruct (negb (truthy events)); [intros [= <-]; eauto|].
  destruct (py_iter events) as [items|]; cbn [obind]; [|discriminate].
  destruct (omap (event_summary E) items); cbn [obind]; [|discriminate].
  destruct (py_len events); cbn [obind]; [|discriminate].
  intros [= <-]; eauto.
Qed.

Lemma render_created_text subject ts te location attendees a :
  render_created subject ts te location attendees = Ok a -> exists s, a = text_result s.
Proof.
  unfold render_created.
  destruct (if truthy attendees then _ else _); cbn [obind]; [|discriminate].
  intros [= <-]; eauto.
Qed.

Lemma render_user_info_text user a :
  render_user_info user = Ok a -> exists s, a = text_result s.
Proof.
  unfold render_user_info.
  repeat match goal with
         | |- obind ?o _ = _ -> _ => destruct o; cbn [obind]; [|discriminate]
         end.
  intros [= <-]; eauto.
Qed.

Lemma tool_render_text name arguments f v a :
  tool_render E name arguments f -> f v = Ok a -> exists s, a = text_result s.
Proof.
  intros [(_ & ->)|[(_ & days & _ & ->)|[(_ & H)|(_ & ->)]]].
  - apply render_emails_text.
  - apply render_events_text.
  - destruct H as (subject & sv & ev & ts & te & _ & _ & _ & _ & _ & _ & ->).
    apply render_created_text.
  - apply render_user_info_text.
Qed.

(** X2.  Every invocation returns normally with exactly one content block,
    of type [text]: a rendered result or a rendered error, never both and
    never none. *)
Theorem result_is_one_text_block (g : option GraphClient) (name : string)
    (arguments : dict) (w : World) :
  exists s,
    fst (handle_call_tool E g name arguments w) = Ok [mkTextContent "text" s].
Proof.
  change (exists s, fst (handle_call_tool E g name arguments w) = Ok (text_result s)).
  destruct (authenticated g) eqn:Hg;
    [|rewrite guard_closes by assumption; now eexists].
  destruct g as [gc|]; [simpl in Hg|discriminate].
  destruct (dispatch_exchange gc name arguments w Hg)
    as [(_ & s & H)|(rq & f & _ & _ & H3 & H4)]; [eauto|].
  rewrite H4.
  destruct (answer_value (http E (trace w) rq)) as [v|e]; cbn [obind rendered];
    [|now eexists].
  destruct (f v) as [a|e] eqn:Hf; cbn [rendered]; [|now eexists].
  destruct (tool_render_text _ _ _ _ _ H3 Hf) as (s & ->). now eexists.
Qed.

(** X3.  When the request of an invocation is not answered with a usable
    value (the transport raises, the status is outside 200, 201, 202 and
    204, or the body of a successful answer does not decode), the result is
    [❌ Error executing <tool>: ] followed by the text of that exception;
    this holds for [create_calendar_event] too, even though a successful
    status means the event exists. *)
Theorem unusable_answer_is_rendered (g : option GraphClient) (name : string)
    (arguments : dict) (w : World) (rq : request) (e : exn) :
  sent_exactly w (snd (handle_call_tool E g name arguments w)) [rq] ->
  answer_value (http E (trace w) rq) = Raise e ->
  fst (handle_call_tool E g name arguments w)
  = Ok (text_result ("❌ Error executing " ++ name ++ ": " ++ exn_str e)).
Proof.
  unfold sent_exactly. intros Hs Ha.
  destruct (authenticated g) eqn:Hg.
  - destruct g as [gc|]; [simpl in Hg|discriminate].
    destruct (dispatch_exchange gc name arguments w Hg)
      as [(H & _)|(rq' & f & H1 & _ & _ & H4)].
    + rewrite H in Hs. now apply trace_grows_not in Hs.
    + rewrite H1 in Hs. apply app_inv_head in Hs. injection Hs as <-.
      now rewrite H4, Ha.
  - rewrite guard_closes in Hs by assumption. simpl in Hs.
    now apply trace_grows_not in Hs.
Qed.

(** ** Arguments at the edges *)

Ltac pick_branch :=
  repeat match goal with
         | |- context [String.eqb ?a ?b] =>
             let v := eval vm_compute in (String.eqb a b) in
             change (String.eqb a b) with v
         end;
  cbv iota.

Lemma py_min_not_a_number (v : pyval) (mx : Z) :
  as_int v = None -> py_min v mx = Raise (mkExn TypeError (not_comparable_text v)).
Proof.
  intros H. unfold py_min. now rewrite H.
Qed.

Lemma py_min_bound (v r : pyval) (mx : Z) :
  py_min v mx = Ok r -> exists n, as_int r = Some n /\ n <= mx.
Proof.
  unfold py_min. destruct (as_int v) as [n|] eqn:Hn; [|discriminate].
  destruct (mx <? n) eqn:Hlt; intros [= <-].
  - exists mx. split; [reflexivity|lia].
  - exists n. apply Z.ltb_ge in Hlt. auto.
Qed.

(** X4.  A numeric parameter that is present but is no number (a string,
    a list, an object, or an explicit [null]) is neither clamped nor
    replaced by the default: the comparison inside [min] raises, the result
    is the rendered [TypeError] naming the type, and nothing is sent nor is
    the clock read.  For [get_calendar_events] the day range is examined
    before the count. *)
Theorem non_numeric_parameter_is_an_error :
  (forall gc arguments w v,
      truthy (access_token gc) = true ->
      dict_get arguments "count" = Some v -> as_int v = None ->
      handle_call_tool E (Some gc) "get_emails" arguments w
      = (Ok (text_result ("❌ Error executing get_emails: " ++ not_comparable_text v)), w))
  /\ (forall gc arguments w v,
         truthy (access_token gc) = true ->
         dict_get arguments "days" = Some v -> as_int v = None ->
         handle_call_tool E (Some gc) "get_calendar_events" arguments w
         = (Ok (text_result
                  ("❌ Error executing get_calendar_events: " ++ not_comparable_text v)), w))
  /\ (forall gc arguments w d v,
         truthy (access_token gc) = true ->
         effective "get_calendar_events" "days" arguments = Some (PInt d) ->
         dict_get arguments "count" = Some v -> as_int v = None ->
         handle_call_tool E (Some gc) "get_calendar_events" arguments w
         = (Ok (text_result
                  ("❌ Error executing get_calendar_events: " ++ not_comparable_text v)), w)).
Proof.
  split; [|split].
  - intros gc arguments w v Ht Hv Hn.
    rewrite guard_opens by assumption. simpl String.eqb. cbv iota.
    rewrite (catch_all_pair _ (fun e => text_result (error_executing_text _ e))).
    unfold tool_get_emails. rewrite bind_lift.
    rewrite (dict_get_default_some _ _ _ _ Hv), (py_min_not_a_number v 50 Hn).
    reflexivity.
  - intros gc arguments w v Ht Hv Hn.
    rewrite guard_opens by assumption. simpl String.eqb. cbv iota.
    rewrite (catch_all_pair _ (fun e => text_result (error_executing_text _ e))).
    unfold tool_get_calendar_events. rewrite bind_lift.
    rewrite (dict_get_default_some _ _ _ _ Hv), (py_min_not_a_number v 30 Hn).
    reflexivity.
  - intros gc arguments w d v Ht Hd Hv Hn.
    apply effective_events_days in Hd.
    rewrite guard_opens by assumption. simpl String.eqb. cbv iota.
    rewrite (catch_all_pair _ (fun e => text_result (error_executing_text _ e))).
    unfold tool_get_calendar_events. rewrite bind_lift, Hd.
    assert (Hm : exists r, py_min (PInt d) 30 = Ok r).
    { unfold py_min. simpl. eauto. }
    destruct Hm as (r & ->). rewrite bind_lift.
    rewrite (dict_get_default_some _ _ _ _ Hv), (py_min_not_a_number v 50 Hn).
    reflexivity.
Qed.

Lemma first_missing_cases (arguments : dict) (k : string) :
  first_missing arguments = Some k ->
  (k = "subject" /\ dict_get arguments "subject" = None)
  \/ (k = "start_time" /\ dict_get arguments "start_time" = None
      /\ exists a, dict_get arguments "subject" = Some a)
  \/ (k = "end_time" /\ dict_get arguments "end_time" = None
      /\ (exists a, dict_get arguments "subject" = Some a)
      /\ exists b, dict_get arguments "start_time" = Some b).
Proof.
  unfold first_missing. cbn [find].
  destruct (dict_get arguments "subject") as [a|]; [|intros [= <-]; auto].
  destruct (dict_get arguments "start_time") as [b|]; [|intros [= <-]; eauto 10].
  destruct (dict_get arguments "end_time") as [c|]; [discriminate|].
  intros [= <-]. right; right. eauto 10.
Qed.

(** X5.  [create_calendar_event] reads [subject], [start_time] and
    [end_time] by subscript, in that order: when one is absent the result is
    [❌ Error executing create_calendar_event: '<key>'] for the first absent
    key, before any parsing, and nothing is sent. *)
Theorem missing_required_argument_is_reported (gc : GraphClient) (arguments : dict)
    (w : World) (k : string) :
  truthy (access_token gc) = true ->
  first_missing arguments = Some k ->
  handle_call_tool E (Some gc) "create_calendar_event" arguments w
  = (Ok (text_result ("❌ Error executing create_calendar_event: '" ++ k ++ "'")), w).
Proof.
  intros Ht Hk.
  rewrite guard_opens by assumption. simpl String.eqb. cbv iota.
  rewrite (catch_all_pair _ (fun e => text_result (error_executing_text _ e))).
  unfold tool_create_calendar_event, py_getitem.
  destruct (first_missing_cases arguments k Hk)
    as [(-> & H1)|[(-> & H2 & a & H1)|(-> & H3 & (a & H1) & b & H2)]].
  - rewrite H1, bind_lift. reflexivity.
  - rewrite H1, H2, bind_lift, bind_lift. reflexivity.
  - rewrite H1, H2, H3, bind_lift, bind_lift, bind_lift. reflexivity.
Qed.

Lemma search_text_falsy (search : pyval) :
  truthy search = false -> search_text search = EmptyString.
Proof.
  intros H. unfold search_text. now rewrite H.
Qed.

Lemma render_emails_falsy (s1 s2 result : pyval) :
  truthy s1 = false -> truthy s2 = false ->
  render_emails E s1 result = render_emails E s2 result.
Proof.
  intros H1 H2. unfold render_emails.
  now rewrite (search_text_falsy s1 H1), (search_text_falsy s2 H2).
Qed.

(** X6.  For [get_emails] a falsy [search] (an empty string, [null],
    zero, [false], an empty list or object) is the same as no [search] at
    all: two invocations that differ only in such a value behave
    identically, listing the inbox without a [$search] parameter. *)
Theorem falsy_search_is_no_search (g : option GraphClient) (a1 a2 : dict) (w : World) :
  agree_except ["search"] a1 a2 ->
  truthy (dict_get_default a1 "search" PNone) = false ->
  truthy (dict_get_default a2 "search" PNone) = false ->
  handle_call_tool E g "get_emails" a1 w = handle_call_tool E g "get_emails" a2 w
  /\ forall gc rq,
       g = Some gc ->
       sent_exactly w (snd (handle_call_tool E g "get_emails" a1 w)) [rq] ->
       param_of rq "$search" = None.
Proof.
  intros Ha H1 H2.
  assert (Hc : dict_get_default a1 "count" (PInt 10) = dict_get_default a2 "count" (PInt 10)).
  { apply (dict_get_default_agree ["search"]); [assumption|].
    apply not_in_one. discriminate. }
  split.
  - destruct (authenticated g) eqn:Hg; [|now rewrite !guard_closes].
    destruct g as [gc|]; [simpl in Hg|discriminate].
    rewrite !guard_opens by assumption. simpl String.eqb. cbv iota.
    rewrite !(catch_all_pair _ (fun e => text_result (error_executing_text _ e))).
    unfold tool_get_emails. rewrite !bind_lift, Hc, H1, H2.
    destruct (py_min (dict_get_default a2 "count" (PInt 10)) 50) as [count|e];
      [|reflexivity].
    unfold get_messages, gc_request.
    rewrite !request_then_lift by assumption.
    destruct (answer_value _) as [v|e]; cbn [obind]; [|reflexivity].
    now rewrite (render_emails_falsy _ _ v H1 H2).
  - intros gc rq -> Hs. unfold sent_exactly in Hs.
    destruct (truthy (access_token gc)) eqn:Ht.
    + revert Hs. rewrite guard_opens by assumption. simpl String.eqb. cbv iota.
      rewrite (catch_all_pair _ (fun e => text_result (error_executing_text _ e))).
      unfold tool_get_emails. rewrite bind_lift, H1.
      destruct (py_min (dict_get_default a1 "count" (PInt 10)) 50) as [count|e].
      * unfold get_messages, gc_request.
        rewrite request_then_lift by assumption. cbn [snd after_request trace].
        intros Hs. apply app_inv_head in Hs. injection Hs as <-. reflexivity.
      * cbn [snd]. intros Hs. now apply trace_grows_not in Hs.
    + rewrite guard_closes in Hs by (simpl; assumption). simpl in Hs.
      now apply trace_grows_not in Hs.
Qed.

(** X7.  The page size and the day range requested never exceed the
    declared maxima, whatever the caller supplies among the values of
    [pyval] (fractions are not among them): a request sent by
    [get_emails] or [get_calendar_events] carries a [$top] whose integer
    value is at most 50, and the day range echoed in the result of
    [get_calendar_events] is at most 30. *)
Theorem page_size_never_exceeds_maximum (gc : GraphClient) (name : string)
    (arguments : dict) (w : World) (rq : request) :
  name = "get_emails" \/ name = "get_calendar_events" ->
  sent_exactly w (snd (handle_call_tool E (Some gc) name arguments w)) [rq] ->
  (exists top n, param_of rq "$top" = Some top /\ as_int top = Some n /\ n <= 50)
  /\ (name = "get_calendar_events" ->
      exists days n,
        py_min (dict_get_default arguments "days" (PInt 7)) 30 = Ok days
        /\ as_int days = Some n /\ n <= 30).
Proof.
  unfold sent_exactly. intros Hn Hs.
  destruct (truthy (access_token gc)) eqn:Ht;
    [|rewrite guard_closes in Hs by (simpl; assumption); simpl in Hs;
      now apply trace_grows_not in Hs].
  revert Hs. rewrite guard_opens by assumption.
  rewrite (catch_all_pair _ (fun e => text_result (error_executing_text _ e))).
  cbn [snd].
  destruct Hn as [->| ->]; pick_branch.
  - destruct (py_min (dict_get_default arguments "count" (PInt 10)) 50)
      as [count|e] eqn:Hc.
    2:{ unfold tool_get_emails. rewrite bind_lift, Hc. cbn [snd].
        intros Hs. now apply trace_grows_not in Hs. }
    rewrite (tool_get_emails_run gc arguments w count Ht Hc).
    cbn [snd after_request trace]. intros Hs.
    apply app_inv_head in Hs. injection Hs as <-.
    split; [|discriminate].
    destruct (py_min_bound _ _ _ Hc) as (n & Hn & Hle).
    exists count, n. split; [|now split].
    unfold param_of, emails_request, build_request, messages_params. simpl.
    destruct (truthy (dict_get_default arguments "search" PNone)); reflexivity.
  - destruct (py_min (dict_get_default arguments "days" (PInt 7)) 30)
      as [days|e] eqn:Hd.
    2:{ unfold tool_get_calendar_events. rewrite bind_lift, Hd. cbn [snd].
        intros Hs. now apply trace_grows_not in Hs. }
    destruct (py_min (dict_get_default arguments "count" (PInt 20)) 50)
      as [count|e] eqn:Hc.
    2:{ unfold tool_get_calendar_events. rewrite bind_lift, Hd, bind_lift, Hc. cbn [snd].
        intros Hs. now apply trace_grows_not in Hs. }
    destruct (shift_days (clock E (S (ticks w))) days) as [t3|e] eqn:Hsh.
    2:{ rewrite (tool_get_calendar_events_overflow gc arguments w days count e Hd Hc Hsh).
        cbn [snd trace]. intros Hs. now apply trace_grows_not in Hs. }
    rewrite (tool_get_calendar_events_run gc arguments w days count t3 Ht Hd Hc Hsh).
    cbn [snd trace]. intros Hs. apply app_inv_head in Hs. injection Hs as <-.
    destruct (py_min_bound _ _ _ Hc) as (n & Hn & Hle).
    destruct (py_min_bound _ _ _ Hd) as (m & Hm & Hle').
    split.
    + exists count, n. split; [apply events_request_top|]. now split.
    + intros _. exists days, m. auto.
Qed.

(** ** Answers at the edges *)

Lemma py_get_not_a_dict (v : pyval) (k : string) (default : pyval) :
  is_dict v = false -> py_get v k default = Raise (no_attribute v "get").
Proof.
  now destruct v.
Qed.

(** X8.  The three reading tools need a JSON object: when the request is
    answered successfully with anything else (an empty body, which decodes
    to [None], as for a 204; a list; a string; a number) the result is
    [❌ Error executing <tool>: '<type>' object has no attribute 'get']. *)
Theorem non_object_answer_is_an_error (g : option GraphClient) (name : string)
    (arguments : dict) (w : World) (rq : request) (v : pyval) :
  In name reading_tools ->
  sent_exactly w (snd (handle_call_tool E g name arguments w)) [rq] ->
  answer_value (http E (trace w) rq) = Ok v ->
  is_dict v = false ->
  fst (handle_call_tool E g name arguments w)
  = Ok (text_result
          ("❌ Error executing " ++ name ++ ": '" ++ type_name v
             ++ "' object has no attribute 'get'")).
Proof.
  unfold sent_exactly. intros Hn Hs Ha Hv.
  destruct (authenticated g) eqn:Hg.
  - destruct g as [gc|]; [simpl in Hg|discriminate].
    destruct (dispatch_exchange gc name arguments w Hg)
      as [(H & _)|(rq' & f & H1 & _ & H3 & H4)].
    + rewrite H in Hs. now apply trace_grows_not in Hs.
    + rewrite H1 in Hs. apply app_inv_head in Hs. injection Hs as <-.
      rewrite H4, Ha. cbn [obind].
      destruct H3 as [(_ & ->)|[(_ & days & _ & ->)|[(-> & _)|(_ & ->)]]].
      * unfold render_emails. now rewrite py_get_not_a_dict.
      * unfold render_events. now rewrite py_get_not_a_dict.
      * exfalso. simpl in Hn. intuition discriminate.
      * unfold render_user_info. now rewrite py_get_not_a_dict.
  - rewrite guard_closes in Hs by assumption. simpl in Hs.
    now apply trace_grows_not in Hs.
Qed.





(** ** Rendering of the listings *)

Lemma email_summary_renders (email : pyval) :
  (exists block, email_summary E email = Ok block) <-> email_renderable email = true.
Proof.
  unfold email_summary, email_renderable.
  destruct email as [|b0|n0|s0|l0|d];
    try (split; [intros (b & H); discriminate|discriminate]).
  unfold py_get at 1. cbn [obind].
  destruct (dict_get_default d "from" (PDict [])) as [|b1|n1|s1|l1|f];
    try (split; [intros (b & H); discriminate|discriminate]).
  unfold py_get at 1. cbn [obind].
  destruct (dict_get_default f "emailAddress" (PDict [])) as [|b2|n2|s2|l2|a];
    try (split; [intros (b & H); discriminate|discriminate]).
  unfold py_get. cbn [obind is_dict andb].
  destruct (dict_get_default d "bodyPreview" (PStr EmptyString));
    cbn [py_slice_to py_len obind sliceable];
    (split; [intros (blk & H)|intros H]);
    try discriminate; try reflexivity; now eexists.
Qed.

Lemma omap_all_ok {A B} (f : A -> outcome B) (l : list A) :
  (forall x, In x l -> exists y, f x = Ok y) ->
  exists ys, omap f l = Ok ys /\ List.length ys = List.length l.
Proof.
  induction l as [|x r IH]; intros H; simpl; [now exists []|].
  destruct (H x (or_introl eq_refl)) as (y & ->). cbn [obind].
  destruct IH as (ys & -> & Hl); [intros z Hz; apply H; now right|].
  cbn [obind]. exists (y :: ys). simpl. now rewrite Hl.
Qed.

Lemma omap_one_fails {A B} (f : A -> outcome B) (l : list A) (x : A) :
  In x l -> (forall y, f x <> Ok y) -> exists e, omap f l = Raise e.
Proof.
  induction l as [|z r IH]; intros Hin Hx; [contradiction|]. simpl.
  destruct (f z) as [y|e] eqn:Hz; [|cbn [obind]; eauto].
  destruct Hin as [->|Hin]; [now elim (Hx y)|].
  destruct (IH Hin Hx) as (e & ->). cbn [obind]. eauto.
Qed.

(** X10.  [get_emails] renders a page all or nothing.  When the service
    answers with an object whose [value] is a non-empty list, the result is
    the header [📧 Found <n> emails...] followed by one block per message,
    [n] being the number of messages, provided every message is renderable;
    a single message that is not (for instance one whose [from] is [null])
    turns the whole result into an [❌ Error executing get_emails] text. *)
Theorem emails_render_all_or_nothing (g : option GraphClient) (arguments : dict)
    (w : World) (rq : request) (d : dict) (items : list pyval) :
  sent_exactly w (snd (handle_call_tool E g "get_emails" arguments w)) [rq] ->
  answer_value (http E (trace w) rq) = Ok (PDict d) ->
  dict_get_default d "value" (PList []) = PList items ->
  items <> [] ->
  (forallb email_renderable items = true ->
   exists blocks,
     omap (email_summary E) items = Ok blocks
     /\ List.length blocks = List.length items
     /\ fst (handle_call_tool E g "get_emails" arguments w)
        = Ok (text_result
                ("📧 Found " ++ Z_str (Z.of_nat (List.length items)) ++ " emails"
                   ++ search_text (dict_get_default arguments "search" PNone) ++ ":"
                   ++ nl ++ nl ++ String.concat nl blocks)))
  /\ (forallb email_renderable items = false ->
      exists e,
        fst (handle_call_tool E g "get_emails" arguments w)
        = Ok (text_result (error_executing_text "get_emails" e))).
Proof.
  unfold sent_exactly. intros Hs Ha Hv Hne.
  assert (Hf : fst (handle_call_tool E g "get_emails" arguments w)
               = Ok (rendered "get_emails"
                       (render_emails E (dict_get_default arguments "search" PNone)
                          (PDict d)))).
  { destruct (authenticated g) eqn:Hg.
    - destruct g as [gc|]; [simpl in Hg|discriminate].
      destruct (dispatch_exchange gc "get_emails" arguments w Hg)
        as [(H & _)|(rq' & f & H1 & _ & H3 & H4)].
      + rewrite H in Hs. now apply trace_grows_not in Hs.
      + rewrite H1 in Hs. apply app_inv_head in Hs. injection Hs as <-.
        rewrite H4, Ha. cbn [obind].
        destruct H3 as [(_ & ->)|[(Hx & _)|[(Hx & _)|(Hx & _)]]];
          try discriminate. reflexivity.
    - rewrite guard_closes in Hs by assumption. simpl in Hs.
      now apply trace_grows_not in Hs. }
  rewrite Hf. unfold render_emails. cbn [py_get obind]. rewrite Hv.
  destruct items as [|x r]; [contradiction|].
  cbn [truthy negb py_iter py_len obind].
  split.
  - intros Hall.
    destruct (omap_all_ok (email_summary E) (x :: r)) as (blocks & Hb & Hl).
    { intros z Hz. apply email_summary_renders.
      rewrite forallb_forall in Hall. now apply Hall. }
    exists blocks. rewrite Hb. cbn [obind rendered]. auto.
  - intros Hbad.
    assert (Hex : exists z, In z (x :: r) /\ email_renderable z = false).
    { clear -Hbad. induction (x :: r) as [|z l IH]; [discriminate|].
      simpl in Hbad. destruct (email_renderable z) eqn:Hz.
      - destruct (IH Hbad) as (z' & Hin & Hz'). exists z'. split; [now right|assumption].
      - exists z. split; [now left|assumption]. }
    destruct Hex as (z & Hin & Hz).
    destruct (omap_one_fails (email_summary E) (x :: r) z Hin) as (e & He).
    { intros y Hy.
      assert (Hr : email_renderable z = true)
        by (apply email_summary_renders; eauto).
      congruence. }
    exists e. rewrite He. reflexivity.
Qed.

Lemma str_take_length (n : nat) (s : string) :
  String.length (str_take n s) = Nat.min n (String.length s).
Proof.
  revert s. induction n as [|n IH]; intros [|a r]; simpl; try reflexivity.
  now rewrite IH.
Qed.

Lemma str_take_all (n : nat) (s : string) :
  (String.length s <= n)%nat -> str_take n s = s.
Proof.
  revert s. induction n as [|n IH]; intros [|a r]; simpl; intros H;
    try reflexivity; try lia.
  rewrite IH by lia. reflexivity.
Qed.

Lemma length_append (a b : string) :
  String.length (a ++ b) = (String.length a + String.length b)%nat.
Proof.
  induction a as [|x a IH]; simpl; [reflexivity | now rewrite IH].
Qed.

Lemma shown_preview_facts (p : string) :
  (String.length (shown_preview p) <= 153)%nat
  /\ ((String.length p <= 150)%nat -> shown_preview p = p)
  /\ ((150 < String.length p)%nat -> shown_preview p = str_take 150 p ++ "...").
Proof.
  unfold shown_preview.
  destruct (150 <? Z.of_nat (String.length p)) eqn:Hc.
  - apply Z.ltb_lt in Hc. split; [|split].
    + rewrite length_append, str_take_length.
      change (String.length "...") with 3%nat. lia.
    + intros H. lia.
    + reflexivity.
  - apply Z.ltb_ge in Hc. split; [|split].
    + rewrite append_nil_r, str_take_length. lia.
    + intros _. rewrite append_nil_r. apply str_take_all. lia.
    + intros H. lia.
Qed.

(** X11.  A block of [get_emails] ends with the preview line, which shows
    a text preview in full when it has at most 150 characters and otherwise
    its first 150 characters followed by [...]: the preview shown never
    exceeds 153 characters. *)
Theorem preview_is_truncated (d : dict) (p block : string) :
  dict_get d "bodyPreview" = Some (PStr p) ->
  email_summary E (PDict d) = Ok block ->
  (exists head, block = head ++ "   Preview: " ++ shown_preview p ++ nl)
  /\ (String.length (shown_preview p) <= 153)%nat
  /\ ((String.length p <= 150)%nat -> shown_preview p = p)
  /\ ((150 < String.length p)%nat -> shown_preview p = str_take 150 p ++ "...").
Proof.
  intros Hp Hb. split; [|apply shown_preview_facts].
  revert Hb. unfold email_summary.
  unfold py_get at 1. cbn [obind].
  destruct (py_get (dict_get_default d "from" (PDict [])) "emailAddress" (PDict []))
    as [addr|]; cbn [obind]; [|discriminate].
  destruct (py_get addr "address" (PStr "Unknown")) as [from_addr|];
    cbn [obind]; [|discriminate].
  unfold py_get. cbn [obind].
  rewrite (dict_get_default_some _ _ _ _ Hp). cbn [py_slice_to py_len obind py_str].
  intros [= <-].
  exists ("📧 **" ++ py_str (dict_get_default d "subject" (PStr "No subject")) ++ "**" ++ nl
          ++ "   From: " ++ py_str from_addr ++ nl
          ++ "   Date: "
          ++ match parse_iso E (dict_get_default d "receivedDateTime" (PStr "Unknown")) with
             | Some dt => strftime_date_hm dt
             | None => py_str (dict_get_default d "receivedDateTime" (PStr "Unknown"))
             end ++ nl
          ++ "   Status: "
          ++ (if truthy (dict_get_default d "isRead" (PBool false))
              then "✅ Read" else "🔴 Unread") ++ nl).
  unfold shown_preview. rewrite !append_assoc. reflexivity.
Qed.

(** X12.  In a block of [get_calendar_events] whose start and end both
    parse, the window is compressed when the two fall on the same calendar
    day: the date is written once, [YYYY-MM-DD HH:MM - HH:MM]; on different
    days both are written in full. *)
Theorem same_day_window_is_compressed (d sd ed : dict) (sv ev : pyval)
    (s e : datetime) (block : string) :
  dict_get d "start" = Some (PDict sd) ->
  dict_get sd "dateTime" = Some sv ->
  dict_get d "end" = Some (PDict ed) ->
  dict_get ed "dateTime" = Some ev ->
  parse_iso E sv = Some s ->
  parse_iso E ev = Some e ->
  event_summary E (PDict d) = Ok block ->
  ((year s = year e /\ month s = month e /\ day s = day e) ->
   contains ("   When: " ++ strftime_date_hm s ++ " - " ++ strftime_hm e ++ nl) block)
  /\ (~ (year s = year e /\ month s = month e /\ day s = day e) ->
      contains ("   When: " ++ strftime_date_hm s ++ " - " ++ strftime_date_hm e ++ nl)
               block).
Proof.
  intros Hs Hsd He Hed Ps Pe Hb.
  assert (Hsame : same_date s e = true
                  <-> (year s = year e /\ month s = month e /\ day s = day e)).
  { unfold same_date. rewrite !andb_true_iff, !Z.eqb_eq. tauto. }
  revert Hb. unfold event_summary. unfold py_get at 1 2 4 6 8. cbn [obind].
  rewrite (dict_get_default_some _ _ _ _ Hs), (dict_get_default_some _ _ _ _ He).
  cbn [py_get obind].
  rewrite (dict_get_default_some _ _ _ _ Hsd), (dict_get_default_some _ _ _ _ Hed).
  rewrite Ps, Pe.
  destruct (py_get (dict_get_default d "location" (PDict [])) "displayName"
              (PStr "No location")) as [location|]; cbn [obind]; [|discriminate].
  destruct (py_iter (dict_get_default d "attendees" (PList []))) as [atts|];
    cbn [obind]; [|discriminate].
  destruct (omap _ atts) as [attendee_list|]; cbn [obind]; [|discriminate].
  destruct (match attendee_list with [] => Ok EmptyString | _ => _ end)
    as [attendee_text|]; cbn [obind]; [|discriminate].
  intros [= <-].
  destruct (same_date s e) eqn:Hd; split; intros H.
  - exists ("📅 **" ++ py_str (dict_get_default d "subject" (PStr "No title")) ++ "**" ++ nl),
           ("   Where: " ++ py_str location ++ attendee_text ++ nl).
    rewrite !append_assoc. reflexivity.
  - elim H. now apply Hsame.
  - apply Hsame in H. discriminate.
  - exists ("📅 **" ++ py_str (dict_get_default d "subject" (PStr "No title")) ++ "**" ++ nl),
           ("   Where: " ++ py_str location ++ attendee_text ++ nl).
    rewrite !append_assoc. reflexivity.
Qed.

(** X13.  In the text of [get_user_info] the email line falls back to
    [userPrincipalName] (and then to [N/A]) only when the [mail] key is
    absent: a [mail] that is present is shown as it is, so a [null] mail is
    shown as [None].  The phone line shows the first business phone, and
    [N/A] when the list is absent, [null] or empty. *)
Theorem user_info_fallbacks (d : dict) (text : string) :
  render_user_info (PDict d) = Ok [mkTextContent "text" text] ->
  (dict_get d "mail" = None ->
   contains ("   Email: " ++ py_str (dict_get_default d "userPrincipalName" (PStr "N/A"))
               ++ nl) text)
  /\ (forall m, dict_get d "mail" = Some m ->
                contains ("   Email: " ++ py_str m ++ nl) text)
  /\ (truthy (dict_get_default d "businessPhones" PNone) = false ->
      exists head, text = head ++ "   Phone: N/A")
  /\ (forall p rest, dict_get d "businessPhones" = Some (PList (p :: rest)) ->
                     exists head, text = head ++ "   Phone: " ++ py_str p).
Proof.
  unfold render_user_info, py_get. cbn [obind].
  set (name_line := "👤 **User Information**" ++ nl
                      ++ "   Name: " ++ py_str (dict_get_default d "displayName" (PStr "N/A"))
                      ++ nl).
  set (email := py_str (dict_get_default d "mail"
                          (dict_get_default d "userPrincipalName" (PStr "N/A")))).
  set (job_lines := "   Job Title: " ++ py_str (dict_get_default d "jobTitle" (PStr "N/A"))
                      ++ nl ++ "   Office: "
                      ++ py_str (dict_get_default d "officeLocation" (PStr "N/A")) ++ nl).
  destruct (if truthy (dict_get_default d "businessPhones" PNone) then _ else _)
    as [phone|] eqn:Hph; cbn [obind]; [|discriminate].
  unfold text_result. intros H.
  assert (Ht : text = name_line ++ ("   Email: " ++ email ++ nl)
                        ++ job_lines ++ "   Phone: " ++ py_str phone).
  { injection H as <-. unfold name_line, job_lines. rewrite !append_assoc. reflexivity. }
  clear H. subst text.
  split; [|split; [|split]].
  - intros Hm. exists name_line, (job_lines ++ "   Phone: " ++ py_str phone).
    unfold email, dict_get_default at 1. now rewrite Hm.
  - intros m Hm. exists name_line, (job_lines ++ "   Phone: " ++ py_str phone).
    unfold email. now rewrite (dict_get_default_some _ _ _ _ Hm).
  - intros Hf. rewrite Hf in Hph. injection Hph as <-.
    exists (name_line ++ ("   Email: " ++ email ++ nl) ++ job_lines).
    rewrite !append_assoc. reflexivity.
  - intros p rest Hp.
    rewrite (dict_get_default_some _ _ _ _ Hp) in Hph. cbn [truthy] in Hph.
    rewrite (dict_get_default_some _ _ _ _ Hp) in Hph. cbn [obind py_first] in Hph.
    injection Hph as <-.
    exists (name_line ++ ("   Email: " ++ email ++ nl) ++ job_lines).
    rewrite !append_assoc. reflexivity.
Qed.

(** ** Times as the tools write and read them *)

Lemma parse_time_ok_iff (label s : string) (t : datetime) :
  parse_time label (PStr s) = Ok t
  <-> first_format (str_replace (chr 90) EmptyString s) accepted_formats = Ok (Some t).
Proof.
  unfold parse_time.
  destruct (first_format _ accepted_formats) as [[t'|]|e]; cbn [obind];
    split; intros H; inversion H; reflexivity.
Qed.

Lemma strip_inserted_Z (s1 s2 : string) :
  str_replace (chr 90) EmptyString (s1 ++ "Z" ++ s2)
  = str_replace (chr 90) EmptyString (s1 ++ s2).
Proof.
  now rewrite !str_replace_app.
Qed.

(** X14.  The letter [Z] is dropped from a time text wherever it stands,
    before parsing: a text with a [Z] inserted anywhere parses to an instant
    exactly when the text without it does, and to the same instant.  A
    trailing [Z] is therefore accepted, and carries no meaning. *)
Theorem inserted_Z_is_ignored (label s1 s2 : string) (t : datetime) :
  parse_time label (PStr (s1 ++ "Z" ++ s2)) = Ok t
  <-> parse_time label (PStr (s1 ++ s2)) = Ok t.
Proof.
  now rewrite !parse_time_ok_iff, strip_inserted_Z.
Qed.

Lemma isoformat_whole_second (t : datetime) :
  microsecond t = 0 -> isoformat t = written IsoSeconds t.
Proof.
  intros H. unfold isoformat, written. rewrite H. cbn [Z.eqb].
  now rewrite append_nil_r.
Qed.

Lemma first_format_iso_seconds (t : datetime) :
  valid_datetime t = true -> microsecond t = 0 ->
  first_format (written IsoSeconds t) accepted_formats = Ok (Some t).
Proof.
  intros Hv Hu. unfold accepted_formats, first_format.
  now rewrite strptime_written_iso_seconds.
Qed.

Lemma seq_last_rest (d : directive) (v : Z) (rest : string) :
  field_range d v ->
  exists extras, match_seq [d] (pad2 v ++ rest) = ([v], rest) :: extras.
Proof.
  intros Hr. destruct (match_dir_padded d v rest Hr) as (extras & Hm & _).
  cbn [match_seq]. rewrite Hm. cbn [flat_map map fst snd app]. eauto.
Qed.

Lemma strptime_of_leftover (s f : string) (ds : list directive) (vs : list Z)
    (a : ascii) (rest : string) (extras : list (list Z * string)) :
  compile_format f = Some ds ->
  match_seq ds s = (vs, String a rest) :: extras ->
  forall t, strptime s f <> Ok t.
Proof.
  intros Hc Hm t. unfold strptime. rewrite Hc, Hm. discriminate.
Qed.

Lemma pad6_keeps_Z (n : Z) :
  0 <= n <= 999999 -> str_replace (chr 90) EmptyString (pad6 n) = pad6 n.
Proof.
  intros H. unfold pad6. rewrite !str_replace_app.
  rewrite !pad2_keeps_Z; [reflexivity| | |]; Z.div_mod_to_equations; lia.
Qed.

Lemma fraction_is_not_accepted (t : datetime) (f : string) (t' : datetime) :
  valid_datetime t = true -> microsecond t <> 0 ->
  In f accepted_formats ->
  strptime (isoformat t) f <> Ok t'.
Proof.
  intros Hv Hu Hin.
  destruct (valid_datetime_ranges t Hv) as (Hy & Hm & Hd & Hh & Hmi & Hs & _).
  pose proof (days_in_month_le_31 (year t) (month t)) as H31.
  unfold isoformat.
  replace (microsecond t =? 0) with false by (symmetry; now apply Z.eqb_neq).
  destruct Hin as [<-|[<-|[<-|[]]]].
  - destruct (seq_last_rest DS (second t) ("." ++ pad6 (microsecond t)))
      as (extras & Hlast); [simpl; lia|].
    eapply strptime_of_leftover; [apply accepted_formats_compiled|].
    cbn [append]. parse_fields. cbn [append] in Hlast. rewrite Hlast.
    cbn [map fst snd]. reflexivity.
  - intros H. rewrite strptime_of_no_match
      with (ds := [DY; Lit "-"; Dm; Lit "-"; Dd; WS; DH; Lit ":"; DM; Lit ":"; DS]) in H;
      [discriminate|reflexivity|].
    cbn [append]. parse_fields. now rewrite seq_ws_mismatch by reflexivity.
  - destruct (seq_last_rest DM (minute t)
                (":" ++ pad2 (second t) ++ "." ++ pad6 (microsecond t)))
      as (extras & Hlast); [simpl; lia|].
    eapply strptime_of_leftover; [apply accepted_formats_compiled|].
    cbn [append]. parse_fields. cbn [append] in Hlast. rewrite Hlast.
    cbn [map fst snd]. reflexivity.
Qed.

Lemma isoformat_keeps_Z (t : datetime) :
  valid_datetime t = true ->
  str_replace (chr 90) EmptyString (isoformat t) = isoformat t.
Proof.
  intros Hv.
  destruct (valid_datetime_ranges t Hv) as (Hy & Hm & Hd & Hh & Hmi & Hs & Hu).
  pose proof (days_in_month_le_31 (year t) (month t)) as H31.
  unfold isoformat. repeat rewrite str_replace_app.
  rewrite pad4_keeps_Z by lia. repeat rewrite pad2_keeps_Z by lia.
  destruct (microsecond t =? 0); [reflexivity|].
  rewrite str_replace_app, pad6_keeps_Z by lia. reflexivity.
Qed.

(** X15.  [isoformat] and the parser of [create_calendar_event] round-trip
    on whole seconds and only there: the text the server writes for a valid
    instant without microseconds, with or without the [Z] the events tool
    appends, parses back to that instant; the text of an instant with
    microseconds, which is what [datetime.now()] usually gives, parses under
    none of the accepted formats. *)
Theorem isoformat_round_trip (t : datetime) (label : string) :
  valid_datetime t = true ->
  (microsecond t = 0 ->
   parse_time label (PStr (isoformat t)) = Ok t
   /\ parse_time label (PStr (isoformat t ++ "Z")) = Ok t)
  /\ (microsecond t <> 0 ->
      parses_under_none (isoformat t) /\ parses_under_none (isoformat t ++ "Z")).
Proof.
  intros Hv.
  assert (Hz : str_replace (chr 90) EmptyString (isoformat t ++ "Z") = isoformat t).
  { rewrite str_replace_app, isoformat_keeps_Z by assumption.
    cbn. now rewrite append_nil_r. }
  split.
  - intros Hu.
    assert (H : parse_time label (PStr (isoformat t)) = Ok t).
    { apply parse_time_ok_iff. rewrite isoformat_keeps_Z by assumption.
      rewrite isoformat_whole_second by assumption.
      now apply first_format_iso_seconds. }
    split; [exact H|].
    apply parse_time_ok_iff. rewrite Hz.
    apply parse_time_ok_iff in H. now rewrite isoformat_keeps_Z in H by assumption.
  - intros Hu.
    assert (H : parses_under_none (isoformat t)).
    { intros f t' Hin. rewrite isoformat_keeps_Z by assumption.
      now apply fraction_is_not_accepted. }
    split; [exact H|].
    intros f t' Hin. rewrite Hz. now apply fraction_is_not_accepted.
Qed.

(** ** The body of an event *)

Lemma dict_get_set_same (d : dict) (k : string) (v : pyval) :
  dict_get (dict_set d k v) k = Some v.
Proof.
  induction d as [|[k' v'] r IH]; simpl.
  - now rewrite String.eqb_refl.
  - destruct (String.eqb k' k) eqn:Q; simpl; rewrite Q; [reflexivity|exact IH].
Qed.

Lemma dict_get_set_other (d : dict) (k k' : string) (v : pyval) :
  k <> k' -> dict_get (dict_set d k v) k' = dict_get d k'.
Proof.
  intros Hk. induction d as [|[k0 v0] r IH]; simpl.
  - apply String.eqb_neq in Hk. now rewrite Hk.
  - destruct (String.eqb k0 k) eqn:Q; simpl.
    + apply String.eqb_eq in Q. subst k0.
      apply String.eqb_neq in Hk. now rewrite Hk.
    + now rewrite IH.
Qed.

Lemma omap_attendee_entry (emails : list string) :
  omap attendee_entry (map PStr emails) = Ok (map attendee_of emails).
Proof.
  induction emails as [|s r IH]; simpl; [reflexivity|].
  now rewrite IH.
Qed.

Lemma str_before_splits (c : ascii) (s : string) :
  str_mem c (str_before c s) = false
  /\ exists rest, s = str_before c s ++ rest
                  /\ (rest = EmptyString \/ exists r, rest = String c r).
Proof.
  induction s as [|a s (IH1 & rest & IH2 & IH3)]; simpl.
  - split; [reflexivity|]. exists EmptyString. auto.
  - destruct (Ascii.eqb a c) eqn:Q; simpl.
    + split; [reflexivity|]. apply Ascii.eqb_eq in Q. subst a.
      exists (String c s). split; [reflexivity|]. right. eauto.
    + rewrite Q, IH1. split; [reflexivity|].
      exists rest. split; [now rewrite <- IH2|assumption].
Qed.

(** X16.  [create_event] expands a non-empty list of addresses into one
    attendee entry per address, in order: the address verbatim, the display
    name the text before the first [@] (the whole address when it has none),
    the type [required].  A falsy attendee argument adds no [attendees] key,
    and an element that is not text makes the construction raise before
    anything is sent. *)
Theorem attendees_are_expanded (subject : pyval) (ts te : datetime)
    (body location : pyval) :
  (forall emails, emails <> [] ->
     exists data,
       event_body subject ts te body location (PList (map PStr emails)) = Ok data
       /\ dict_get data "attendees" = Some (PList (map attendee_of emails)))
  /\ (forall email,
        str_mem (chr 64) (str_before (chr 64) email) = false
        /\ exists rest, email = str_before (chr 64) email ++ rest
                        /\ (rest = EmptyString \/ exists r, rest = String (chr 64) r))
  /\ (forall attendees, truthy attendees = false ->
        exists data,
          event_body subject ts te body location attendees = Ok data
          /\ dict_get data "attendees" = None)
  /\ (forall items x, In x items -> is_str x = false ->
        exists e,
          event_body subject ts te body location (PList items) = Raise e
          /\ forall gc w,
               create_event E gc subject ts te body location (PList items) w
               = (Raise e, w)).
Proof.
  split; [|split; [|split]].
  - intros emails Hne. unfold event_body.
    assert (Ht : truthy (PList (map PStr emails)) = true)
      by (destruct emails; [contradiction|reflexivity]).
    rewrite Ht. cbn [py_iter obind]. rewrite omap_attendee_entry. cbn [obind].
    eexists. split; [reflexivity|]. apply dict_get_set_same.
  - intros email. apply str_before_splits.
  - intros attendees Hf. unfold event_body. rewrite Hf.
    eexists. split; [reflexivity|].
    destruct (truthy body), (truthy location);
      rewrite ?dict_get_set_other by discriminate; reflexivity.
  - intros items x Hin Hx. unfold event_body.
    assert (Ht : truthy (PList items) = true)
      by (destruct items; [contradiction|reflexivity]).
    rewrite Ht. cbn [py_iter obind].
    destruct (omap_one_fails attendee_entry items x Hin) as (e & He).
    + intros y. destruct x; try discriminate.
    + rewrite He. cbn [obind]. exists e. split; [reflexivity|].
      intros gc w. unfold create_event, event_body, bind, lift.
      rewrite Ht. cbn [py_iter obind]. rewrite He. reflexivity.
Qed.

Lemma str_chars_length (s : string) :
  List.length (str_chars s) = String.length s.
Proof.
  unfold str_chars. rewrite length_map.
  induction s as [|a s IH]; simpl; [reflexivity | now rewrite IH].
Qed.

(** X17.  An attendee argument given as one text instead of a list is
    iterated character by character: the body gets one attendee entry per
    character of the text, each with that single character as its address. *)
Theorem text_attendees_are_split_into_characters (subject : pyval) (ts te : datetime)
    (body location : pyval) (s : string) :
  s <> EmptyString ->
  exists data,
    event_body subject ts te body location (PStr s) = Ok data
    /\ dict_get data "attendees" = Some (PList (map attendee_of (str_chars s)))
    /\ List.length (map attendee_of (str_chars s)) = String.length s.
Proof.
  intros Hne. unfold event_body.
  assert (Ht : truthy (PStr s) = true).
  { simpl. apply String.eqb_neq in Hne. now rewrite Hne. }
  rewrite Ht. cbn [py_iter obind]. rewrite omap_attendee_entry. cbn [obind].
  eexists. split; [reflexivity|]. split; [apply dict_get_set_same|].
  now rewrite length_map, str_chars_length.
Qed.

(** ** Start-up and the calls that follow *)



(** ** More on the bulk operation and the folder count *)

Lemma mark_one_exact c msg_id w :
  truthy (ec_access_token c) = true ->
  mark_one E c msg_id w
  = (Ok (record_of msg_id (answer_value (http E (trace w) (mark_request c msg_id)))),
     after_request w (mark_request c msg_id)).
Proof.
  intros Ht. unfold mark_one, mark_as_read, try_except, bind at 1.
  rewrite make_request_run by assumption. fold (mark_request c msg_id).
  now destruct (answer_value _).
Qed.

Lemma mark_one_refused c msg_id w :
  truthy (ec_access_token c) = false ->
  mark_one E c msg_id w = (Ok (record_of msg_id (Raise no_access_token)), w).
Proof.
  intros Ht. unfold mark_one, mark_as_read, try_except, bind at 1.
  now rewrite make_request_refused by assumption.
Qed.

Lemma bulk_loop_exact c message_ids :
  truthy (ec_access_token c) = true ->
  forall acc w,
  exists w',
    bulk_loop E c message_ids acc w
    = (Ok (acc ++ bulk_records E c message_ids (trace w))%list, w').
Proof.
  intros Ht. induction message_ids as [|msg_id rest IH]; intros acc w.
  - exists w. simpl. now rewrite app_nil_r.
  - simpl. unfold bind. rewrite mark_one_exact by assumption.
    destruct (IH (acc ++ [record_of msg_id
                            (answer_value (http E (trace w) (mark_request c msg_id)))])%list
                 (after_request w (mark_request c msg_id))) as (w' & H).
    exists w'. rewrite H. now rewrite <- app_assoc.
Qed.

Lemma bulk_records_nth c message_ids :
  forall tr i msg_id,
    nth_error message_ids i = Some msg_id ->
    nth_error (bulk_records E c message_ids tr) i
    = Some (record_of msg_id
              (answer_value
                 (http E (tr ++ map (mark_request c) (firstn i message_ids))%list
                       (mark_request c msg_id)))).
Proof.
  induction message_ids as [|m rest IH]; intros tr i msg_id H.
  - destruct i; discriminate.
  - destruct i as [|i]; simpl in *.
    + injection H as ->. now rewrite app_nil_r.
    + rewrite (IH _ _ _ H), <- app_assoc. reflexivity.
Qed.

(** X20.  With an access token, the record of the i-th id reports exactly
    what the service answered to the i-th request, the service having seen
    the requests of the ids before it: [success: True] with the decoded
    answer when that answer is usable, [success: False] with the text of the
    exception otherwise. *)
Theorem bulk_record_reflects_its_answer (c : GraphEmailClient)
    (message_ids : list string) (w : World) :
  truthy (ec_access_token c) = true ->
  exists results w',
    bulk_mark_read E c message_ids w = (Ok results, w')
    /\ forall i msg_id,
         nth_error message_ids i = Some msg_id ->
         nth_error results i
         = Some (record_of msg_id
                   (answer_value
                      (http E (trace w ++ map (mark_request c) (firstn i message_ids))%list
                            (mark_request c msg_id)))).
Proof.
  intros Ht. destruct (bulk_loop_exact c message_ids Ht [] w) as (w' & H).
  exists (bulk_records E c message_ids (trace w)), w'. split; [exact H|].
  intros i msg_id Hi. now apply bulk_records_nth.
Qed.

Lemma bulk_loop_refused c message_ids :
  truthy (ec_access_token c) = false ->
  forall acc w,
    bulk_loop E c message_ids acc w
    = (Ok (acc ++ map (fun msg_id => record_of msg_id (Raise no_access_token))
                      message_ids)%list, w).
Proof.
  intros Ht. induction message_ids as [|msg_id rest IH]; intros acc w.
  - simpl. now rewrite app_nil_r.
  - simpl. unfold bind. rewrite mark_one_refused by assumption.
    rewrite IH, <- app_assoc. reflexivity.
Qed.

(** X21.  Without an access token [bulk_mark_read] sends nothing and still
    returns one record per id, each a failure carrying the text of the
    missing-token exception. *)
Theorem bulk_without_token_fails_every_id (c : GraphEmailClient)
    (message_ids : list string) (w : World) :
  truthy (ec_access_token c) = false ->
  bulk_mark_read E c message_ids w
  = (Ok (map (fun msg_id =>
                PDict [("id", PStr msg_id); ("success", PBool false);
                       ("error",
                        PStr "No access token available. Please authenticate first.")])
             message_ids), w).
Proof.
  intros Ht. unfold bulk_mark_read. now rewrite bulk_loop_refused.
Qed.

Lemma bulk_loop_acc c message_ids :
  forall w, exists rs w',
    forall acc, bulk_loop E c message_ids acc w = (Ok (acc ++ rs)%list, w').
Proof.
  induction message_ids as [|msg_id rest IH]; intros w.
  - exists [], w. intros acc. simpl. now rewrite app_nil_r.
  - destruct (mark_one_run c msg_id w) as (r & w1 & H1 & _).
    destruct (IH w1) as (rs & w2 & H2).
    exists (r :: rs), w2. intros acc. simpl. unfold bind.
    rewrite H1, H2, <- app_assoc. reflexivity.
Qed.

Lemma bulk_loop_app c a b :
  forall acc w,
    bulk_loop E c (a ++ b) acc w
    = match bulk_loop E c a acc w with
      | (Ok rs, w1) => bulk_loop E c b rs w1
      | (Raise e, w1) => (Raise e, w1)
      end.
Proof.
  induction a as [|msg_id rest IH]; intros acc w; [reflexivity|].
  simpl. unfold bind. destruct (mark_one E c msg_id w) as [[r|e] w1]; [|reflexivity].
  apply IH.
Qed.

(** X22.  A batch can be split: marking [a ++ b] gives the records of [a]
    followed by the records [b] gets in the world [a] left behind, and ends
    in the same world. *)
Theorem bulk_mark_read_of_a_concatenation (c : GraphEmailClient)
    (a b : list string) (w w1 w2 : World) (ra rb : list pyval) :
  bulk_mark_read E c a w = (Ok ra, w1) ->
  bulk_mark_read E c b w1 = (Ok rb, w2) ->
  bulk_mark_read E c (a ++ b) w = (Ok (ra ++ rb)%list, w2).
Proof.
  unfold bulk_mark_read. intros Ha Hb.
  rewrite bulk_loop_app, Ha.
  destruct (bulk_loop_acc c b w1) as (rs & w' & H).
  rewrite (H []) in Hb. simpl in Hb. injection Hb as <- <-.
  apply H.
Qed.

(** X23.  [get_unread_count] sends one [get] for the folder, without body
    or parameters.  An object answer gives its [unreadItemCount], 0 when the
    key is absent; a successful answer with an empty body raises the
    [AttributeError] of [None]; a status outside 200, 201, 202 and 204 raises
    the request failure with the status and the body. *)
Theorem unread_count_of_the_answer (c : GraphEmailClient) (folder_id : string)
    (w : World) :
  truthy (ec_access_token c) = true ->
  snd (get_unread_count E c folder_id w) = after_request w (folder_request c folder_id)
  /\ req_method (folder_request c folder_id) = "get"
  /\ req_url (folder_request c folder_id)
     = ec_base_url c ++ "/me/mailFolders/" ++ folder_id
  /\ req_json (folder_request c folder_id) = None
  /\ req_params (folder_request c folder_id) = None
  /\ (forall d,
        answer_value (http E (trace w) (folder_request c folder_id)) = Ok (PDict d) ->
        fst (get_unread_count E c folder_id w)
        = Ok (match dict_get d "unreadItemCount" with Some n => n | None => PInt 0 end))
  /\ (forall r,
        http E (trace w) (folder_request c folder_id) = Responded r ->
        success_status (status_code r) = true -> content r = EmptyString ->
        fst (get_unread_count E c folder_id w)
        = Raise (mkExn AttributeError "'NoneType' object has no attribute 'get'"))
  /\ (forall r,
        http E (trace w) (folder_request c folder_id) = Responded r ->
        success_status (status_code r) = false ->
        fst (get_unread_count E c folder_id w)
        = Raise (mkExn Exception
                   ("API request failed: " ++ Z_str (status_code r) ++ " - " ++ content r))).
Proof.
  intros Ht.
  assert (Hrun : get_unread_count E c folder_id w
                 = (obind (answer_value (http E (trace w) (folder_request c folder_id)))
                          (fun folder => py_get folder "unreadItemCount" (PInt 0)),
                    after_request w (folder_request c folder_id))).
  { unfold get_unread_count, bind. rewrite make_request_run by assumption.
    fold (folder_request c folder_id).
    now destruct (answer_value _). }
  rewrite Hrun. cbn [fst snd].
  split; [reflexivity|]. split; [reflexivity|]. split; [reflexivity|].
  split; [reflexivity|]. split; [reflexivity|]. split; [|split].
  - intros d ->. reflexivity.
  - intros r -> Hs Hc. unfold answer_value, decode_response. rewrite Hs, Hc. reflexivity.
  - intros r -> Hs. unfold answer_value, decode_response. rewrite Hs. reflexivity.
Qed.

End Properties.

(** * Instances on concrete invocations *)

Lemma send_email_not_in_catalog : ~ In "send_email" catalog_names.
Proof.
  simpl. intros [H|[H|[H|[H|[]]]]]; discriminate.
Defined.

(** The unknown-tool branch, credential loaded. *)
Lemma unknown_tool_is_reported_witness :
  ~ In "send_email" catalog_names
  /\ handle_call_tool (env_answering not_found) (Some signed_in) "send_email" [] world0
     = (Ok (text_result "❌ Unknown tool: send_email"), world0).
Proof.
  split; [exact send_email_not_in_catalog|].
  exact (unknown_tool_is_reported (env_answering not_found) (Some signed_in)
           "send_email" [] world0 send_email_not_in_catalog).
Defined.

(** C1 as stated fails: a name outside the catalog, called while no access
    token is loaded (the state [main] serves in after reading a token file
    without [access_token]), gets the not-authenticated text, not the
    unknown-tool text. *)
Lemma unknown_tool_without_credential :
  ~ In "send_email" catalog_names
  /\ fst (handle_call_tool (env_answering not_found) (Some signed_out)
            "send_email" [] world0)
     = Ok (text_result not_authenticated_text)
  /\ fst (handle_call_tool (env_answering not_found) (Some signed_out)
            "send_email" [] world0)
     <> Ok (text_result (unknown_tool_text "send_email")).
Proof.
  split; [exact send_email_not_in_catalog|].
  split; [reflexivity|].
  vm_compute. intros H. inversion H.
Qed.

Lemma unauthenticated_is_uniform_witness :
  authenticated (Some signed_out) = false
  /\ handle_call_tool (env_answering empty_page) (Some signed_out)
       "get_emails" [("count", PInt 5)] world0
     = (Ok (text_result not_authenticated_text), world0).
Proof.
  split; [reflexivity|].
  apply (unauthenticated_is_uniform (env_answering empty_page) (Some signed_out)).
  reflexivity.
Defined.



Lemma only_times_differ (s1 e1 s2 e2 : string) :
  agree_except ["start_time"; "end_time"] (meeting s1 e1) (meeting s2 e2).
Proof.
  intros k Hk. unfold meeting. cbn [dict_get].
  destruct (String.eqb "subject" k); [reflexivity|].
  destruct (String.eqb "start_time" k) eqn:Q1.
  { apply String.eqb_eq in Q1. exfalso. apply Hk. now left. }
  destruct (String.eqb "end_time" k) eqn:Q2; [|reflexivity].
  apply String.eqb_eq in Q2. exfalso. apply Hk. right. now left.
Defined.

(** The same meeting written as [2025-08-14T14:00:00] to
    [2025-08-14T15:30:00], and as [2025-08-14T14:00] to
    [2025-08-14 15:30:00]. *)
Lemma same_instant_same_request_witness :
  whole_minute two_pm /\ whole_minute half_past_three
  /\ handle_call_tool (env_answering empty_page) (Some signed_in)
       "create_calendar_event"
       (meeting "2025-08-14T14:00:00" "2025-08-14T15:30:00") world0
     = handle_call_tool (env_answering empty_page) (Some signed_in)
         "create_calendar_event"
         (meeting "2025-08-14T14:00" "2025-08-14 15:30:00") world0.
Proof.
  assert (H2 : whole_minute two_pm) by (repeat split).
  assert (H3 : whole_minute half_past_three) by (repeat split).
  split; [exact H2|]. split; [exact H3|].
  apply (same_instant_same_request (env_answering empty_page) (Some signed_in)
           (meeting "2025-08-14T14:00:00" "2025-08-14T15:30:00")
           (meeting "2025-08-14T14:00" "2025-08-14 15:30:00")
           world0 two_pm half_past_three
           IsoSeconds IsoMinutes IsoSeconds SpaceSeconds H2 H3).
  - apply only_times_differ.
  - reflexivity.
  - reflexivity.
  - reflexivity.
  - reflexivity.
Defined.



(** A 404 answered with the body [{"error":"not found"}]. *)
Lemma remote_failure_is_rendered_witness :
  success_status 404 = false
  /\ fst (handle_call_tool (env_answering not_found) (Some signed_in)
            "get_emails" [] world0)
     = Ok (text_result
             ("❌ Error executing get_emails: API request failed: 404 - "
                ++ not_found_body))
  /\ contains "404" (error_executing_text "get_emails" (api_request_failed not_found))
  /\ fst (_make_request (env_answering no_content) (PStr "token") "https://graph"
            "DELETE" "/me/messages/1" PNone PNone world0) = Ok PNone.
Proof.
  split; [reflexivity|].
  pose proof (remote_failure_is_rendered (env_answering not_found)) as (H1 & _ & _).
  pose proof (remote_failure_is_rendered (env_answering no_content)) as (_ & _ & H3).
  destruct (H1 (Some signed_in) "get_emails" [] world0
              (emails_request signed_in (PInt 10) PNone) not_found
              eq_refl eq_refl eq_refl) as (Ha & _ & Hc).
  split; [exact Ha|]. split; [exact Hc|].
  exact (H3 (PStr "token") "https://graph" "DELETE" "/me/messages/1" PNone PNone
            world0 no_content eq_refl eq_refl eq_refl eq_refl).
Defined.

(** No message matches the search term [quarterly review]. *)
Lemma empty_results_are_announced_witness :
  fst (handle_call_tool (env_answering empty_page) (Some signed_in)
         "get_emails" [("search", PStr "quarterly review")] world0)
  = Ok (text_result "📧 No emails found matching 'quarterly review'.")
  /\ fst (handle_call_tool (env_answering empty_page) (Some signed_in)
            "get_calendar_events" [("days", PInt 45)] world0)
     = Ok (text_result "📅 No events found in the next 30 days.").
Proof.
  pose proof (empty_results_are_announced (env_answering empty_page)) as (H1 & H2).
  assert (Hn : content empty_page <> EmptyString) by discriminate.
  split.
  - destruct (H1 signed_in [("search", PStr "quarterly review")] world0 (PInt 10)
                empty_page (PDict [("value", PList [])]) (PList [])
                eq_refl eq_refl eq_refl eq_refl Hn eq_refl eq_refl eq_refl)
      as (_ & Hterm).
    apply (Hterm "quarterly review"); [reflexivity|discriminate].
  - exact (H2 signed_in [("days", PInt 45)] world0 (PInt 30) (PInt 20)
              (mkDatetime 2026 12 4 12 0 0 0)
              empty_page (PDict [("value", PList [])]) (PList [])
              eq_refl eq_refl eq_refl eq_refl eq_refl eq_refl Hn eq_refl eq_refl eq_refl).
Defined.

(** A count of zero and a day range of minus three are sent as they are. *)
Lemma low_values_are_forwarded_witness :
  effective "get_emails" "count" [("count", PInt 0)] = Some (PInt 0)
  /\ 0 <= 50
  /\ sent_exactly world0
       (snd (handle_call_tool (env_answering empty_page) (Some signed_in)
               "get_emails" [("count", PInt 0)] world0))
       [emails_request signed_in (PInt 0) PNone]
  /\ param_of (emails_request signed_in (PInt 0) PNone) "$top" = Some (PInt 0)
  /\ sent_exactly world0
       (snd (handle_call_tool (env_answering empty_page) (Some signed_in)
               "get_calendar_events" [("days", PInt (-3))] world0))
       [events_request signed_in noon (mkDatetime 2026 11 1 12 0 0 0) (PInt 20)].
Proof.
  pose proof (low_values_are_forwarded (env_answering empty_page)) as (H1 & H2 & _).
  assert (L0 : 0 <= 50) by discriminate.
  assert (L3 : -3 <= 30) by discriminate.
  assert (L20 : 20 <= 50) by discriminate.
  split; [reflexivity|]. split; [exact L0|].
  destruct (H1 signed_in [("count", PInt 0)] world0 0 eq_refl eq_refl L0) as (Ha & Hb).
  split; [exact Ha|]. split; [exact Hb|].
  destruct (H2 signed_in [("days", PInt (-3))] world0 (-3) 20
              (mkDatetime 2026 11 1 12 0 0 0) eq_refl eq_refl L3 eq_refl L20 eq_refl)
    as (Hc & _).
  exact Hc.
Defined.

(** C10 as stated fails: a day range of minus one thousand million is
    below the maximum, yet nothing is sent: the time delta cannot be built
    and the error text is returned.  The same happens for minus one million
    days, which would fall before year 1. *)
Lemma huge_negative_days_are_not_forwarded :
  -1000000000 <= 30
  /\ handle_call_tool (env_answering empty_page) (Some signed_in)
       "get_calendar_events" [("days", PInt (-1000000000))] world0
     = (Ok (text_result
              "❌ Error executing get_calendar_events: days=-1000000000; must have magnitude <= 999999999"),
        mkWorld [] 2)
  /\ handle_call_tool (env_answering empty_page) (Some signed_in)
       "get_calendar_events" [("days", PInt (-1000000))] world0
     = (Ok (text_result
              "❌ Error executing get_calendar_events: date value out of range"),
        mkWorld [] 2).
Proof.
  split; [discriminate|split; reflexivity].
Qed.

(** Three ids, the service answering 404 to each: three failure records,
    three requests. *)
Lemma bulk_mark_read_example :
  bulk_mark_read (env_answering not_found) mail_client ["a"; "b"; "c"] world0
  = (Ok (map (fun i => PDict [("id", PStr i); ("success", PBool false);
                              ("error", PStr ("API request failed: 404 - " ++ not_found_body))])
             ["a"; "b"; "c"]),
     mkWorld (map (mark_request mail_client) ["a"; "b"; "c"]) 0).
Proof.
  reflexivity.
Qed.

Lemma bulk_mark_read_records_every_id_witness :
  exists results w',
    bulk_mark_read (env_answering not_found) mail_client ["a"; "b"; "c"] world0
    = (Ok results, w')
    /\ List.length results = 3%nat
    /\ Forall2 outcome_record ["a"; "b"; "c"] results
    /\ (truthy (ec_access_token mail_client) = true ->
        sent_exactly world0 w' (map (mark_request mail_client) ["a"; "b"; "c"])).
Proof.
  exact (bulk_mark_read_records_every_id (env_answering not_found) mail_client
           ["a"; "b"; "c"] world0).
Defined.


(** ** Instances of the further properties *)

(** A 200 whose body does not decode. *)
Lemma unusable_answer_is_rendered_witness :
  fst (handle_call_tool (env_answering garbled) (Some signed_in) "get_user_info" [] world0)
  = Ok (text_result
          "❌ Error executing get_user_info: Expecting value: line 1 column 1 (char 0)").
Proof.
  apply (unusable_answer_is_rendered (env_answering garbled) (Some signed_in)
           "get_user_info" [] world0 (user_request signed_in)
           (mkExn JSONDecodeError "Expecting value: line 1 column 1 (char 0)")).
  - reflexivity.
  - reflexivity.
Defined.

Lemma non_numeric_parameter_is_an_error_witness :
  handle_call_tool (env_answering empty_page) (Some signed_in)
    "get_emails" [("count", PStr "ten")] world0
  = (Ok (text_result
           "❌ Error executing get_emails: '<' not supported between instances of 'int' and 'str'"),
     world0)
  /\ handle_call_tool (env_answering empty_page) (Some signed_in)
       "get_calendar_events" [("days", PNone)] world0
     = (Ok (text_result
              "❌ Error executing get_calendar_events: '<' not supported between instances of 'int' and 'NoneType'"),
        world0)
  /\ handle_call_tool (env_answering empty_page) (Some signed_in)
       "get_calendar_events" [("days", PInt 3); ("count", PList [])] world0
     = (Ok (text_result
              "❌ Error executing get_calendar_events: '<' not supported between instances of 'int' and 'list'"),
        world0).
Proof.
  pose proof (non_numeric_parameter_is_an_error (env_answering empty_page))
    as (H1 & H2 & H3).
  split; [|split].
  - exact (H1 signed_in [("count", PStr "ten")] world0 (PStr "ten")
              eq_refl eq_refl eq_refl).
  - exact (H2 signed_in [("days", PNone)] world0 PNone eq_refl eq_refl eq_refl).
  - exact (H3 signed_in [("days", PInt 3); ("count", PList [])] world0 3 (PList [])
              eq_refl eq_refl eq_refl eq_refl).
Defined.

Lemma missing_required_argument_is_reported_witness :
  first_missing [("subject", PStr "Review")] = Some "start_time"
  /\ handle_call_tool (env_answering empty_page) (Some signed_in)
       "create_calendar_event" [("subject", PStr "Review")] world0
     = (Ok (text_result "❌ Error executing create_calendar_event: 'start_time'"), world0).
Proof.
  split; [reflexivity|].
  exact (missing_required_argument_is_reported (env_answering empty_page) signed_in
           [("subject", PStr "Review")] world0 "start_time" eq_refl eq_refl).
Defined.

Lemma only_search_differs (v : pyval) :
  agree_except ["search"] [("search", v)] [].
Proof.
  intros k Hk. cbn [dict_get].
  destruct (String.eqb "search" k) eqn:Q; [|reflexivity].
  apply String.eqb_eq in Q. exfalso. apply Hk. now left.
Defined.

(** An empty search text against no search at all. *)
Lemma falsy_search_is_no_search_witness :
  handle_call_tool (env_answering empty_page) (Some signed_in)
    "get_emails" [("search", PStr EmptyString)] world0
  = handle_call_tool (env_answering empty_page) (Some signed_in) "get_emails" [] world0
  /\ param_of (emails_request signed_in (PInt 10) PNone) "$search" = None.
Proof.
  destruct (falsy_search_is_no_search (env_answering empty_page) (Some signed_in)
              [("search", PStr EmptyString)] [] world0
              (only_search_differs (PStr EmptyString)) eq_refl eq_refl) as (H1 & H2).
  split; [exact H1|].
  exact (H2 signed_in (emails_request signed_in (PInt 10) PNone) eq_refl eq_refl).
Defined.

(** A year of days and five hundred events are asked for. *)
Lemma page_size_never_exceeds_maximum_witness :
  (exists top n,
      param_of (events_request signed_in noon (mkDatetime 2026 12 4 12 0 0 0) (PInt 50))
               "$top" = Some top
      /\ as_int top = Some n /\ n <= 50)
  /\ ("get_calendar_events" = "get_calendar_events" ->
      exists days n,
        py_min (dict_get_default [("days", PInt 365); ("count", PInt 500)] "days" (PInt 7)) 30
        = Ok days
        /\ as_int days = Some n /\ n <= 30).
Proof.
  apply (page_size_never_exceeds_maximum (env_answering empty_page) signed_in
           "get_calendar_events" [("days", PInt 365); ("count", PInt 500)] world0
           (events_request signed_in noon (mkDatetime 2026 12 4 12 0 0 0) (PInt 50))).
  - right. reflexivity.
  - reflexivity.
Defined.

Lemma get_user_info_reads : In "get_user_info" reading_tools.
Proof.
  right. right. left. reflexivity.
Defined.

(** The service answers with a JSON array. *)
Lemma non_object_answer_is_an_error_witness :
  fst (handle_call_tool (env_answering array_answer) (Some signed_in)
         "get_user_info" [] world0)
  = Ok (text_result
          ("❌ Error executing " ++ "get_user_info" ++ ": '" ++ type_name (PList [])
             ++ "' object has no attribute 'get'")).
Proof.
  exact (non_object_answer_is_an_error (env_answering array_answer) (Some signed_in)
           "get_user_info" [] world0 (user_request signed_in) (PList [])
           get_user_info_reads eq_refl eq_refl eq_refl).
Defined.


Lemma a_message_is_not_empty : [PDict a_message] <> [].
Proof.
  discriminate.
Defined.

(** A page of one message. *)
Lemma emails_render_all_or_nothing_witness :
  exists blocks,
    omap (email_summary (env_answering inbox_page)) [PDict a_message] = Ok blocks
    /\ List.length blocks = 1%nat
    /\ fst (handle_call_tool (env_answering inbox_page) (Some signed_in)
              "get_emails" [] world0)
       = Ok (text_result
               ("📧 Found " ++ Z_str (Z.of_nat 1) ++ " emails"
                  ++ search_text (dict_get_default [] "search" PNone)
                  ++ ":" ++ nl ++ nl ++ String.concat nl blocks)).
Proof.
  destruct (emails_render_all_or_nothing (env_answering inbox_page) (Some signed_in)
              [] world0 (emails_request signed_in (PInt 10) PNone)
              [("value", PList [PDict a_message])] [PDict a_message]
              eq_refl eq_refl eq_refl a_message_is_not_empty) as (H & _).
  exact (H eq_refl).
Defined.

Lemma preview_is_truncated_witness :
  exists block,
    email_summary (env_answering inbox_page) (PDict a_message) = Ok block
    /\ (exists head, block = head ++ "   Preview: " ++ shown_preview a_preview ++ nl)
    /\ (String.length (shown_preview a_preview) <= 153)%nat
    /\ ((String.length a_preview <= 150)%nat -> shown_preview a_preview = a_preview)
    /\ ((150 < String.length a_preview)%nat ->
        shown_preview a_preview = str_take 150 a_preview ++ "...").
Proof.
  eexists. split; [reflexivity|].
  apply (preview_is_truncated (env_answering inbox_page) a_message a_preview).
  - reflexivity.
  - reflexivity.
Defined.

(** A meeting from 14:00 to 15:30 on the same day. *)
Lemma same_day_window_is_compressed_witness :
  exists block,
    event_summary iso_env (PDict an_event) = Ok block
    /\ contains ("   When: " ++ strftime_date_hm two_pm ++ " - "
                   ++ strftime_hm half_past_three ++ nl) block.
Proof.
  eexists. split; [reflexivity|].
  destruct (same_day_window_is_compressed iso_env an_event
              [("dateTime", PStr "2025-08-14T14:00:00")]
              [("dateTime", PStr "2025-08-14T15:30:00")]
              (PStr "2025-08-14T14:00:00") (PStr "2025-08-14T15:30:00")
              two_pm half_past_three _
              eq_refl eq_refl eq_refl eq_refl eq_refl eq_refl eq_refl) as (H & _).
  apply H. repeat split.
Defined.

(** A profile without [mail] and with an empty list of phones. *)
Lemma user_info_fallbacks_witness :
  exists text,
    render_user_info (PDict a_user) = Ok [mkTextContent "text" text]
    /\ contains ("   Email: " ++ "ada@example.org" ++ nl) text
    /\ exists head, text = head ++ "   Phone: N/A".
Proof.
  eexists. split; [reflexivity|].
  destruct (user_info_fallbacks a_user _ eq_refl) as (H1 & _ & H3 & _).
  split; [exact (H1 eq_refl)|exact (H3 eq_refl)].
Defined.

(** A trailing [Z], as in [2025-08-14T14:00:00Z]. *)
Lemma inserted_Z_is_ignored_witness :
  parse_time "start" (PStr ("2025-08-14T14:00:00" ++ "Z" ++ EmptyString)) = Ok two_pm.
Proof.
  apply (proj2 (inserted_Z_is_ignored "start" "2025-08-14T14:00:00" EmptyString two_pm)).
  reflexivity.
Defined.

Lemma isoformat_round_trip_witness :
  valid_datetime two_pm = true
  /\ parse_time "start" (PStr (isoformat two_pm)) = Ok two_pm
  /\ parse_time "start" (PStr (isoformat two_pm ++ "Z")) = Ok two_pm.
Proof.
  split; [reflexivity|].
  destruct (isoformat_round_trip two_pm "start" eq_refl) as (H & _).
  exact (H eq_refl).
Defined.

Lemma two_addresses_is_not_empty : ["ada@example.org"; "bob"] <> [].
Proof.
  discriminate.
Defined.

(** Two addresses, one of them without [@]; then a list holding a number. *)
Lemma attendees_are_expanded_witness :
  (exists data,
      event_body (PStr "Review") two_pm half_past_three PNone PNone
        (PList (map PStr ["ada@example.org"; "bob"])) = Ok data
      /\ dict_get data "attendees"
         = Some (PList (map attendee_of ["ada@example.org"; "bob"])))
  /\ (exists e,
        event_body (PStr "Review") two_pm half_past_three PNone PNone
          (PList [PStr "ada@example.org"; PInt 3]) = Raise e
        /\ forall gc w,
             create_event (env_answering empty_page) gc (PStr "Review") two_pm
               half_past_three PNone PNone (PList [PStr "ada@example.org"; PInt 3]) w
             = (Raise e, w)).
Proof.
  destruct (attendees_are_expanded (env_answering empty_page) (PStr "Review")
              two_pm half_past_three PNone PNone) as (H1 & _ & _ & H4).
  split.
  - exact (H1 ["ada@example.org"; "bob"] two_addresses_is_not_empty).
  - apply (H4 [PStr "ada@example.org"; PInt 3] (PInt 3)).
    + right. left. reflexivity.
    + reflexivity.
Defined.

Lemma a_at_b_is_not_empty : "a@b" <> EmptyString.
Proof.
  discriminate.
Defined.

Lemma text_attendees_are_split_into_characters_witness :
  exists data,
    event_body (PStr "Review") two_pm half_past_three PNone PNone (PStr "a@b") = Ok data
    /\ dict_get data "attendees" = Some (PList (map attendee_of (str_chars "a@b")))
    /\ List.length (map attendee_of (str_chars "a@b")) = String.length "a@b".
Proof.
  exact (text_attendees_are_split_into_characters (PStr "Review") two_pm half_past_three
           PNone PNone "a@b" a_at_b_is_not_empty).
Defined.



(** Two ids, the service answering 404 to both. *)
Lemma bulk_record_reflects_its_answer_witness :
  truthy (ec_access_token mail_client) = true
  /\ exists results w',
       bulk_mark_read (env_answering not_found) mail_client ["a"; "b"] world0
       = (Ok results, w')
       /\ forall i msg_id,
            nth_error ["a"; "b"] i = Some msg_id ->
            nth_error results i
            = Some (record_of msg_id
                      (answer_value
                         (http (env_answering not_found)
                               (trace world0
                                  ++ map (mark_request mail_client) (firstn i ["a"; "b"]))%list
                               (mark_request mail_client msg_id)))).
Proof.
  split; [reflexivity|].
  apply (bulk_record_reflects_its_answer (env_answering not_found) mail_client
           ["a"; "b"] world0).
  reflexivity.
Defined.

Lemma bulk_without_token_fails_every_id_witness :
  truthy (ec_access_token mail_client_signed_out) = false
  /\ bulk_mark_read (env_answering empty_page) mail_client_signed_out ["a"; "b"] world0
     = (Ok (map (fun msg_id =>
                   PDict [("id", PStr msg_id); ("success", PBool false);
                          ("error",
                           PStr "No access token available. Please authenticate first.")])
                ["a"; "b"]), world0).
Proof.
  split; [reflexivity|].
  apply (bulk_without_token_fails_every_id (env_answering empty_page)
           mail_client_signed_out ["a"; "b"] world0).
  reflexivity.
Defined.

Lemma bulk_mark_read_of_a_concatenation_witness :
  bulk_mark_read (env_answering no_content) mail_client (["a"] ++ ["b"])%list world0
  = (Ok ([record_of "a" (Ok PNone)] ++ [record_of "b" (Ok PNone)])%list,
     mkWorld [mark_request mail_client "a"; mark_request mail_client "b"] 0).
Proof.
  apply (bulk_mark_read_of_a_concatenation (env_answering no_content) mail_client
           ["a"] ["b"] world0 (mkWorld [mark_request mail_client "a"] 0)).
  - reflexivity.
  - reflexivity.
Defined.

(** The folder is answered with 204 and no body. *)
Lemma unread_count_of_the_answer_witness :
  truthy (ec_access_token mail_client) = true
  /\ fst (get_unread_count (env_answering no_content) mail_client "inbox" world0)
     = Raise (mkExn AttributeError "'NoneType' object has no attribute 'get'").
Proof.
  split; [reflexivity|].
  destruct (unread_count_of_the_answer (env_answering no_content) mail_client "inbox"
              world0 eq_refl) as (_ & _ & _ & _ & _ & _ & H & _).
  exact (H no_content eq_refl eq_refl eq_refl).
Defined.
